(** * ZKTeco device simulator (zk_simulator.py): shallow embedding

    The simulator is a Python class [ZKSimulator] whose methods build and
    parse binary frames with [struct] and mutate the object's attributes.
    Here:
    - Python [int] is [Z]; [bytes] is [list byte];
    - [struct.pack] / [struct.unpack] are written out per format character,
      with the range check that makes [struct.pack] raise [struct.error];
      native formats (['H'], ['I'], ['20i']) are taken on a little-endian
      host with 2-byte shorts and 4-byte ints;
    - a method that can raise returns a [result]; a method that mutates
      [self] takes the state and returns the state it leaves behind, also
      when it raises;
    - [print] calls are not modelled. *)

From Stdlib Require Import ZArith List Lia Bool.
From Stdlib Require Import Strings.Byte.
From Stdlib Require Strings.String Strings.Ascii DecimalString.
Import ListNotations String.StringSyntax.
Delimit Scope string_scope with string.
Local Open Scope Z_scope.

(** ** Exceptions *)

Inductive exn : Type :=
| StructError   (* struct.error: argument out of range *)
| ValueError.   (* datetime(...) with an impossible field *)

Inductive result (A : Type) : Type :=
| Ok (a : A)
| Raise (e : exn).

Arguments Ok {A} a.
Arguments Raise {A} e.

Definition bind {A B : Type} (c : result A) (k : A -> result B) : result B :=
  match c with
  | Ok a => k a
  | Raise e => Raise e
  end.

Declare Scope py_scope.
Notation "x <- c ;; k" := (bind c (fun x => k))
  (at level 61, c at next level, right associativity) : py_scope.
Local Open Scope py_scope.

(** ** Bytes *)

Definition bytes : Type := list byte.

Definition byte_val (b : byte) : Z := Z.of_N (Byte.to_N b).

Definition byte_of (z : Z) : byte :=
  match Byte.of_N (Z.to_N (z mod 256)) with
  | Some b => b
  | None => x00
  end.

(** [int.to_bytes(n, 'little')] on the low [n] bytes of [z]. *)
Fixpoint int_to_le (n : nat) (z : Z) : bytes :=
  match n with
  | O => []
  | S k => byte_of z :: int_to_le k (z / 256)
  end.

(** [int.from_bytes(bs, 'little')]. *)
Fixpoint int_from_le (bs : bytes) : Z :=
  match bs with
  | [] => 0
  | b :: t => byte_val b + 256 * int_from_le t
  end.

(** [b.ljust(n, b'\x00')] *)
Definition ljust (n : nat) (b : bytes) : bytes :=
  b ++ repeat x00 (n - length b).

Fixpoint lstrip0 (b : bytes) : bytes :=
  match b with
  | x00 :: t => lstrip0 t
  | _ => b
  end.

(** [b.rstrip(b'\x00')] *)
Definition rstrip0 (b : bytes) : bytes := rev (lstrip0 (rev b)).

(** [b[i:j]] for non-negative [i], [j]. *)
Definition slice (i j : Z) (b : bytes) : bytes :=
  firstn (Z.to_nat j - Z.to_nat i) (skipn (Z.to_nat i) b).

Definition blen (b : bytes) : Z := Z.of_nat (length b).

(** [str(z).encode()] for an [int] [z]. *)
Definition str_int (z : Z) : bytes :=
  String.list_byte_of_string
    (DecimalString.NilZero.string_of_int (Z.to_int z)).

Definition is_digit (b : byte) : bool :=
  (48 <=? byte_val b) && (byte_val b <=? 57).

(** [b.isdigit()] on [bytes]: non-empty and ASCII digits only. *)
Definition isdigit (b : bytes) : bool :=
  negb (Nat.eqb (length b) 0) && forallb is_digit b.

(** [int(b)] on a [bytes] of ASCII digits. *)
Definition int_of_digits (b : bytes) : Z :=
  fold_left (fun acc d => 10 * acc + (byte_val d - 48)) b 0.

(** ** struct *)

Definition in_unsigned (n : nat) (v : Z) : bool :=
  (0 <=? v) && (v <? 2 ^ (8 * Z.of_nat n)).

Definition in_signed (n : nat) (v : Z) : bool :=
  (- 2 ^ (8 * Z.of_nat n - 1) <=? v) && (v <? 2 ^ (8 * Z.of_nat n - 1)).

(** Formats [B], [H], [I] (1, 2, 4 bytes). *)
Definition pack_uint (n : nat) (v : Z) : result bytes :=
  if in_unsigned n v then Ok (int_to_le n v) else Raise StructError.

(** Formats [b], [h], [i]. *)
Definition pack_sint (n : nat) (v : Z) : result bytes :=
  if in_signed n v then Ok (int_to_le n (v mod 2 ^ (8 * Z.of_nat n)))
  else Raise StructError.

Definition unpack_uint (b : bytes) : Z := int_from_le b.

Definition unpack_sint (b : bytes) : Z :=
  let u := int_from_le b in
  let w := 8 * Z.of_nat (length b) in
  if u <? 2 ^ (w - 1) then u else u - 2 ^ w.

(** Format [<n>s]: truncated or NUL-padded to [n] bytes. *)
Definition pack_s (n : nat) (s : bytes) : bytes :=
  firstn n s ++ repeat x00 (n - length s).

(** ** Constants *)

Definition USHRT_MAX : Z := 65535.

Definition CMD_CONNECT : Z := 1000.
Definition CMD_EXIT : Z := 1001.
Definition CMD_ENABLEDEVICE : Z := 1002.
Definition CMD_DISABLEDEVICE : Z := 1003.
Definition CMD_GET_TIME : Z := 201.
Definition CMD_SET_TIME : Z := 202.
Definition CMD_GET_VERSION : Z := 1100.
Definition CMD_AUTH : Z := 1102.
Definition CMD_OPTIONS_RRQ : Z := 11.
Definition CMD_OPTIONS_WRQ : Z := 12.
Definition CMD_GET_FREE_SIZES : Z := 50.
Definition CMD_USERTEMP_RRQ : Z := 9.
Definition CMD_ATTLOG_RRQ : Z := 13.
Definition CMD_FREE_DATA : Z := 1502.
Definition CMD_PREPARE_BUFFER : Z := 1503.
Definition CMD_REG_EVENT : Z := 500.
Definition CMD_STARTVERIFY : Z := 60.
Definition CMD_GET_PINWIDTH : Z := 69.
Definition CMD_UNLOCK : Z := 31.
Definition CMD_TESTVOICE : Z := 1017.
Definition CMD_USER_WRQ : Z := 8.
Definition CMD_DELETE_USER : Z := 18.
Definition CMD_REFRESHDATA : Z := 1013.
Definition CMD_DELETE_USERTEMP : Z := 19.
Definition CMD_STARTENROLL : Z := 61.
Definition CMD_CANCELCAPTURE : Z := 62.
Definition _CMD_GET_USERTEMP : Z := 88.
Definition CMD_DB_RRQ : Z := 7.
Definition _CMD_SAVE_USERTEMPS : Z := 110.
Definition _CMD_PREPARE_BUFFER : Z := 1503.
Definition _CMD_READ_BUFFER : Z := 1504.

Definition CMD_ACK_OK : Z := 2000.
Definition CMD_ACK_ERROR : Z := 2001.
Definition CMD_ACK_UNAUTH : Z := 2005.
Definition CMD_PREPARE_DATA : Z := 1500.
Definition CMD_DATA : Z := 1501.

Definition MACHINE_PREPARE_DATA_1 : Z := 20560. (* 0x5050 *)
Definition MACHINE_PREPARE_DATA_2 : Z := 32130. (* 0x7d82 *)

Definition FCT_USER : Z := 5.
Definition FCT_ATTLOG : Z := 1.
Definition FCT_FINGERTMP : Z := 2.

(** ** Frame codec *)

(** The first loop of [create_checksum]: consume two bytes at a time,
    folding once after each word; a last odd byte is added unfolded. *)
Fixpoint sum_words (checksum : Z) (packet_bytes : bytes) : Z :=
  match packet_bytes with
  | b0 :: b1 :: rest =>
      let checksum := checksum + unpack_uint [b0; b1] in
      let checksum :=
        if checksum >? USHRT_MAX then checksum - USHRT_MAX else checksum in
      sum_words checksum rest
  | [b] => checksum + byte_val b
  | [] => checksum
  end.

(** [while checksum > USHRT_MAX: checksum -= USHRT_MAX] *)
Fixpoint fold_down (fuel : nat) (checksum : Z) : Z :=
  match fuel with
  | O => checksum
  | S f =>
      if checksum >? USHRT_MAX then fold_down f (checksum - USHRT_MAX)
      else checksum
  end.

(** [while checksum < 0: checksum += USHRT_MAX] *)
Fixpoint lift_up (fuel : nat) (checksum : Z) : Z :=
  match fuel with
  | O => checksum
  | S f =>
      if checksum <? 0 then lift_up f (checksum + USHRT_MAX)
      else checksum
  end.

(** The integer [create_checksum] hands to [struct.pack('H', ...)].
    Each loop gets as much fuel as its variable is away from the bound,
    which is more iterations than it can make. *)
Definition checksum_value (packet : bytes) : Z :=
  let checksum := sum_words 0 packet in
  let checksum := fold_down (Z.to_nat checksum) checksum in
  let checksum := Z.lnot checksum in
  lift_up (Z.to_nat (- checksum)) checksum.

Definition create_checksum (packet : bytes) : result bytes :=
  pack_uint 2 (checksum_value packet).

(** [struct.pack('<4H', a, b, c, d)] *)
Definition pack_4H (a b c d : Z) : result bytes :=
  a' <- pack_uint 2 a ;;
  b' <- pack_uint 2 b ;;
  c' <- pack_uint 2 c ;;
  d' <- pack_uint 2 d ;;
  Ok (a' ++ b' ++ c' ++ d').

Definition create_header (command session_id reply_id : Z) (data : bytes)
  : result bytes :=
  hdr0 <- pack_4H command 0 session_id reply_id ;;
  let buf := hdr0 ++ data in
  cs <- create_checksum buf ;;
  let checksum := unpack_uint cs in
  header <- pack_4H command checksum session_id reply_id ;;
  Ok (header ++ data).

Definition create_tcp_top (packet : bytes) : result bytes :=
  let length := blen packet in
  m1 <- pack_uint 2 MACHINE_PREPARE_DATA_1 ;;
  m2 <- pack_uint 2 MACHINE_PREPARE_DATA_2 ;;
  l <- pack_uint 4 length ;;
  Ok (m1 ++ m2 ++ l ++ packet).

(** ** The checksum as the specification words it *)

(** The packet as 16-bit little-endian words; an odd trailing byte is the
    low byte of a final word. *)
Fixpoint words_le (packet : bytes) : list Z :=
  match packet with
  | b0 :: b1 :: rest => (byte_val b0 + 256 * byte_val b1) :: words_le rest
  | [b] => [byte_val b]
  | [] => []
  end.

(** Add a word; whenever the accumulator exceeds 0xFFFF, subtract 0xFFFF. *)
Definition fold_carry (acc w : Z) : Z :=
  let acc := acc + w in
  if acc >? 65535 then acc - 65535 else acc.

(** Sum the words with carry folding, take the bitwise NOT, and bring a
    negative value back by multiples of 0xFFFF to the first non-negative
    one. *)
Definition ones_complement_checksum (packet : bytes) : Z :=
  let n := Z.lnot (fold_left fold_carry (words_le packet) 0) in
  if n <? 0 then n mod 65535 else n.

(** The packet with its checksum field (bytes 2 and 3) set to zero. *)
Definition zero_checksum_field (packet : bytes) : bytes :=
  firstn 2 packet ++ [x00; x00] ++ skipn 4 packet.

(** The checksum field of a packet. *)
Definition stored_checksum (packet : bytes) : Z :=
  unpack_uint (slice 2 4 packet).

(** A receiver's check: recompute over the packet with the field zeroed
    and compare with the field. *)
Definition checksum_verifies (packet : bytes) : bool :=
  stored_checksum packet =? ones_complement_checksum (zero_checksum_field packet).

(** ** Timestamps *)

(** The six fields of a [datetime] that [encode_time] reads and
    [decode_time] passes to the constructor. *)
Record datetime : Type := mk_datetime {
  year : Z; month : Z; day : Z; hour : Z; minute : Z; second : Z
}.

Definition is_leap (y : Z) : bool :=
  (y mod 4 =? 0) && (negb (y mod 100 =? 0) || (y mod 400 =? 0)).

Definition days_in_month (y m : Z) : Z :=
  if m =? 2 then (if is_leap y then 29 else 28)
  else if (m =? 4) || (m =? 6) || (m =? 9) || (m =? 11) then 30
  else 31.

(** The checks of the [datetime] constructor. *)
Definition valid_datetime (dt : datetime) : bool :=
  (1 <=? year dt) && (year dt <=? 9999) &&
  (1 <=? month dt) && (month dt <=? 12) &&
  (1 <=? day dt) && (day dt <=? days_in_month (year dt) (month dt)) &&
  (0 <=? hour dt) && (hour dt <=? 23) &&
  (0 <=? minute dt) && (minute dt <=? 59) &&
  (0 <=? second dt) && (second dt <=? 59).

(** [datetime(year, month, day, hour, minute, second)] *)
Definition datetime_new (y mo d h mi s : Z) : result datetime :=
  let dt := mk_datetime y mo d h mi s in
  if valid_datetime dt then Ok dt else Raise ValueError.

Definition encode_time_value (dt : datetime) : Z :=
  ((year dt mod 100) * 12 * 31 + ((month dt - 1) * 31) + day dt - 1) *
  (24 * 60 * 60) + (hour dt * 60 + minute dt) * 60 + second dt.

Definition encode_time (dt : datetime) : result bytes :=
  pack_uint 4 (encode_time_value dt).

Definition decode_time (t : Z) : result datetime :=
  let second := t mod 60 in
  let t := t / 60 in
  let minute := t mod 60 in
  let t := t / 60 in
  let hour := t mod 24 in
  let t := t / 24 in
  let day := t mod 31 + 1 in
  let t := t / 31 in
  let month := t mod 12 + 1 in
  let t := t / 12 in
  let year := t + 2000 in
  datetime_new year month day hour minute second.

(** ** Device model *)

(** A user tuple [(uid, privilege, password, name, card, group_id, user_id)].
    In every tuple the simulator builds, [password] and [name] are [bytes]
    and [group_id] and [user_id] are [int]. *)
Record User : Type := mk_user {
  u_uid : Z; u_privilege : Z; u_password : bytes; u_name : bytes;
  u_card : Z; u_group_id : Z; u_user_id : Z
}.

(** A template tuple [(uid, fid, valid, template_data)]. *)
Record Template : Type := mk_template {
  t_uid : Z; t_fid : Z; t_valid : Z; t_data : bytes
}.

(** An attendance tuple [(user_id, timestamp_encoded, status, punch, uid)]. *)
Record Attendance : Type := mk_attendance {
  a_user_id : Z; a_timestamp : bytes; a_status : Z; a_punch : Z; a_uid : Z
}.

(** The attributes of a [ZKSimulator] object. The strings are held as the
    bytes [.encode()] gives; [enrollment_conn] is never assigned after
    [__init__] and is left out. *)
Record State : Type := mk_state {
  ip : bytes;
  port : Z;
  password : Z;
  use_tcp : bool;
  session_id : Z;
  is_authenticated : bool;
  firmware_version : bytes;
  serial_number : bytes;
  platform : bytes;
  device_name : bytes;
  mac_address : bytes;
  users : list User;
  templates : list Template;
  attendance_records : list Attendance;
  registered_events : Z;
  enrollment_mode : bool;
  enrollment_uid : Z;
  enrollment_fid : Z;
  data_buffer : bytes;
  users_count : Z;
  users_capacity : Z;
  fingers_count : Z;
  fingers_capacity : Z;
  records_count : Z;
  records_capacity : Z
}.

Definition set_session_id (v : Z) (s : State) : State :=
  mk_state (ip s) (port s) (password s) (use_tcp s) v (is_authenticated s)
    (firmware_version s) (serial_number s) (platform s) (device_name s)
    (mac_address s) (users s) (templates s) (attendance_records s)
    (registered_events s) (enrollment_mode s) (enrollment_uid s)
    (enrollment_fid s) (data_buffer s) (users_count s) (users_capacity s)
    (fingers_count s) (fingers_capacity s) (records_count s)
    (records_capacity s).

Definition set_is_authenticated (v : bool) (s : State) : State :=
  mk_state (ip s) (port s) (password s) (use_tcp s) (session_id s) v
    (firmware_version s) (serial_number s) (platform s) (device_name s)
    (mac_address s) (users s) (templates s) (attendance_records s)
    (registered_events s) (enrollment_mode s) (enrollment_uid s)
    (enrollment_fid s) (data_buffer s) (users_count s) (users_capacity s)
    (fingers_count s) (fingers_capacity s) (records_count s)
    (records_capacity s).

Definition set_users (v : list User) (s : State) : State :=
  mk_state (ip s) (port s) (password s) (use_tcp s) (session_id s)
    (is_authenticated s)
    (firmware_version s) (serial_number s) (platform s) (device_name s)
    (mac_address s) v (templates s) (attendance_records s)
    (registered_events s) (enrollment_mode s) (enrollment_uid s)
    (enrollment_fid s) (data_buffer s) (users_count s) (users_capacity s)
    (fingers_count s) (fingers_capacity s) (records_count s)
    (records_capacity s).

Definition set_templates (v : list Template) (s : State) : State :=
  mk_state (ip s) (port s) (password s) (use_tcp s) (session_id s)
    (is_authenticated s)
    (firmware_version s) (serial_number s) (platform s) (device_name s)
    (mac_address s) (users s) v (attendance_records s)
    (registered_events s) (enrollment_mode s) (enrollment_uid s)
    (enrollment_fid s) (data_buffer s) (users_count s) (users_capacity s)
    (fingers_count s) (fingers_capacity s) (records_count s)
    (records_capacity s).

Definition set_registered_events (v : Z) (s : State) : State :=
  mk_state (ip s) (port s) (password s) (use_tcp s) (session_id s)
    (is_authenticated s)
    (firmware_version s) (serial_number s) (platform s) (device_name s)
    (mac_address s) (users s) (templates s) (attendance_records s)
    v (enrollment_mode s) (enrollment_uid s)
    (enrollment_fid s) (data_buffer s) (users_count s) (users_capacity s)
    (fingers_count s) (fingers_capacity s) (records_count s)
    (records_capacity s).

Definition set_enrollment_mode (v : bool) (s : State) : State :=
  mk_state (ip s) (port s) (password s) (use_tcp s) (session_id s)
    (is_authenticated s)
    (firmware_version s) (serial_number s) (platform s) (device_name s)
    (mac_address s) (users s) (templates s) (attendance_records s)
    (registered_events s) v (enrollment_uid s)
    (enrollment_fid s) (data_buffer s) (users_count s) (users_capacity s)
    (fingers_count s) (fingers_capacity s) (records_count s)
    (records_capacity s).

Definition set_enrollment_uid (v : Z) (s : State) : State :=
  mk_state (ip s) (port s) (password s) (use_tcp s) (session_id s)
    (is_authenticated s)
    (firmware_version s) (serial_number s) (platform s) (device_name s)
    (mac_address s) (users s) (templates s) (attendance_records s)
    (registered_events s) (enrollment_mode s) v
    (enrollment_fid s) (data_buffer s) (users_count s) (users_capacity s)
    (fingers_count s) (fingers_capacity s) (records_count s)
    (records_capacity s).

Definition set_enrollment_fid (v : Z) (s : State) : State :=
  mk_state (ip s) (port s) (password s) (use_tcp s) (session_id s)
    (is_authenticated s)
    (firmware_version s) (serial_number s) (platform s) (device_name s)
    (mac_address s) (users s) (templates s) (attendance_records s)
    (registered_events s) (enrollment_mode s) (enrollment_uid s)
    v (data_buffer s) (users_count s) (users_capacity s)
    (fingers_count s) (fingers_capacity s) (records_count s)
    (records_capacity s).

Definition set_data_buffer (v : bytes) (s : State) : State :=
  mk_state (ip s) (port s) (password s) (use_tcp s) (session_id s)
    (is_authenticated s)
    (firmware_version s) (serial_number s) (platform s) (device_name s)
    (mac_address s) (users s) (templates s) (attendance_records s)
    (registered_events s) (enrollment_mode s) (enrollment_uid s)
    (enrollment_fid s) v (users_count s) (users_capacity s)
    (fingers_count s) (fingers_capacity s) (records_count s)
    (records_capacity s).

Definition set_users_count (v : Z) (s : State) : State :=
  mk_state (ip s) (port s) (password s) (use_tcp s) (session_id s)
    (is_authenticated s)
    (firmware_version s) (serial_number s) (platform s) (device_name s)
    (mac_address s) (users s) (templates s) (attendance_records s)
    (registered_events s) (enrollment_mode s) (enrollment_uid s)
    (enrollment_fid s) (data_buffer s) v (users_capacity s)
    (fingers_count s) (fingers_capacity s) (records_count s)
    (records_capacity s).

Definition set_fingers_count (v : Z) (s : State) : State :=
  mk_state (ip s) (port s) (password s) (use_tcp s) (session_id s)
    (is_authenticated s)
    (firmware_version s) (serial_number s) (platform s) (device_name s)
    (mac_address s) (users s) (templates s) (attendance_records s)
    (registered_events s) (enrollment_mode s) (enrollment_uid s)
    (enrollment_fid s) (data_buffer s) (users_count s) (users_capacity s)
    v (fingers_capacity s) (records_count s)
    (records_capacity s).

(** A [bytes] literal. *)
Definition b_lit (s : String.string) : bytes := String.list_byte_of_string s.

Arguments b_lit s%_string.

Definition len {A : Type} (l : list A) : Z := Z.of_nat (length l).

(** [ZKSimulator.__init__] *)
Definition init (ip : bytes) (port password : Z) (use_tcp : bool) : State :=
  let users :=
    [ mk_user 1 0 [] (b_lit "Admin") 0 0 1;
      mk_user 2 0 (b_lit "12345") (b_lit "User001") 123456 0 2;
      mk_user 3 0 [] (b_lit "User002") 234567 0 3 ] in
  {| ip := ip; port := port; password := password; use_tcp := use_tcp;
     session_id := 0; is_authenticated := false;
     firmware_version := b_lit "Ver 6.60 Nov 13 2019";
     serial_number := b_lit "DGD9190019050335743";
     platform := b_lit "ZEM560";
     device_name := b_lit "ZKTeco Device";
     mac_address := b_lit "00:17:61:C8:EC:17";
     users := users;
     templates := [];
     attendance_records := [];
     registered_events := 0;
     enrollment_mode := false;
     enrollment_uid := 0;
     enrollment_fid := 0;
     data_buffer := [];
     users_count := len users;
     users_capacity := 3000;
     fingers_count := 5;
     fingers_capacity := 10000;
     records_count := 150;
     records_capacity := 100000 |}.

(** [ZKSimulator()] with the default arguments. *)
Definition init_default : State := init (b_lit "0.0.0.0") 4370 0 true.

(** ** Session engine *)

(** A Python [str], as its code points. *)
Definition pystr : Type := list Z.

(** A [str] literal (ASCII). *)
Definition s_lit (s : String.string) : pystr := map byte_val (b_lit s).

Arguments s_lit s%_string.

Definition pystr_eqb (a b : pystr) : bool :=
  if list_eq_dec Z.eq_dec a b then true else false.

(** A [for] loop that threads an accumulator and stops at the first
    exception. *)
Fixpoint for_each {A S : Type} (l : list A) (acc : S)
  (body : S -> A -> result S) : result S :=
  match l with
  | [] => Ok acc
  | x :: t => acc' <- body acc x ;; for_each t acc' body
  end.

(** [struct.pack('<HB8s24sIx7sx24s', ...)], 72 bytes. *)
Definition pack_HB8s24sIx7sx24s (uid privilege : Z) (password name : bytes)
  (card : Z) (group_id user_id : bytes) : result bytes :=
  a <- pack_uint 2 uid ;;
  b <- pack_uint 1 privilege ;;
  c <- pack_uint 4 card ;;
  Ok (a ++ b ++ pack_s 8 password ++ pack_s 24 name ++ c ++ [x00] ++
      pack_s 7 group_id ++ [x00] ++ pack_s 24 user_id).

(** [struct.pack('<HHbb', size, uid, fid, valid)] *)
Definition pack_HHbb (size uid fid valid : Z) : result bytes :=
  a <- pack_uint 2 size ;;
  b <- pack_uint 2 uid ;;
  c <- pack_sint 1 fid ;;
  d <- pack_sint 1 valid ;;
  Ok (a ++ b ++ c ++ d).

(** [struct.pack('<H24sB4sB8s', ...)], 40 bytes. *)
Definition pack_H24sB4sB8s (uid : Z) (user_id : bytes) (status : Z)
  (timestamp : bytes) (punch : Z) (space : bytes) : result bytes :=
  a <- pack_uint 2 uid ;;
  b <- pack_uint 1 status ;;
  c <- pack_uint 1 punch ;;
  Ok (a ++ pack_s 24 user_id ++ b ++ pack_s 4 timestamp ++ c ++
      pack_s 8 space).

(** [struct.pack('<n>i', ...)] on a list of [int]s. *)
Definition pack_ints (l : list Z) : result bytes :=
  for_each l [] (fun acc v => b <- pack_sint 4 v ;; Ok (acc ++ b)).

(** The user tuple [struct.unpack('<HB5s8sIxBHI', data[:28])] leads to. *)
Definition unpack_user28 (data : bytes) : User :=
  let d := firstn 28 data in
  let uid := unpack_uint (slice 0 2 d) in
  let privilege := unpack_uint (slice 2 3 d) in
  let password := slice 3 8 d in
  let name := slice 8 16 d in
  let card := unpack_uint (slice 16 20 d) in
  let group_id := unpack_uint (slice 21 22 d) in
  let user_id := unpack_uint (slice 24 28 d) in
  let password := rstrip0 password in
  let name := rstrip0 name in
  mk_user uid privilege password name card group_id user_id.

(** The user tuple [struct.unpack('<HB8s24sIx7sx24s', data[:72])] leads to:
    group 0, and the user id read as a number when it is all digits. *)
Definition unpack_user72 (data : bytes) : User :=
  let d := firstn 72 data in
  let uid := unpack_uint (slice 0 2 d) in
  let privilege := unpack_uint (slice 2 3 d) in
  let password := slice 3 11 d in
  let name := slice 11 35 d in
  let card := unpack_uint (slice 35 39 d) in
  let user_id := slice 48 72 d in
  let password := rstrip0 password in
  let name := rstrip0 name in
  let user_id_str := rstrip0 user_id in
  mk_user uid privilege password name card 0
    (if isdigit user_id_str then int_of_digits user_id_str else uid).

(** The update-or-add loop on [self.users]; the source spells it out at
    each of its four uses. *)
Definition upsert_user (us : list User) (uid : Z) (new : User) : list User :=
  let '(new_users, user_found) :=
    fold_left
      (fun '(new_users, user_found) u =>
         if u_uid u =? uid then (new_users ++ [new], true)
         else (new_users ++ [u], user_found))
      us ([], false) in
  if negb user_found then new_users ++ [new] else new_users.

(** [[t for t in templates if not (t[0] == uid and t[1] == fid)]] *)
Definition remove_template (ts : list Template) (uid fid : Z) : list Template :=
  filter (fun t => negb ((t_uid t =? uid) && (t_fid t =? fid))) ts.

(** An interpreter for the two parameters of the engine below, enough to
    run it on ASCII input: [bytes.decode('ascii', errors='ignore')], and
    [int] on a string of ASCII digits. *)
Definition decode_ascii_ignore (b : bytes) : pystr :=
  map byte_val (filter (fun x => byte_val x <? 128) b).

Definition int_of_ascii (s : pystr) : option Z :=
  if negb (Nat.eqb (length s) 0) && forallb (fun c => (48 <=? c) && (c <=? 57)) s
  then Some (fold_left (fun acc c => 10 * acc + (c - 48)) s 0)
  else None.

(** [self.session_id], where a parameter of the method has that name too. *)
Definition self_session_id (st : State) : Z := session_id st.

Section Simulator.

(** [bytes.decode('utf-8', errors='ignore')] and [int(s)] on a [str]
    ([None] where it raises) are the interpreter's; the engine is
    parameterised by them. *)
Variable decode_ignore : bytes -> pystr.
Variable int_of_str : pystr -> option Z.

Definition handle_connect (st : State) (session_id reply_id : Z)
  : result bytes * State :=
  let st := set_session_id (if negb (session_id =? 0) then session_id else 1000) st in
  if password st =? 0 then
    let st := set_is_authenticated true st in
    (create_header CMD_ACK_OK (self_session_id st) reply_id [], st)
  else
    (create_header CMD_ACK_UNAUTH (self_session_id st) reply_id [], st).

Definition handle_auth (st : State) (session_id reply_id : Z) (data : bytes)
  : result bytes * State :=
  let st := set_is_authenticated true st in
  let st := set_session_id session_id st in
  (create_header CMD_ACK_OK (self_session_id st) reply_id [], st).

Definition handle_exit (st : State) (session_id reply_id : Z)
  : result bytes * State :=
  let response := create_header CMD_ACK_OK session_id reply_id [] in
  match response with
  | Ok _ => (response, set_is_authenticated false st)
  | Raise _ => (response, st)
  end.

Definition handle_enable_device (session_id reply_id : Z) : result bytes :=
  create_header CMD_ACK_OK session_id reply_id [].

Definition handle_disable_device (session_id reply_id : Z) : result bytes :=
  create_header CMD_ACK_OK session_id reply_id [].

Definition handle_get_version (st : State) (session_id reply_id : Z)
  : result bytes :=
  let data := firmware_version st ++ [x00] in
  create_header CMD_ACK_OK session_id reply_id data.

(** [now] stands for the [datetime.now()] of the call. *)
Definition handle_get_time (now : datetime) (session_id reply_id : Z)
  : result bytes :=
  time_data <- encode_time now ;;
  create_header CMD_ACK_OK session_id reply_id time_data.

Definition handle_set_time (session_id reply_id : Z) (data : bytes)
  : result bytes :=
  _ <- (if 4 <=? blen data then
          let timestamp := unpack_uint (firstn 4 data) in
          dt <- decode_time timestamp ;; Ok tt
        else Ok tt) ;;
  create_header CMD_ACK_OK session_id reply_id [].

Definition handle_options_rrq (st : State) (session_id reply_id : Z)
  (data : bytes) : result bytes :=
  let option_name := decode_ignore (rstrip0 data) in
  let named k := pystr_eqb option_name k in
  let response_data :=
    if named (s_lit "~SerialNumber") then
      b_lit "~SerialNumber=" ++ serial_number st ++ [x00]
    else if named (s_lit "~Platform") then
      b_lit "~Platform=" ++ platform st ++ [x00]
    else if named (s_lit "MAC") then
      b_lit "MAC=" ++ mac_address st ++ [x00]
    else if named (s_lit "~DeviceName") then
      b_lit "~DeviceName=" ++ device_name st ++ [x00]
    else if named (s_lit "ZKFaceVersion") then b_lit "ZKFaceVersion=0" ++ [x00]
    else if named (s_lit "~ZKFPVersion") then b_lit "~ZKFPVersion=10" ++ [x00]
    else if named (s_lit "IPAddress") then b_lit "IPAddress=" ++ ip st ++ [x00]
    else if named (s_lit "NetMask") then b_lit "NetMask=255.255.255.0" ++ [x00]
    else if named (s_lit "GATEIPAddress") then
      b_lit "GATEIPAddress=192.168.1.1" ++ [x00]
    else if named (s_lit "~ExtendFmt") then b_lit "~ExtendFmt=0" ++ [x00]
    else if named (s_lit "~UserExtFmt") then b_lit "~UserExtFmt=0" ++ [x00]
    else if named (s_lit "FaceFunOn") then b_lit "FaceFunOn=0" ++ [x00]
    else if named (s_lit "CompatOldFirmware") then
      b_lit "CompatOldFirmware=0" ++ [x00]
    else [] in
  create_header CMD_ACK_OK session_id reply_id response_data.

Definition handle_get_free_sizes (st : State) (session_id reply_id : Z)
  : result bytes :=
  size_data <- pack_ints
    [ 0; 0; 0; 0;
      users_count st;
      0;
      fingers_count st;
      0;
      records_count st;
      0; 0; 0; 0; 0;
      fingers_capacity st;
      users_capacity st;
      records_capacity st;
      fingers_capacity st - fingers_count st;
      users_capacity st - users_count st;
      records_capacity st - records_count st ] ;;
  face_data <- pack_ints [0; 0; 0] ;;
  create_header CMD_ACK_OK session_id reply_id (size_data ++ face_data).

Definition handle_usertemp_rrq (st : State) (session_id reply_id : Z)
  : result bytes :=
  user_data <- for_each (users st) []
    (fun user_data u =>
       let password_bytes := firstn 8 (ljust 8 (u_password u)) in
       let name_bytes := u_name u in
       let name_bytes := ljust 24 (firstn 24 name_bytes) in
       let user_id_str := ljust 24 (firstn 24 (str_int (u_user_id u))) in
       let group_id_str := ljust 7 (firstn 7 (str_int (u_group_id u))) in
       user_entry <- pack_HB8s24sIx7sx24s (u_uid u) (u_privilege u)
                       password_bytes name_bytes (u_card u)
                       group_id_str user_id_str ;;
       Ok (user_data ++ user_entry)) ;;
  let total_size := blen user_data in
  size <- pack_uint 4 total_size ;;
  let full_data := size ++ user_data in
  create_header CMD_DATA session_id reply_id full_data.

Definition handle_free_data (session_id reply_id : Z) : result bytes :=
  create_header CMD_ACK_OK session_id reply_id [].

Definition handle_prepare_buffer (st : State) (session_id reply_id : Z)
  (data : bytes) : result bytes :=
  if 11 <=? blen data then
    let d := firstn 11 data in
    let flag := unpack_sint (slice 0 1 d) in
    let command := unpack_sint (slice 1 3 d) in
    let fct := unpack_sint (slice 3 7 d) in
    let ext := unpack_sint (slice 7 11 d) in
    if fct =? FCT_USER then
      user_data <- for_each (users st) []
        (fun user_data u =>
           let password_bytes := firstn 8 (ljust 8 (u_password u)) in
           let name_bytes := u_name u in
           let name_bytes := ljust 24 (firstn 24 name_bytes) in
           let user_id_str := ljust 24 (firstn 24 (str_int (u_user_id u))) in
           let group_id_str := ljust 7 (firstn 7 (str_int (u_group_id u))) in
           user_entry <- pack_HB8s24sIx7sx24s (u_uid u) (u_privilege u)
                           password_bytes name_bytes (u_card u)
                           group_id_str user_id_str ;;
           Ok (user_data ++ user_entry)) ;;
      let total_size := blen user_data in
      size <- pack_uint 4 total_size ;;
      let full_data := size ++ user_data in
      create_header CMD_DATA session_id reply_id full_data
    else if fct =? FCT_FINGERTMP then
      template_data <- for_each (templates st) []
        (fun template_data t =>
           let size := blen (t_data t) + 6 in
           hd <- pack_HHbb size (t_uid t) (t_fid t) (t_valid t) ;;
           Ok (template_data ++ hd ++ t_data t)) ;;
      let total_size := blen template_data in
      size <- pack_uint 4 total_size ;;
      let full_data := size ++ template_data in
      create_header CMD_DATA session_id reply_id full_data
    else if fct =? FCT_ATTLOG then
      att_data <- for_each (attendance_records st) []
        (fun att_data a =>
           let user_id_bytes := ljust 24 (firstn 24 (str_int (a_user_id a))) in
           rec <- pack_H24sB4sB8s (a_uid a) user_id_bytes (a_status a)
                    (a_timestamp a) (a_punch a) (repeat x00 8) ;;
           Ok (att_data ++ rec)) ;;
      let total_size := blen att_data in
      size <- pack_uint 4 total_size ;;
      let full_data := size ++ att_data in
      create_header CMD_DATA session_id reply_id full_data
    else
      response_data <- pack_uint 4 0 ;;
      create_header CMD_DATA session_id reply_id response_data
  else
    create_header CMD_ACK_ERROR session_id reply_id [].

Definition handle_reg_event (st : State) (session_id reply_id : Z)
  (data : bytes) : result bytes * State :=
  let st :=
    if 4 <=? blen data then
      let flags := unpack_uint (firstn 4 data) in
      set_registered_events flags st
    else set_registered_events 0 st in
  (create_header CMD_ACK_OK session_id reply_id [], st).

Definition handle_start_verify (session_id reply_id : Z) : result bytes :=
  create_header CMD_ACK_OK session_id reply_id [].

(** The option string is decoded and split only to be printed. *)
Definition handle_options_wrq (session_id reply_id : Z) (data : bytes)
  : result bytes :=
  let option_str := decode_ignore (rstrip0 data) in
  create_header CMD_ACK_OK session_id reply_id [].

Definition handle_get_pin_width (session_id reply_id : Z) : result bytes :=
  let response_data := [x05] in
  create_header CMD_ACK_OK session_id reply_id response_data.

(** [handle_unlock] and [handle_test_voice] unpack their payload only to
    print it. *)
Definition handle_unlock (session_id reply_id : Z) (data : bytes)
  : result bytes :=
  create_header CMD_ACK_OK session_id reply_id [].

Definition handle_test_voice (session_id reply_id : Z) (data : bytes)
  : result bytes :=
  create_header CMD_ACK_OK session_id reply_id [].

Definition handle_refresh_data (session_id reply_id : Z) : result bytes :=
  create_header CMD_ACK_OK session_id reply_id [].

Definition handle_user_wrq (st : State) (session_id reply_id : Z)
  (data : bytes) : result bytes * State :=
  let st :=
    if 28 <=? blen data then
      (* ZK6 format (28 bytes) *)
      let new := unpack_user28 data in
      let st := set_users (upsert_user (users st) (u_uid new) new) st in
      set_users_count (len (users st)) st
    else if 72 <=? blen data then
      (* ZK8 format (72 bytes) *)
      let new := unpack_user72 data in
      let st := set_users (upsert_user (users st) (u_uid new) new) st in
      set_users_count (len (users st)) st
    else st in
  (create_header CMD_ACK_OK session_id reply_id [], st).

Definition handle_delete_user (st : State) (session_id reply_id : Z)
  (data : bytes) : result bytes * State :=
  let st :=
    if 2 <=? blen data then
      let uid := unpack_uint (firstn 2 data) in
      let st := set_users (filter (fun u => negb (u_uid u =? uid)) (users st)) st in
      let st :=
        set_templates (filter (fun t => negb (t_uid t =? uid)) (templates st)) st in
      let st := set_users_count (len (users st)) st in
      set_fingers_count (len (templates st)) st
    else st in
  (create_header CMD_ACK_OK session_id reply_id [], st).

Definition handle_delete_usertemp (st : State) (session_id reply_id : Z)
  (data : bytes) : result bytes * State :=
  let st :=
    if 3 <=? blen data then
      let d := firstn 3 data in
      let uid := unpack_uint (slice 0 2 d) in
      let temp_id := unpack_sint (slice 2 3 d) in
      let st := set_templates (remove_template (templates st) uid temp_id) st in
      set_fingers_count (len (templates st)) st
    else st in
  (create_header CMD_ACK_OK session_id reply_id [], st).

Definition handle_get_usertemp (st : State) (session_id reply_id : Z)
  (data : bytes) : result bytes :=
  if 3 <=? blen data then
    let d := firstn 3 data in
    let uid := unpack_uint (slice 0 2 d) in
    let temp_id := unpack_sint (slice 2 3 d) in
    match find (fun t => (t_uid t =? uid) && (t_fid t =? temp_id))
            (templates st) with
    | Some t =>
        let template_data := t_data t in
        create_header CMD_DATA session_id reply_id
          (template_data ++ [x00; x00; x00; x00; x00; x00])
    | None => create_header CMD_ACK_ERROR session_id reply_id []
    end
  else
    create_header CMD_ACK_ERROR session_id reply_id [].

Definition handle_db_rrq (st : State) (session_id reply_id : Z)
  (data : bytes) : result bytes :=
  template_data <- for_each (templates st) []
    (fun template_data t =>
       let size := blen (t_data t) + 6 in
       hd <- pack_HHbb size (t_uid t) (t_fid t) (t_valid t) ;;
       Ok (template_data ++ hd ++ t_data t)) ;;
  let total_size := blen template_data in
  size <- pack_uint 4 total_size ;;
  let full_data := size ++ template_data in
  create_header CMD_DATA session_id reply_id full_data.

Definition handle_attlog_rrq (st : State) (session_id reply_id : Z)
  : result bytes :=
  att_data <- for_each (attendance_records st) []
    (fun att_data a =>
       let user_id_bytes := ljust 24 (firstn 24 (str_int (a_user_id a))) in
       rec <- pack_H24sB4sB8s (a_uid a) user_id_bytes (a_status a)
                (a_timestamp a) (a_punch a) (repeat x00 8) ;;
       Ok (att_data ++ rec)) ;;
  let total_size := blen att_data in
  size <- pack_uint 4 total_size ;;
  let full_data := size ++ att_data in
  create_header CMD_DATA session_id reply_id full_data.

Definition handle_start_enroll (st : State) (session_id reply_id : Z)
  (data : bytes) : result bytes * State :=
  let st :=
    if 26 <=? blen data then
      (* TCP format: user_id(24) + temp_id(1) + flag(1) *)
      let d := firstn 26 data in
      let user_id := slice 0 24 d in
      let temp_id := unpack_sint (slice 24 25 d) in
      let flag := unpack_sint (slice 25 26 d) in
      let user_id := decode_ignore (rstrip0 user_id) in
      let uid :=
        match find (fun u => pystr_eqb (map byte_val (str_int (u_user_id u)))
                               user_id) (users st) with
        | Some u => u_uid u
        | None =>
            match int_of_str user_id with
            | Some n => n
            | None => 1
            end
        end in
      let st := set_enrollment_mode true st in
      let st := set_enrollment_uid uid st in
      set_enrollment_fid temp_id st
    else if 5 <=? blen data then
      (* UDP format: user_id(4) + temp_id(1) *)
      let d := firstn 5 data in
      let user_id := unpack_uint (slice 0 4 d) in
      let temp_id := unpack_sint (slice 4 5 d) in
      let st := set_enrollment_mode true st in
      let st := set_enrollment_uid user_id st in
      set_enrollment_fid temp_id st
    else st in
  (create_header CMD_ACK_OK session_id reply_id [], st).

Definition handle_cancel_capture (st : State) (session_id reply_id : Z)
  : result bytes * State :=
  let st := set_enrollment_mode false st in
  let st := set_enrollment_uid 0 st in
  let st := set_enrollment_fid 0 st in
  (create_header CMD_ACK_OK session_id reply_id [], st).

Definition handle_prepare_data (st : State) (session_id reply_id : Z)
  (data : bytes) : result bytes * State :=
  if 4 <=? blen data then
    let size := unpack_uint (firstn 4 data) in
    let st := set_data_buffer [] st in
    (create_header CMD_ACK_OK session_id reply_id [], st)
  else
    (create_header CMD_ACK_ERROR session_id reply_id [], st).

Definition handle_data_packet (st : State) (session_id reply_id : Z)
  (data : bytes) : result bytes * State :=
  let st := set_data_buffer (data_buffer st ++ data) st in
  (create_header CMD_ACK_OK session_id reply_id [], st).

(** The [while len(user_data) >= packet_size] loop of
    [handle_save_usertemps]; every turn drops [packet_size] bytes, so the
    length of [user_data] is fuel enough. *)
Fixpoint parse_users (fuel : nat) (packet_size : Z) (us : list User)
  (user_data : bytes) : list User :=
  match fuel with
  | O => us
  | S f =>
      if packet_size <=? blen user_data then
        if packet_size =? 72 then
          let new := unpack_user72 user_data in
          parse_users f packet_size (upsert_user us (u_uid new) new)
            (skipn 72 user_data)
        else
          let new := unpack_user28 user_data in
          parse_users f packet_size (upsert_user us (u_uid new) new)
            (skipn 28 user_data)
      else us
  end.

(** The [while len(table_data) >= 8] loop over the 8-byte table entries
    ([struct.unpack('<bHbI', ...)]). *)
Fixpoint parse_table (fuel : nat) (table_data fpack_data : bytes)
  (templates_to_add : list Template) : list Template :=
  match fuel with
  | O => templates_to_add
  | S f =>
      if 8 <=? blen table_data then
        let e := firstn 8 table_data in
        let entry_type := unpack_sint (slice 0 1 e) in
        let uid := unpack_uint (slice 1 3 e) in
        let fnum := unpack_sint (slice 3 4 e) in
        let tstart := unpack_uint (slice 4 8 e) in
        let table_data := skipn 8 table_data in
        let templates_to_add :=
          if entry_type =? 2 then
            let fid := fnum - 16 in
            let tend :=
              if 8 <=? blen table_data then
                unpack_uint (slice 4 8 (firstn 8 table_data))
              else blen fpack_data in
            let template_data := slice tstart tend fpack_data in
            templates_to_add ++ [mk_template uid fid 1 template_data]
          else templates_to_add in
        parse_table f table_data fpack_data templates_to_add
      else templates_to_add
  end.

(** [handle_save_usertemps]; the 10-byte payload is unpacked only to be
    printed, the work is on [self.data_buffer]. *)
Definition handle_save_usertemps (st : State) (session_id reply_id : Z)
  (data : bytes) : result bytes * State :=
  let st :=
    if 12 <=? blen (data_buffer st) then
      let buf := data_buffer st in
      let upack_size := unpack_uint (slice 0 4 buf) in
      let table_size := unpack_uint (slice 4 8 buf) in
      let fpack_size := unpack_uint (slice 8 12 buf) in
      let offset := 12 in
      (* Parse user data *)
      let '(st, offset) :=
        if upack_size >? 0 then
          let user_data := slice offset (offset + upack_size) buf in
          let offset := offset + upack_size in
          let packet_size :=
            if (upack_size >=? 72) && (upack_size mod 72 =? 0) then 72
            else if upack_size >=? 28 then 28
            else 28 in
          let st :=
            set_users (parse_users (length user_data) packet_size (users st)
                         user_data) st in
          (set_users_count (len (users st)) st, offset)
        else (st, offset) in
      (* Parse template table *)
      let templates_to_add :=
        if table_size >? 0 then
          let table_data := slice offset (offset + table_size) buf in
          let offset := offset + table_size in
          let fpack_data := slice offset (offset + fpack_size) buf in
          parse_table (length table_data) table_data fpack_data []
        else [] in
      (* Add templates *)
      let st :=
        fold_left
          (fun st tmpl =>
             let st :=
               set_templates
                 (remove_template (templates st) (t_uid tmpl) (t_fid tmpl)) st in
             set_templates (templates st ++ [tmpl]) st)
          templates_to_add st in
      set_fingers_count (len (templates st)) st
    else st in
  (* Clear buffer *)
  let st := set_data_buffer [] st in
  (create_header CMD_ACK_OK session_id reply_id [], st).

Definition handle_read_buffer (session_id reply_id : Z) (data : bytes)
  : result bytes :=
  if 8 <=? blen data then
    response_data <- pack_uint 4 0 ;;
    create_header CMD_DATA session_id reply_id response_data
  else
    create_header CMD_ACK_ERROR session_id reply_id [].

(** The head of [handle_packet]: strip the stream envelope in TCP mode
    and split the inner packet into (command, session, reply, payload).
    [None] is the early [return None, False]. *)
Definition parse_packet (use_tcp : bool) (packet : bytes)
  : option (Z * Z * Z * bytes) :=
  let stripped :=
    if use_tcp then
      if blen packet <? 8 then None
      else
        let h := firstn 8 packet in
        let magic1 := unpack_uint (slice 0 2 h) in
        let magic2 := unpack_uint (slice 2 4 h) in
        let length := unpack_uint (slice 4 8 h) in
        if negb (magic1 =? MACHINE_PREPARE_DATA_1)
           || negb (magic2 =? MACHINE_PREPARE_DATA_2)
        then None
        else Some (skipn 8 packet)
    else Some packet in
  match stripped with
  | None => None
  | Some packet =>
      if blen packet <? 8 then None
      else
        let h := firstn 8 packet in
        let command := unpack_uint (slice 0 2 h) in
        let session_id := unpack_uint (slice 4 6 h) in
        let reply_id := unpack_uint (slice 6 8 h) in
        let data := skipn 8 packet in
        Some (command, session_id, reply_id, data)
  end.

(** The [if]/[elif] chain of [handle_packet], in its order; the
    second element of the result is [start_enrollment]. *)
Definition dispatch (st : State) (now : datetime)
  (command session_id reply_id : Z) (data : bytes)
  : (result bytes * State) * bool :=
  let pure (r : result bytes) := ((r, st), false) in
  let eff (r : result bytes * State) := (r, false) in
  if command =? CMD_CONNECT then eff (handle_connect st session_id reply_id)
  else if command =? CMD_AUTH then eff (handle_auth st session_id reply_id data)
  else if command =? CMD_EXIT then eff (handle_exit st session_id reply_id)
  else if command =? CMD_ENABLEDEVICE then
    pure (handle_enable_device session_id reply_id)
  else if command =? CMD_DISABLEDEVICE then
    pure (handle_disable_device session_id reply_id)
  else if command =? CMD_GET_VERSION then
    pure (handle_get_version st session_id reply_id)
  else if command =? CMD_GET_TIME then
    pure (handle_get_time now session_id reply_id)
  else if command =? CMD_SET_TIME then
    pure (handle_set_time session_id reply_id data)
  else if command =? CMD_OPTIONS_RRQ then
    pure (handle_options_rrq st session_id reply_id data)
  else if command =? CMD_OPTIONS_WRQ then
    pure (handle_options_wrq session_id reply_id data)
  else if command =? CMD_GET_FREE_SIZES then
    pure (handle_get_free_sizes st session_id reply_id)
  else if command =? CMD_USERTEMP_RRQ then
    pure (handle_usertemp_rrq st session_id reply_id)
  else if command =? CMD_FREE_DATA then
    pure (handle_free_data session_id reply_id)
  else if (command =? CMD_PREPARE_BUFFER) || (command =? 1503) then
    pure (handle_prepare_buffer st session_id reply_id data)
  else if command =? CMD_REG_EVENT then
    eff (handle_reg_event st session_id reply_id data)
  else if command =? CMD_STARTVERIFY then
    pure (handle_start_verify session_id reply_id)
  else if command =? CMD_GET_PINWIDTH then
    pure (handle_get_pin_width session_id reply_id)
  else if command =? CMD_UNLOCK then
    pure (handle_unlock session_id reply_id data)
  else if command =? CMD_TESTVOICE then
    pure (handle_test_voice session_id reply_id data)
  else if command =? CMD_USER_WRQ then
    eff (handle_user_wrq st session_id reply_id data)
  else if command =? CMD_DELETE_USER then
    eff (handle_delete_user st session_id reply_id data)
  else if command =? CMD_REFRESHDATA then
    pure (handle_refresh_data session_id reply_id)
  else if command =? CMD_DELETE_USERTEMP then
    eff (handle_delete_usertemp st session_id reply_id data)
  else if command =? _CMD_GET_USERTEMP then
    pure (handle_get_usertemp st session_id reply_id data)
  else if command =? CMD_DB_RRQ then
    pure (handle_db_rrq st session_id reply_id data)
  else if command =? CMD_ATTLOG_RRQ then
    pure (handle_attlog_rrq st session_id reply_id)
  else if command =? CMD_STARTENROLL then
    (handle_start_enroll st session_id reply_id data, true)
  else if command =? CMD_CANCELCAPTURE then
    eff (handle_cancel_capture st session_id reply_id)
  else if command =? CMD_PREPARE_DATA then
    eff (handle_prepare_data st session_id reply_id data)
  else if command =? CMD_DATA then
    eff (handle_data_packet st session_id reply_id data)
  else if command =? _CMD_SAVE_USERTEMPS then
    eff (handle_save_usertemps st session_id reply_id data)
  else if command =? _CMD_PREPARE_BUFFER then
    pure (handle_prepare_buffer st session_id reply_id data)
  else if command =? _CMD_READ_BUFFER then
    pure (handle_read_buffer session_id reply_id data)
  else
    pure (create_header CMD_ACK_ERROR session_id reply_id []).

(** Truth value of a [bytes] object. *)
Definition truthy (b : bytes) : bool := negb (Nat.eqb (length b) 0).

(** [handle_packet]: what it returns ([(response, start_enrollment)],
    with [None] for no response) or raises, and the state it leaves. *)
Definition handle_packet (st : State) (now : datetime) (packet : bytes)
  : result (option bytes * bool) * State :=
  match parse_packet (use_tcp st) packet with
  | None => (Ok (None, false), st)
  | Some (command, session_id, reply_id, data) =>
      let '((response, st'), start_enrollment) :=
        dispatch st now command session_id reply_id data in
      match response with
      | Raise e => (Raise e, st')
      | Ok response =>
          if truthy response && use_tcp st' then
            match create_tcp_top response with
            | Ok response => (Ok (Some response, start_enrollment), st')
            | Raise e => (Raise e, st')
            end
          else (Ok (Some response, start_enrollment), st')
      end
  end.

(** ** Enrollment thread *)

(** One unsolicited event frame of [simulate_enrollment_events]. *)
Definition enrollment_event (st : State) (session_id : Z) (event_data : bytes)
  : result bytes :=
  event_packet <- create_header CMD_REG_EVENT session_id 0 event_data ;;
  if use_tcp st then create_tcp_top event_packet else Ok event_packet.

(** The final event, [struct.pack('<HHH', 0, template_size, enrollment_fid)]. *)
Definition enrollment_final_event (st : State) (session_id : Z)
  : result bytes :=
  let template_size := blen (repeat x00 512) in
  a <- pack_uint 2 0 ;;
  b <- pack_uint 2 template_size ;;
  c <- pack_uint 2 (enrollment_fid st) ;;
  enrollment_event st session_id (a ++ b ++ c).

(** The end of [simulate_enrollment_events], the only part that writes to
    the device model: when the final event was sent and acknowledged
    ([acked]) the 512-byte template replaces the one with the same key;
    in both cases enrollment mode is left. *)
Definition enrollment_finish (st : State) (acked : bool) : State :=
  let st :=
    if acked then
      let template_data := repeat x00 512 in
      let st :=
        set_templates
          (remove_template (templates st) (enrollment_uid st)
             (enrollment_fid st)) st in
      let st :=
        set_templates
          (templates st ++
           [mk_template (enrollment_uid st) (enrollment_fid st) 1
              template_data]) st in
      set_fingers_count (len (templates st)) st
    else st in
  set_enrollment_mode false st.

(** One atomic step of the simulator: a packet handled, or an enrollment
    thread reaching its end. *)
Inductive step : State -> State -> Prop :=
| step_packet st now packet :
    step st (snd (handle_packet st now packet))
| step_enrollment st acked :
    step st (enrollment_finish st acked).

(** The states of a simulator started with any constructor arguments. *)
Inductive reachable : State -> Prop :=
| reach_init ip port password use_tcp :
    reachable (init ip port password use_tcp)
| reach_step st st' :
    reachable st -> step st st' -> reachable st'.


(** ** Sample inputs *)

(** A 72-byte USER WRQ payload: uid 9, name ["Bulk"], user id ["9"]. *)
Definition bulk72 : bytes :=
  match pack_HB8s24sIx7sx24s 9 0 [] (b_lit "Bulk") 0 [] (b_lit "9") with
  | Ok b => b
  | Raise _ => []
  end.

(** Field [i] of the 32-bit fields of a GET FREE SIZES payload. *)
Definition size_field (i : Z) (payload : bytes) : Z :=
  unpack_sint (slice (4 * i) (4 * i + 4) payload).

(** What the counters are in every state the simulator reaches. *)
Definition counts_inv (st : State) : Prop :=
  users_count st = len (users st) /\
  (fingers_count st = len (templates st) \/
   (templates st = [] /\ fingers_count st = 5)) /\
  records_count st = 150 /\
  attendance_records st = [].

(** A template with the key [(uid, fid)]. *)
Definition template_has_key (uid fid : Z) (t : Template) : Prop :=
  t_uid t = uid /\ t_fid t = fid.

(** A state with one enrolled template, [(1, 0, 1, b'\xaa')]. *)
Definition one_template : State :=
  set_fingers_count 1
    (set_templates [mk_template 1 0 1 [xaa]] init_default).

(** The CONNECT frame of a client, and the same frame with another value
    in the length field of the envelope. *)
Definition connect_frame : bytes :=
  [x50; x50; x82; x7d; x08; x00; x00; x00;
   xe8; x03; x00; x00; x00; x00; x00; x00].

Definition connect_frame_wrong_length : bytes :=
  [x50; x50; x82; x7d; xff; xff; xff; xff;
   xe8; x03; x00; x00; x00; x00; x00; x00].


(** ** The enrollment thread as one run *)

(** [simulate_enrollment_events(conn, session_id)] run from state [st]
    with no packet handled in between. [conn k] tells whether the [k]-th
    socket call of the run ([send] and [recv] alternate, counted from 0)
    succeeds; a failing call raises inside the [try] around it. The result
    is the frames sent, the state left, and the exception that ended the
    thread when one escaped. *)
Fixpoint scan_attempts (st : State) (session_id : Z) (conn : nat -> bool)
  (attempts : list nat) (sent : list bytes)
  (rest : list bytes -> list bytes * State * option exn)
  : list bytes * State * option exn :=
  match attempts with
  | [] => rest sent
  | attempt :: attempts =>
      (* the first event is built before the try *)
      match (event_data <- pack_uint 2 1 ;;
             enrollment_event st session_id event_data) with
      | Raise e => (sent, st, Some e)
      | Ok event_packet =>
          if negb (conn (4 * attempt)%nat) then (sent, st, None)
          else
            let sent := sent ++ [event_packet] in
            if negb (conn (4 * attempt + 1)%nat) then (sent, st, None)
            else
              (* the second event is built inside the try *)
              match (event_data <- pack_uint 2 100 ;;
                     enrollment_event st session_id event_data) with
              | Raise _ => (sent, st, None)
              | Ok event_packet =>
                  if negb (conn (4 * attempt + 2)%nat) then (sent, st, None)
                  else
                    let sent := sent ++ [event_packet] in
                    if negb (conn (4 * attempt + 3)%nat) then (sent, st, None)
                    else scan_attempts st session_id conn attempts sent rest
              end
      end
  end.

Definition simulate_enrollment_events (st : State) (session_id : Z)
  (conn : nat -> bool) : list bytes * State * option exn :=
  scan_attempts st session_id conn [0; 1; 2]%nat []
    (fun sent =>
       match enrollment_final_event st session_id with
       | Raise e => (sent, st, Some e)
       | Ok event_packet =>
           if conn 12%nat then
             if conn 13%nat then
               (sent ++ [event_packet], enrollment_finish st true, None)
             else (sent ++ [event_packet], enrollment_finish st false, None)
           else (sent, enrollment_finish st false, None)
       end).

(** ** Vocabulary of the statements below *)

(** The command codes [handle_packet] has a branch for. *)
Definition handled_commands : list Z :=
  [ CMD_CONNECT; CMD_AUTH; CMD_EXIT; CMD_ENABLEDEVICE; CMD_DISABLEDEVICE;
    CMD_GET_VERSION; CMD_GET_TIME; CMD_SET_TIME; CMD_OPTIONS_RRQ;
    CMD_OPTIONS_WRQ; CMD_GET_FREE_SIZES; CMD_USERTEMP_RRQ; CMD_FREE_DATA;
    CMD_PREPARE_BUFFER; CMD_REG_EVENT; CMD_STARTVERIFY; CMD_GET_PINWIDTH;
    CMD_UNLOCK; CMD_TESTVOICE; CMD_USER_WRQ; CMD_DELETE_USER;
    CMD_REFRESHDATA; CMD_DELETE_USERTEMP; _CMD_GET_USERTEMP; CMD_DB_RRQ;
    CMD_ATTLOG_RRQ; CMD_STARTENROLL; CMD_CANCELCAPTURE; CMD_PREPARE_DATA;
    CMD_DATA; _CMD_SAVE_USERTEMPS; _CMD_READ_BUFFER ].

(** The command codes of the packets the simulator answers with. *)
Definition reply_commands : list Z :=
  [CMD_ACK_OK; CMD_ACK_ERROR; CMD_ACK_UNAUTH; CMD_DATA].

(** The key of a template. *)
Definition template_key (t : Template) : Z * Z := (t_uid t, t_fid t).

(** Uids are unique in the user list, keys in the template list. *)
Definition keys_inv (st : State) : Prop :=
  NoDup (map u_uid (users st)) /\ NoDup (map template_key (templates st)).

(** A result is a packet of [create_header] for the given identifiers,
    with a command code among [cmds]. *)
Definition frame_of (cmds : list Z) (session_id reply_id : Z)
  (res : result bytes) : Prop :=
  forall frame, res = Ok frame ->
  exists command payload,
    In command cmds /\
    create_header command session_id reply_id payload = Ok frame.

(** The session identifier the response to a request carries. *)
Definition response_session (command session_id : Z) : Z :=
  if (command =? CMD_CONNECT) && (session_id =? 0) then 1000 else session_id.

(** The simulator's answer to [connect_frame]. *)
Definition connect_response : bytes :=
  [x50; x50; x82; x7d; x08; x00; x00; x00;
   xd0; x07; x46; xf4; xe8; x03; x00; x00].

(** A frame with the command code 9999, which no branch handles. *)
Definition unknown_frame : bytes :=
  [x50; x50; x82; x7d; x08; x00; x00; x00;
   x0f; x27; x00; x00; xe8; x03; x07; x00].


(** * Properties *)

(** ** Bytes and little-endian integers *)

Lemma byte_val_range (b : byte) : 0 <= byte_val b < 256.
Proof.
  unfold byte_val. pose proof (Byte.to_N_bounded b). lia.
Qed.

Lemma byte_val_of (z : Z) : byte_val (byte_of z) = z mod 256.
Proof.
  unfold byte_val, byte_of.
  pose proof (Z.mod_pos_bound z 256 ltac:(lia)) as Hm.
  destruct (Byte.of_N (Z.to_N (z mod 256))) as [b|] eqn:E.
  - apply Byte.to_of_N in E. rewrite E. lia.
  - apply Byte.of_N_None_iff in E. lia.
Qed.

Lemma byte_of_val (b : byte) : byte_of (byte_val b) = b.
Proof.
  unfold byte_of, byte_val.
  pose proof (Byte.to_N_bounded b).
  rewrite Z.mod_small by lia.
  rewrite N2Z.id, Byte.of_to_N. reflexivity.
Qed.

Lemma int_to_le_length (n : nat) (z : Z) : length (int_to_le n z) = n.
Proof.
  revert z. induction n as [|n IH]; intros z; simpl; [reflexivity|].
  now rewrite IH.
Qed.

Lemma int_from_to_le (n : nat) (z : Z) :
  int_from_le (int_to_le n z) = z mod 2 ^ (8 * Z.of_nat n).
Proof.
  revert z. induction n as [|n IH]; intros z.
  - simpl. now rewrite Z.mod_1_r.
  - cbn [int_to_le int_from_le]. rewrite IH, byte_val_of.
    replace (8 * Z.of_nat (S n)) with (8 + 8 * Z.of_nat n) by lia.
    rewrite Z.pow_add_r by lia. change (2 ^ 8) with 256.
    pose proof (Z.pow_pos_nonneg 2 (8 * Z.of_nat n) ltac:(lia) ltac:(lia)).
    rewrite (Z.rem_mul_r z 256 (2 ^ (8 * Z.of_nat n))) by lia.
    reflexivity.
Qed.

Lemma int_from_to_le_small (n : nat) (z : Z) :
  in_unsigned n z = true -> int_from_le (int_to_le n z) = z.
Proof.
  unfold in_unsigned. intros H.
  apply andb_true_iff in H as [H0 H1].
  rewrite int_from_to_le. apply Z.mod_small. lia.
Qed.

Lemma int_from_le_range (b : bytes) :
  0 <= int_from_le b < 2 ^ (8 * Z.of_nat (length b)).
Proof.
  induction b as [|x t IH].
  - simpl. lia.
  - cbn [int_from_le length]. pose proof (byte_val_range x).
    replace (8 * Z.of_nat (S (length t))) with (8 + 8 * Z.of_nat (length t)) by lia.
    rewrite Z.pow_add_r by lia. change (2 ^ 8) with 256. lia.
Qed.

Lemma pack_uint_ok (n : nat) (v : Z) :
  in_unsigned n v = true -> pack_uint n v = Ok (int_to_le n v).
Proof. unfold pack_uint. now intros ->. Qed.

Lemma in_unsigned_2 (v : Z) : in_unsigned 2 v = true <-> 0 <= v <= 65535.
Proof.
  unfold in_unsigned. change (2 ^ (8 * Z.of_nat 2)) with 65536.
  rewrite andb_true_iff. lia.
Qed.

Lemma in_unsigned_4 (v : Z) : in_unsigned 4 v = true <-> 0 <= v < 4294967296.
Proof.
  unfold in_unsigned. change (2 ^ (8 * Z.of_nat 4)) with 4294967296.
  rewrite andb_true_iff. lia.
Qed.

(** ** Timestamps *)

Lemma encode_time_value_range (dt : datetime) :
  valid_datetime dt = true ->
  0 <= encode_time_value dt < 4294967296.
Proof.
  unfold valid_datetime, encode_time_value. intros H.
  repeat (apply andb_true_iff in H as [H ?]).
  assert (day dt <= 31).
  { unfold days_in_month in *.
    repeat match goal with
           | _ : context [if ?c then _ else _] |- _ => destruct c
           end; lia. }
  pose proof (Z.mod_pos_bound (year dt) 100 ltac:(lia)).
  nia.
Qed.

Lemma decode_encode_value (dt : datetime) :
  valid_datetime dt = true ->
  2000 <= year dt <= 2099 ->
  decode_time (encode_time_value dt) = Ok dt.
Proof.
  intros H Hy. pose proof H as Hv.
  unfold valid_datetime in H.
  repeat (apply andb_true_iff in H as [H ?]).
  assert (day dt <= 31).
  { unfold days_in_month in *.
    repeat match goal with
           | _ : context [if ?c then _ else _] |- _ => destruct c
           end; lia. }
  assert (Hyy : year dt mod 100 = year dt - 2000).
  { symmetry. apply (Z.mod_unique (year dt) 100 20); lia. }
  unfold decode_time, encode_time_value. cbv zeta. rewrite Hyy.
  set (days := (year dt - 2000) * 12 * 31 + (month dt - 1) * 31 + day dt - 1).
  set (v := days * (24 * 60 * 60) + (hour dt * 60 + minute dt) * 60 + second dt).
  assert (E1 : v mod 60 = second dt).
  { symmetry. apply (Z.mod_unique _ 60 (days * 1440 + hour dt * 60 + minute dt)); subst v; lia. }
  assert (E2 : v / 60 = days * 1440 + hour dt * 60 + minute dt).
  { symmetry. apply (Z.div_unique _ 60 _ (second dt)); subst v; lia. }
  rewrite E1, E2.
  assert (E3 : (days * 1440 + hour dt * 60 + minute dt) mod 60 = minute dt).
  { symmetry. apply (Z.mod_unique _ 60 (days * 24 + hour dt)); lia. }
  assert (E4 : (days * 1440 + hour dt * 60 + minute dt) / 60 = days * 24 + hour dt).
  { symmetry. apply (Z.div_unique _ 60 _ (minute dt)); lia. }
  rewrite E3, E4.
  assert (E5 : (days * 24 + hour dt) mod 24 = hour dt).
  { symmetry. apply (Z.mod_unique _ 24 days); lia. }
  assert (E6 : (days * 24 + hour dt) / 24 = days).
  { symmetry. apply (Z.div_unique _ 24 _ (hour dt)); lia. }
  rewrite E5, E6.
  set (months := (year dt - 2000) * 12 + (month dt - 1)).
  assert (E7 : days mod 31 = day dt - 1).
  { symmetry. apply (Z.mod_unique _ 31 months); subst days months; lia. }
  assert (E8 : days / 31 = months).
  { symmetry. apply (Z.div_unique _ 31 _ (day dt - 1)); subst days months; lia. }
  rewrite E7, E8.
  assert (E9 : months mod 12 = month dt - 1).
  { symmetry. apply (Z.mod_unique _ 12 (year dt - 2000)); subst months; lia. }
  assert (E10 : months / 12 = year dt - 2000).
  { symmetry. apply (Z.div_unique _ 12 _ (month dt - 1)); subst months; lia. }
  rewrite E9, E10.
  unfold datetime_new.
  replace (mk_datetime (year dt - 2000 + 2000) (month dt - 1 + 1)
             (day dt - 1 + 1) (hour dt) (minute dt) (second dt)) with dt.
  - now rewrite Hv.
  - destruct dt; cbn in *. f_equal; lia.
Qed.

(** C4. For every datetime [dt] with valid fields and a year in
    [2000, 2099], [encode_time] succeeds and [decode_time] applied to the
    32-bit value it packed gives [dt] back. *)
Theorem decode_encode_time (dt : datetime) :
  valid_datetime dt = true ->
  2000 <= year dt <= 2099 ->
  exists packed,
    encode_time dt = Ok packed /\
    length packed = 4%nat /\
    unpack_uint packed =
      (((year dt mod 100) * 12 + (month dt - 1)) * 31 + (day dt - 1)) * 86400
      + (hour dt * 3600 + minute dt * 60 + second dt) /\
    decode_time (unpack_uint packed) = Ok dt.
Proof.
  intros Hv Hy.
  pose proof (encode_time_value_range dt Hv) as Hr.
  assert (Hin : in_unsigned 4 (encode_time_value dt) = true)
    by (apply in_unsigned_4; lia).
  exists (int_to_le 4 (encode_time_value dt)).
  unfold encode_time, unpack_uint.
  rewrite (pack_uint_ok _ _ Hin), int_from_to_le_small by exact Hin.
  repeat split.
  - unfold encode_time_value. lia.
  - now apply decode_encode_value.
Qed.

Lemma decode_encode_time_witness :
  exists packed,
    encode_time (mk_datetime 2024 2 29 23 59 59) = Ok packed /\
    length packed = 4%nat /\
    unpack_uint packed = 776563199 /\
    decode_time (unpack_uint packed) = Ok (mk_datetime 2024 2 29 23 59 59).
Proof.
  assert (Hy : 2000 <= year (mk_datetime 2024 2 29 23 59 59) <= 2099)
    by (simpl; lia).
  exact (decode_encode_time (mk_datetime 2024 2 29 23 59 59) eq_refl Hy).
Defined.

(** ** Frame codec *)

Lemma list_pair_ind {A : Type} (P : list A -> Prop) :
  P [] -> (forall x, P [x]) -> (forall x y l, P l -> P (x :: y :: l)) ->
  forall l, P l.
Proof.
  intros H0 H1 H2.
  assert (H : forall l, P l /\ forall x, P (x :: l)).
  { induction l as [|y l [IH1 IH2]]; split; auto. }
  intros l. apply H.
Qed.

Lemma fold_down_exits (fuel : nat) (c : Z) :
  (Z.to_nat c <= fuel)%nat -> fold_down fuel c <= USHRT_MAX.
Proof.
  unfold USHRT_MAX. revert c. induction fuel as [|f IH]; intros c Hf; simpl.
  - lia.
  - unfold USHRT_MAX. destruct (c >? 65535) eqn:E.
    + apply IH. lia.
    + lia.
Qed.

Lemma lift_up_exits (fuel : nat) (c : Z) :
  (Z.to_nat (- c) <= fuel)%nat -> 0 <= lift_up fuel c.
Proof.
  revert c. induction fuel as [|f IH]; intros c Hf; simpl.
  - lia.
  - unfold USHRT_MAX. destruct (c <? 0) eqn:E.
    + apply IH. lia.
    + lia.
Qed.

Lemma fold_down_small (fuel : nat) (c : Z) :
  c <= 65535 -> fold_down fuel c = c.
Proof.
  intros H. destruct fuel; simpl; [reflexivity|].
  unfold USHRT_MAX. destruct (c >? 65535) eqn:E; [lia|reflexivity].
Qed.

Lemma fold_down_carry (acc w : Z) :
  0 <= acc <= 65535 -> 0 <= w <= 65535 ->
  fold_down (Z.to_nat (acc + w)) (acc + w) = fold_carry acc w.
Proof.
  intros Ha Hw. unfold fold_carry.
  destruct (acc + w >? 65535) eqn:E.
  - destruct (Z.to_nat (acc + w)) eqn:En; [lia|].
    simpl. unfold USHRT_MAX. rewrite E. apply fold_down_small. lia.
  - apply fold_down_small. lia.
Qed.

Lemma fold_carry_range (acc w : Z) :
  0 <= acc <= 65535 -> 0 <= w <= 65535 -> 0 <= fold_carry acc w <= 65535.
Proof.
  intros Ha Hw. unfold fold_carry.
  destruct (acc + w >? 65535) eqn:E; lia.
Qed.

Lemma sum_words_fold (packet : bytes) :
  forall acc, 0 <= acc <= 65535 ->
  fold_down (Z.to_nat (sum_words acc packet)) (sum_words acc packet)
  = fold_left fold_carry (words_le packet) acc
  /\ 0 <= fold_left fold_carry (words_le packet) acc <= 65535.
Proof.
  induction packet as [|b|b0 b1 rest IH] using list_pair_ind; intros acc Ha.
  - simpl. split; [apply fold_down_small|]; lia.
  - pose proof (byte_val_range b). cbn [sum_words words_le fold_left].
    split; [apply fold_down_carry | apply fold_carry_range]; lia.
  - pose proof (byte_val_range b0). pose proof (byte_val_range b1).
    cbn [sum_words words_le fold_left].
    assert (Hw : unpack_uint [b0; b1] = byte_val b0 + 256 * byte_val b1)
      by (unfold unpack_uint; cbn [int_from_le]; lia).
    rewrite Hw.
    assert (Hc : (if acc + (byte_val b0 + 256 * byte_val b1) >? USHRT_MAX
                  then acc + (byte_val b0 + 256 * byte_val b1) - USHRT_MAX
                  else acc + (byte_val b0 + 256 * byte_val b1))
                 = fold_carry acc (byte_val b0 + 256 * byte_val b1))
      by reflexivity.
    rewrite Hc. apply IH. apply fold_carry_range; lia.
Qed.

Lemma lift_up_nonneg (fuel : nat) (c : Z) : 0 <= c -> lift_up fuel c = c.
Proof.
  intros H. destruct fuel; simpl; [reflexivity|].
  destruct (c <? 0) eqn:E; [lia|reflexivity].
Qed.

Lemma lift_up_mod (fuel : nat) (c : Z) :
  c < 0 -> (Z.to_nat (- c) <= fuel)%nat -> lift_up fuel c = c mod 65535.
Proof.
  revert c. induction fuel as [|f IH]; intros c Hc Hf; [lia|].
  simpl. destruct (c <? 0) eqn:E; [|lia]. unfold USHRT_MAX.
  destruct (Z.lt_ge_cases (c + 65535) 0) as [Hn|Hn].
  - rewrite IH by lia.
    replace (c + 65535) with (c + 1 * 65535) by lia.
    apply Z.mod_add. lia.
  - rewrite lift_up_nonneg by lia.
    apply (Z.mod_unique c 65535 (-1)); lia.
Qed.

(** [create_checksum] computes the specification's checksum. *)
Lemma checksum_value_spec (packet : bytes) :
  checksum_value packet = ones_complement_checksum packet.
Proof.
  unfold checksum_value, ones_complement_checksum. cbv zeta.
  destruct (sum_words_fold packet 0 ltac:(lia)) as [-> Hr].
  set (s := fold_left fold_carry (words_le packet) 0) in *.
  assert (Hn : Z.lnot s < 0) by (unfold Z.lnot; lia).
  destruct (Z.lnot s <? 0) eqn:E; [|lia].
  apply lift_up_mod; lia.
Qed.

Lemma checksum_value_range (packet : bytes) :
  0 <= checksum_value packet <= 65534.
Proof.
  rewrite checksum_value_spec. unfold ones_complement_checksum. cbv zeta.
  destruct (sum_words_fold packet 0 ltac:(lia)) as [_ Hr].
  set (s := fold_left fold_carry (words_le packet) 0) in *.
  assert (Hn : Z.lnot s < 0) by (unfold Z.lnot; lia).
  destruct (Z.lnot s <? 0) eqn:E; [|lia].
  pose proof (Z.mod_pos_bound (Z.lnot s) 65535 ltac:(lia)). lia.
Qed.

(** Neither loop of [create_checksum] stops for lack of fuel: each ends
    with its own condition false. *)
Lemma create_checksum_loops_exit (packet : bytes) :
  let c1 := sum_words 0 packet in
  let c2 := fold_down (Z.to_nat c1) c1 in
  let c3 := Z.lnot c2 in
  c2 <= USHRT_MAX /\ 0 <= lift_up (Z.to_nat (- c3)) c3.
Proof.
  cbv zeta. split; [apply fold_down_exits | apply lift_up_exits]; lia.
Qed.

Lemma pack_4H_ok (a b c d : Z) :
  in_unsigned 2 a = true -> in_unsigned 2 b = true ->
  in_unsigned 2 c = true -> in_unsigned 2 d = true ->
  pack_4H a b c d =
  Ok [byte_of a; byte_of (a / 256); byte_of b; byte_of (b / 256);
      byte_of c; byte_of (c / 256); byte_of d; byte_of (d / 256)].
Proof.
  intros Ha Hb Hc Hd. unfold pack_4H, pack_uint.
  rewrite Ha, Hb, Hc, Hd. reflexivity.
Qed.

Lemma unpack_uint_2 (v : Z) :
  in_unsigned 2 v = true -> unpack_uint [byte_of v; byte_of (v / 256)] = v.
Proof.
  intros H. exact (int_from_to_le_small 2 v H).
Qed.

(** What [create_header] returns for fields in range. *)
Lemma create_header_ok (command session_id reply_id : Z) (data : bytes) :
  in_unsigned 2 command = true ->
  in_unsigned 2 session_id = true ->
  in_unsigned 2 reply_id = true ->
  let buf := [byte_of command; byte_of (command / 256); x00; x00;
              byte_of session_id; byte_of (session_id / 256);
              byte_of reply_id; byte_of (reply_id / 256)] ++ data in
  let checksum := checksum_value buf in
  create_header command session_id reply_id data =
  Ok ([byte_of command; byte_of (command / 256);
       byte_of checksum; byte_of (checksum / 256);
       byte_of session_id; byte_of (session_id / 256);
       byte_of reply_id; byte_of (reply_id / 256)] ++ data).
Proof.
  intros Hc Hs Hr buf checksum. unfold create_header.
  rewrite (pack_4H_ok command 0 session_id reply_id Hc eq_refl Hs Hr).
  cbn [bind]. change (byte_of 0) with x00. change (byte_of (0 / 256)) with x00.
  fold buf. unfold create_checksum.
  assert (Hk : in_unsigned 2 (checksum_value buf) = true)
    by (apply in_unsigned_2; pose proof (checksum_value_range buf); lia).
  rewrite (pack_uint_ok _ _ Hk). cbn [bind int_to_le].
  rewrite (unpack_uint_2 _ Hk). fold checksum.
  rewrite (pack_4H_ok command checksum session_id reply_id Hc Hk Hs Hr).
  reflexivity.
Qed.

(** C3. For fields in range [create_header] returns a packet whose
    stored 16-bit checksum is the specification's one's-complement folding
    sum of that packet with the checksum field zeroed (which is what
    [create_checksum] returns on it), so the packet verifies. *)
Theorem create_header_checksum (command session_id reply_id : Z) (data : bytes) :
  in_unsigned 2 command = true ->
  in_unsigned 2 session_id = true ->
  in_unsigned 2 reply_id = true ->
  exists packet,
    create_header command session_id reply_id data = Ok packet /\
    stored_checksum packet
      = ones_complement_checksum (zero_checksum_field packet) /\
    create_checksum (zero_checksum_field packet) = Ok (slice 2 4 packet) /\
    checksum_verifies packet = true.
Proof.
  intros Hc Hs Hr.
  pose proof (create_header_ok command session_id reply_id data Hc Hs Hr) as H.
  cbv zeta in H.
  set (buf := [byte_of command; byte_of (command / 256); x00; x00;
               byte_of session_id; byte_of (session_id / 256);
               byte_of reply_id; byte_of (reply_id / 256)] ++ data) in *.
  set (checksum := checksum_value buf) in *.
  eexists. split; [exact H|].
  assert (Hk : in_unsigned 2 checksum = true)
    by (apply in_unsigned_2; pose proof (checksum_value_range buf);
        subst checksum; lia).
  assert (Hz : zero_checksum_field
                 ([byte_of command; byte_of (command / 256);
                   byte_of checksum; byte_of (checksum / 256);
                   byte_of session_id; byte_of (session_id / 256);
                   byte_of reply_id; byte_of (reply_id / 256)] ++ data) = buf)
    by reflexivity.
  assert (Hf : slice 2 4
                 ([byte_of command; byte_of (command / 256);
                   byte_of checksum; byte_of (checksum / 256);
                   byte_of session_id; byte_of (session_id / 256);
                   byte_of reply_id; byte_of (reply_id / 256)] ++ data)
               = [byte_of checksum; byte_of (checksum / 256)])
    by reflexivity.
  assert (Hst : stored_checksum
                 ([byte_of command; byte_of (command / 256);
                   byte_of checksum; byte_of (checksum / 256);
                   byte_of session_id; byte_of (session_id / 256);
                   byte_of reply_id; byte_of (reply_id / 256)] ++ data)
               = ones_complement_checksum buf).
  { unfold stored_checksum. rewrite Hf, (unpack_uint_2 _ Hk).
    apply checksum_value_spec. }
  unfold checksum_verifies. rewrite Hz, Hf, Hst.
  repeat split.
  - unfold create_checksum. fold checksum. rewrite (pack_uint_ok _ _ Hk).
    reflexivity.
  - apply Z.eqb_refl.
Qed.

Lemma create_header_checksum_witness :
  exists packet,
    create_header CMD_ACK_OK 1000 0 [] = Ok packet /\
    stored_checksum packet
      = ones_complement_checksum (zero_checksum_field packet) /\
    create_checksum (zero_checksum_field packet) = Ok (slice 2 4 packet) /\
    checksum_verifies packet = true.
Proof.
  exact (create_header_checksum CMD_ACK_OK 1000 0 [] eq_refl eq_refl eq_refl).
Defined.

Lemma blen_cons (b : byte) (l : bytes) : blen (b :: l) = 1 + blen l.
Proof. unfold blen. cbn [length]. lia. Qed.

Lemma blen_nonneg (l : bytes) : 0 <= blen l.
Proof. unfold blen. lia. Qed.

Lemma blen_app (a b : bytes) : blen (a ++ b) = blen a + blen b.
Proof. unfold blen. rewrite length_app. lia. Qed.

(** Parsing an inner packet: eight header bytes, then the payload. *)
Lemma parse_packet_inner (c0 c1 k0 k1 s0 s1 r0 r1 : byte) (data : bytes) :
  parse_packet false ([c0; c1; k0; k1; s0; s1; r0; r1] ++ data)
  = Some (unpack_uint [c0; c1], unpack_uint [s0; s1], unpack_uint [r0; r1],
          data).
Proof.
  unfold parse_packet. cbn [app].
  rewrite !blen_cons. pose proof (blen_nonneg data).
  destruct (1 + (1 + (1 + (1 + (1 + (1 + (1 + (1 + blen data))))))) <? 8) eqn:E;
    [lia|].
  reflexivity.
Qed.

(** Parsing a stream frame: the two magic words are compared, the four
    length bytes are passed over, the rest is parsed as an inner packet. *)
Lemma parse_packet_tcp (l0 l1 l2 l3 : byte) (inner : bytes) :
  parse_packet true ([x50; x50; x82; x7d; l0; l1; l2; l3] ++ inner)
  = parse_packet false inner.
Proof.
  unfold parse_packet. cbn [app].
  rewrite !blen_cons. pose proof (blen_nonneg inner).
  destruct (1 + (1 + (1 + (1 + (1 + (1 + (1 + (1 + blen inner))))))) <? 8) eqn:E;
    [lia|].
  reflexivity.
Qed.

(** C5. For a well-formed packet (16-bit fields in range, inner packet
    short enough for the 32-bit length) the encoder returns the inner
    packet and the frame: magic 50 50 82 7D, the little-endian length of
    the inner packet alone, then the inner packet; and the decoder at the
    head of [handle_packet] recovers command, session, reply and payload
    from the frame in TCP mode, and from the inner packet in UDP mode. *)
Theorem frame_roundtrip (command session_id reply_id : Z) (data : bytes) :
  in_unsigned 2 command = true ->
  in_unsigned 2 session_id = true ->
  in_unsigned 2 reply_id = true ->
  blen data + 8 < 2 ^ 32 ->
  exists inner frame,
    create_header command session_id reply_id data = Ok inner /\
    create_tcp_top inner = Ok frame /\
    blen inner = 8 + blen data /\
    frame = [x50; x50; x82; x7d] ++ int_to_le 4 (blen inner) ++ inner /\
    parse_packet true frame = Some (command, session_id, reply_id, data) /\
    parse_packet false inner = Some (command, session_id, reply_id, data).
Proof.
  intros Hc Hs Hr Hlen.
  pose proof (create_header_ok command session_id reply_id data Hc Hs Hr) as H.
  cbv zeta in H.
  set (checksum := checksum_value _) in H.
  set (inner := [byte_of command; byte_of (command / 256);
                 byte_of checksum; byte_of (checksum / 256);
                 byte_of session_id; byte_of (session_id / 256);
                 byte_of reply_id; byte_of (reply_id / 256)] ++ data) in *.
  assert (Hi : blen inner = 8 + blen data).
  { subst inner. rewrite blen_app. reflexivity. }
  assert (Hl : in_unsigned 4 (blen inner) = true).
  { apply in_unsigned_4. pose proof (blen_nonneg data).
    change (2 ^ 32) with 4294967296 in Hlen. lia. }
  assert (Hp : parse_packet false inner
               = Some (command, session_id, reply_id, data)).
  { subst inner. rewrite parse_packet_inner.
    now rewrite !unpack_uint_2 by assumption. }
  exists inner, ([x50; x50; x82; x7d] ++ int_to_le 4 (blen inner) ++ inner).
  repeat split; try assumption.
  - unfold create_tcp_top. cbv zeta. rewrite (pack_uint_ok 4 _ Hl).
    reflexivity.
  - cbn [int_to_le]. rewrite <- Hp. apply parse_packet_tcp.
Qed.

Lemma frame_roundtrip_witness :
  exists inner frame,
    create_header CMD_CONNECT 0 7 [x01; x02; x03] = Ok inner /\
    create_tcp_top inner = Ok frame /\
    blen inner = 8 + blen [x01; x02; x03] /\
    frame = [x50; x50; x82; x7d] ++ int_to_le 4 (blen inner) ++ inner /\
    parse_packet true frame = Some (CMD_CONNECT, 0, 7, [x01; x02; x03]) /\
    parse_packet false inner = Some (CMD_CONNECT, 0, 7, [x01; x02; x03]).
Proof.
  exact (frame_roundtrip CMD_CONNECT 0 7 [x01; x02; x03]
           eq_refl eq_refl eq_refl eq_refl).
Defined.

(** In TCP mode the head of [handle_packet] gives the same result on two
    packets that differ only in bytes 4 to 7. *)
Lemma parse_packet_length_blind (p1 p2 : bytes) :
  length p1 = length p2 ->
  firstn 4 p1 = firstn 4 p2 ->
  skipn 8 p1 = skipn 8 p2 ->
  parse_packet true p1 = parse_packet true p2.
Proof.
  intros Hl Hf Hs.
  destruct p1 as [|a0 [|a1 [|a2 [|a3 [|a4 [|a5 [|a6 [|a7 r1]]]]]]]];
  destruct p2 as [|b0 [|b1 [|b2 [|b3 [|b4 [|b5 [|b6 [|b7 r2]]]]]]]];
    try discriminate Hl; try reflexivity.
  cbn [firstn skipn] in Hf, Hs. injection Hf as -> -> -> ->. subst r2.
  unfold parse_packet.
  change (blen (b0 :: b1 :: b2 :: b3 :: a4 :: a5 :: a6 :: a7 :: r1))
    with (blen (b0 :: b1 :: b2 :: b3 :: b4 :: b5 :: b6 :: b7 :: r1)).
  destruct (blen (b0 :: b1 :: b2 :: b3 :: b4 :: b5 :: b6 :: b7 :: r1) <? 8);
    reflexivity.
Qed.

(** C10. In TCP mode, two incoming frames of the same size that agree on
    the magic bytes and on everything after the 8-byte envelope, and so
    differ at most in the 4-byte length field, get the same response (or
    exception) and leave the same state. *)
Theorem handle_packet_ignores_length (st : State) (now : datetime)
  (p1 p2 : bytes) :
  use_tcp st = true ->
  length p1 = length p2 ->
  firstn 4 p1 = firstn 4 p2 ->
  skipn 8 p1 = skipn 8 p2 ->
  handle_packet st now p1 = handle_packet st now p2.
Proof.
  intros Ht Hl Hf Hs. unfold handle_packet.
  rewrite Ht, (parse_packet_length_blind p1 p2 Hl Hf Hs). reflexivity.
Qed.

(** ** Handlers *)

Lemma firstn_length_all {A : Type} (n : nat) (l : list A) :
  length l = n -> firstn n l = l.
Proof. intros <-. apply firstn_all. Qed.

(** C6. On an 11-byte PREPARE BUFFER payload whose [fct] field (bytes 3
    to 6, signed little-endian) is 5, 2 or 1, [handle_prepare_buffer]
    returns what [handle_usertemp_rrq], [handle_db_rrq] and
    [handle_attlog_rrq] return in the same state for the same session and
    reply identifiers; for any other [fct] it returns the DATA packet with
    the four zero bytes of a zero size. *)
Theorem prepare_buffer_same_frames (st : State) (session_id reply_id : Z)
  (data : bytes) :
  length data = 11%nat ->
  let fct := unpack_sint (slice 3 7 data) in
  (fct = FCT_USER ->
   handle_prepare_buffer st session_id reply_id data
   = handle_usertemp_rrq st session_id reply_id) /\
  (fct = FCT_FINGERTMP ->
   handle_prepare_buffer st session_id reply_id data
   = handle_db_rrq st session_id reply_id data) /\
  (fct = FCT_ATTLOG ->
   handle_prepare_buffer st session_id reply_id data
   = handle_attlog_rrq st session_id reply_id) /\
  (fct <> FCT_USER -> fct <> FCT_FINGERTMP -> fct <> FCT_ATTLOG ->
   handle_prepare_buffer st session_id reply_id data
   = create_header CMD_DATA session_id reply_id [x00; x00; x00; x00]).
Proof.
  intros Hl fct.
  assert (Hb : (11 <=? blen data) = true)
    by (unfold blen; rewrite Hl; reflexivity).
  unfold handle_prepare_buffer. rewrite Hb. cbv zeta.
  rewrite (firstn_length_all 11 data Hl). fold fct.
  unfold FCT_USER, FCT_FINGERTMP, FCT_ATTLOG.
  repeat split.
  - intros ->. reflexivity.
  - intros ->. reflexivity.
  - intros ->. reflexivity.
  - intros H5 H2 H1.
    apply Z.eqb_neq in H5, H2, H1. rewrite H5, H2, H1. reflexivity.
Qed.

Lemma prepare_buffer_same_frames_witness :
  let data := [x01; x09; x00; x05; x00; x00; x00; x00; x00; x00; x00] in
  length data = 11%nat /\
  unpack_sint (slice 3 7 data) = FCT_USER /\
  handle_prepare_buffer init_default 1000 3 data
  = handle_usertemp_rrq init_default 1000 3.
Proof.
  cbv zeta. split; [reflexivity|]. split; [reflexivity|].
  apply (proj1 (prepare_buffer_same_frames init_default 1000 3
                  [x01; x09; x00; x05; x00; x00; x00; x00; x00; x00; x00]
                  eq_refl)).
  reflexivity.
Defined.

(** C7, as the code has it. A USER WRQ payload shorter than 28 bytes is
    answered OK, and the state is left as it was. *)
Theorem user_wrq_short_payload (st : State) (session_id reply_id : Z)
  (data : bytes) :
  blen data < 28 ->
  handle_user_wrq st session_id reply_id data
  = (create_header CMD_ACK_OK session_id reply_id [], st).
Proof.
  intros H. unfold handle_user_wrq.
  destruct (28 <=? blen data) eqn:E28; [lia|].
  destruct (72 <=? blen data) eqn:E72; [lia|].
  reflexivity.
Qed.

Lemma user_wrq_short_payload_witness :
  handle_user_wrq init_default 1000 4 [x09; x00; x00]
  = (create_header CMD_ACK_OK 1000 4 [], init_default).
Proof.
  apply (user_wrq_short_payload init_default 1000 4 [x09; x00; x00]).
  unfold blen. simpl. lia.
Defined.

(** C7 as stated fails: an empty USER WRQ payload is answered with an OK
    packet, not with the ERROR packet. *)
Lemma user_wrq_short_payload_not_error :
  ~ (forall (st : State) (session_id reply_id : Z) (data : bytes),
       blen data < 28 ->
       fst (handle_user_wrq st session_id reply_id data)
       = create_header CMD_ACK_ERROR session_id reply_id []).
Proof.
  intros H. specialize (H init_default 1000 4 [] ltac:(unfold blen; simpl; lia)).
  vm_compute in H. discriminate H.
Qed.

(** C8, as the code has it. On a 3-byte GET USERTEMP payload
    [{uid:2, finger:1}] (finger read as a signed byte): when the template
    list holds a template with that key, and it is the only one with it,
    the response is the DATA packet whose payload is that template's blob
    followed by six zero bytes; when no template has the key the response
    is the ERROR packet. *)
Theorem get_usertemp_response (st : State) (session_id reply_id : Z)
  (data : bytes) :
  length data = 3%nat ->
  let uid := unpack_uint (slice 0 2 data) in
  let fid := unpack_sint (slice 2 3 data) in
  (forall t,
     In t (templates st) -> template_has_key uid fid t ->
     (forall t', In t' (templates st) -> template_has_key uid fid t' -> t' = t) ->
     handle_get_usertemp st session_id reply_id data
     = create_header CMD_DATA session_id reply_id (t_data t ++ repeat x00 6))
  /\
  ((forall t, In t (templates st) -> ~ template_has_key uid fid t) ->
   handle_get_usertemp st session_id reply_id data
   = create_header CMD_ACK_ERROR session_id reply_id []).
Proof.
  intros Hl uid fid.
  assert (Hb : (3 <=? blen data) = true)
    by (unfold blen; rewrite Hl; reflexivity).
  unfold handle_get_usertemp. rewrite Hb. cbv zeta.
  rewrite (firstn_length_all 3 data Hl). fold uid fid.
  split.
  - intros t Hin Hk Huniq.
    destruct (find _ (templates st)) as [t'|] eqn:E.
    + apply find_some in E as [Hin' Hk'].
      apply andb_true_iff in Hk' as [Hu Hf].
      apply Z.eqb_eq in Hu, Hf.
      rewrite (Huniq t' Hin' (conj Hu Hf)). reflexivity.
    + exfalso. pose proof (find_none _ _ E t Hin) as Hn. cbv beta in Hn.
      destruct Hk as [Hu Hf]. rewrite Hu, Hf, !Z.eqb_refl in Hn.
      discriminate Hn.
  - intros Hno.
    destruct (find _ (templates st)) as [t'|] eqn:E; [|reflexivity].
    exfalso. apply find_some in E as [Hin' Hk'].
    apply andb_true_iff in Hk' as [Hu Hf].
    apply Z.eqb_eq in Hu, Hf. exact (Hno t' Hin' (conj Hu Hf)).
Qed.

Lemma get_usertemp_response_witness :
  handle_get_usertemp one_template 1000 5 [x01; x00; x00]
  = create_header CMD_DATA 1000 5 ([xaa] ++ repeat x00 6)
  /\
  handle_get_usertemp init_default 1000 5 [x01; x00; x00]
  = create_header CMD_ACK_ERROR 1000 5 [].
Proof.
  split.
  - apply (proj1 (get_usertemp_response one_template 1000 5 [x01; x00; x00]
                    eq_refl) (mk_template 1 0 1 [xaa])).
    + simpl. left. reflexivity.
    + split; reflexivity.
    + intros t' [<-|[]] _. reflexivity.
  - apply (proj2 (get_usertemp_response init_default 1000 5 [x01; x00; x00]
                    eq_refl)).
    intros t [].
Defined.

(** C8 as stated fails: with the template [(1, 0, 1, b'\xaa')] stored, the
    DATA packet for key (1, 0) is not the one whose payload is the one-byte
    blob; it carries the blob and six zero bytes. *)
Lemma get_usertemp_payload_not_blob :
  ~ (forall (st : State) (session_id reply_id : Z) (data : bytes) (t : Template),
       length data = 3%nat ->
       In t (templates st) ->
       template_has_key (unpack_uint (slice 0 2 data))
         (unpack_sint (slice 2 3 data)) t ->
       handle_get_usertemp st session_id reply_id data
       = create_header CMD_DATA session_id reply_id (t_data t)).
Proof.
  intros H.
  specialize (H one_template 1000 5 [x01; x00; x00] (mk_template 1 0 1 [xaa])
                eq_refl (or_introl eq_refl) (conj eq_refl eq_refl)).
  vm_compute in H. discriminate H.
Qed.

(** C9. [decode_time] raises on the 32-bit value 5184000, whose base-31
    day and base-12 month fields are 30 and 2 (February 30, 2000), and
    [handle_set_time] raises on every payload that starts with its four
    bytes instead of returning the OK packet. *)
Theorem decode_time_partial :
  let t := 5184000 in
  0 <= t < 2 ^ 32 /\
  (t / 60 / 60 / 24) mod 31 + 1 = 30 /\
  (t / 60 / 60 / 24 / 31) mod 12 + 1 = 2 /\
  decode_time t = Raise ValueError /\
  forall (session_id reply_id : Z) (rest : bytes),
    handle_set_time session_id reply_id (int_to_le 4 t ++ rest)
    = Raise ValueError.
Proof.
  cbv zeta.
  assert (Hd : decode_time 5184000 = Raise ValueError) by (vm_compute; reflexivity).
  split; [split; [discriminate | reflexivity]|].
  split; [vm_compute; reflexivity|].
  split; [vm_compute; reflexivity|].
  split; [exact Hd|].
  intros session_id reply_id rest. unfold handle_set_time.
  assert (Hf : firstn 4 (int_to_le 4 5184000 ++ rest) = int_to_le 4 5184000)
    by reflexivity.
  assert (Hu : unpack_uint (int_to_le 4 5184000) = 5184000)
    by (vm_compute; reflexivity).
  rewrite Hf, Hu, Hd.
  rewrite blen_app. pose proof (blen_nonneg rest).
  change (blen (int_to_le 4 5184000)) with 4.
  destruct (4 <=? 4 + blen rest) eqn:E; [reflexivity|lia].
Qed.

(** The 28-byte branch of [handle_user_wrq] takes every payload of 28
    bytes or more, so the 72-byte branch is never entered. *)
Lemma user_wrq_always_28_layout (st : State) (session_id reply_id : Z)
  (data : bytes) :
  28 <= blen data ->
  users (snd (handle_user_wrq st session_id reply_id data))
  = upsert_user (users st) (u_uid (unpack_user28 data)) (unpack_user28 data).
Proof.
  intros H. unfold handle_user_wrq.
  destruct (28 <=? blen data) eqn:E; [reflexivity|lia].
Qed.

(** C1 at a failing input. The 72-byte record of uid 9 named ["Bulk"]
    with user id ["9"] is read with the 28-byte layout: the user appended
    has the name bytes 8 to 15 of the payload and user id 0, where the
    72-byte layout reads name ["Bulk"] and user id 9. *)
Theorem user_wrq_72_byte_payload :
  length bulk72 = 72%nat /\
  unpack_user72 bulk72 = mk_user 9 0 [] (b_lit "Bulk") 0 0 9 /\
  handle_user_wrq init_default 1000 2 bulk72
  = (create_header CMD_ACK_OK 1000 2 [],
     set_users_count 4
       (set_users
          (users init_default ++
           [mk_user 9 0 [] ([x00; x00; x00] ++ b_lit "Bulk") 0 0 0])
          init_default)).
Proof.
  repeat split; vm_compute; reflexivity.
Qed.

(** ** Counters *)

Lemma add_templates_frame (l : list Template) (st : State) :
  let st' :=
    fold_left
      (fun st tmpl =>
         let st :=
           set_templates
             (remove_template (templates st) (t_uid tmpl) (t_fid tmpl)) st in
         set_templates (templates st ++ [tmpl]) st) l st in
  users st' = users st /\ users_count st' = users_count st /\
  records_count st' = records_count st /\
  attendance_records st' = attendance_records st.
Proof.
  revert st. induction l as [|t l IH]; intros st; cbn [fold_left].
  - auto.
  - cbv zeta in IH |- *.
    match goal with
    | |- context [fold_left ?f l ?s] => destruct (IH s) as (H1 & H2 & H3 & H4)
    end.
    rewrite H1, H2, H3, H4. auto.
Qed.

Ltac split_ifs :=
  repeat match goal with
         | |- context [if ?c then _ else _] => destruct c
         end.

Lemma handle_connect_counts_inv (st : State) (session_id reply_id : Z) :
  counts_inv st -> counts_inv (snd (handle_connect st session_id reply_id)).
Proof.
  intros Hinv. unfold handle_connect. cbv zeta. split_ifs; exact Hinv.
Qed.

Lemma handle_auth_counts_inv (st : State) (session_id reply_id : Z)
  (data : bytes) :
  counts_inv st -> counts_inv (snd (handle_auth st session_id reply_id data)).
Proof. intros Hinv. exact Hinv. Qed.

Lemma handle_exit_counts_inv (st : State) (session_id reply_id : Z) :
  counts_inv st -> counts_inv (snd (handle_exit st session_id reply_id)).
Proof.
  intros Hinv. unfold handle_exit. cbv zeta.
  destruct (create_header CMD_ACK_OK session_id reply_id []); exact Hinv.
Qed.

Lemma handle_reg_event_counts_inv (st : State) (session_id reply_id : Z)
  (data : bytes) :
  counts_inv st ->
  counts_inv (snd (handle_reg_event st session_id reply_id data)).
Proof.
  intros Hinv. unfold handle_reg_event. cbv zeta.
  destruct (4 <=? blen data); exact Hinv.
Qed.

Lemma handle_user_wrq_counts_inv (st : State) (session_id reply_id : Z)
  (data : bytes) :
  counts_inv st ->
  counts_inv (snd (handle_user_wrq st session_id reply_id data)).
Proof.
  intros Hinv. pose proof Hinv as (Hu & Hf & Hr & Ha).
  unfold handle_user_wrq. cbv zeta.
  destruct (28 <=? blen data); [|destruct (72 <=? blen data)];
    try exact Hinv; unfold counts_inv; cbn [snd]; repeat split; assumption.
Qed.

Lemma handle_delete_user_counts_inv (st : State) (session_id reply_id : Z)
  (data : bytes) :
  counts_inv st ->
  counts_inv (snd (handle_delete_user st session_id reply_id data)).
Proof.
  intros Hinv. pose proof Hinv as (Hu & Hf & Hr & Ha).
  unfold handle_delete_user. cbv zeta.
  destruct (2 <=? blen data); [|exact Hinv].
  unfold counts_inv. cbn [snd]. repeat split; try assumption.
  left. reflexivity.
Qed.

Lemma handle_delete_usertemp_counts_inv (st : State) (session_id reply_id : Z)
  (data : bytes) :
  counts_inv st ->
  counts_inv (snd (handle_delete_usertemp st session_id reply_id data)).
Proof.
  intros Hinv. pose proof Hinv as (Hu & Hf & Hr & Ha).
  unfold handle_delete_usertemp. cbv zeta.
  destruct (3 <=? blen data); [|exact Hinv].
  unfold counts_inv. cbn [snd]. repeat split; try assumption.
  left. reflexivity.
Qed.

Lemma handle_start_enroll_counts_inv (st : State) (session_id reply_id : Z)
  (data : bytes) :
  counts_inv st ->
  counts_inv (snd (handle_start_enroll st session_id reply_id data)).
Proof.
  intros Hinv. unfold handle_start_enroll. cbv zeta.
  destruct (26 <=? blen data); [|destruct (5 <=? blen data)]; exact Hinv.
Qed.

Lemma handle_cancel_capture_counts_inv (st : State) (session_id reply_id : Z) :
  counts_inv st ->
  counts_inv (snd (handle_cancel_capture st session_id reply_id)).
Proof. intros Hinv. exact Hinv. Qed.

Lemma handle_prepare_data_counts_inv (st : State) (session_id reply_id : Z)
  (data : bytes) :
  counts_inv st ->
  counts_inv (snd (handle_prepare_data st session_id reply_id data)).
Proof.
  intros Hinv. unfold handle_prepare_data. cbv zeta.
  destruct (4 <=? blen data); exact Hinv.
Qed.

Lemma handle_data_packet_counts_inv (st : State) (session_id reply_id : Z)
  (data : bytes) :
  counts_inv st ->
  counts_inv (snd (handle_data_packet st session_id reply_id data)).
Proof. intros Hinv. exact Hinv. Qed.

Lemma handle_save_usertemps_counts_inv (st : State) (session_id reply_id : Z)
  (data : bytes) :
  counts_inv st ->
  counts_inv (snd (handle_save_usertemps st session_id reply_id data)).
Proof.
  intros Hinv. pose proof Hinv as (Hu & Hf & Hr & Ha).
  unfold handle_save_usertemps. cbv zeta.
  destruct (12 <=? blen (data_buffer st)); [|exact Hinv].
  destruct (unpack_uint (slice 0 4 (data_buffer st)) >? 0); cbv iota beta;
    match goal with
    | |- context [fold_left ?f ?l ?s] =>
        pose proof (add_templates_frame l s) as Hfr; cbv zeta in Hfr;
        destruct Hfr as (H1 & H2 & H3 & H4);
        set (st2 := fold_left f l s) in *
    end;
    unfold counts_inv;
    cbn [users users_count templates fingers_count records_count
         attendance_records set_data_buffer set_fingers_count snd];
    rewrite H1, H2, H3, H4;
    cbn [users users_count records_count attendance_records
         set_users set_users_count];
    repeat split; try assumption; try reflexivity; left; reflexivity.
Qed.

Lemma dispatch_counts_inv (st : State) (now : datetime)
  (command session_id reply_id : Z) (data : bytes) :
  counts_inv st ->
  counts_inv (snd (fst (dispatch st now command session_id reply_id data))).
Proof.
  intros Hinv. unfold dispatch. cbv zeta beta.
  repeat match goal with
         | |- context [if ?c then _ else _] =>
             lazymatch c with
             | (_ =? _) => destruct c
             | (_ || _) => destruct c
             end
         end;
    cbn [fst snd];
    lazymatch goal with
    | |- counts_inv st => exact Hinv
    | |- counts_inv (snd (handle_connect _ _ _)) =>
        now apply handle_connect_counts_inv
    | |- counts_inv (snd (handle_auth _ _ _ _)) =>
        now apply handle_auth_counts_inv
    | |- counts_inv (snd (handle_exit _ _ _)) =>
        now apply handle_exit_counts_inv
    | |- counts_inv (snd (handle_reg_event _ _ _ _)) =>
        now apply handle_reg_event_counts_inv
    | |- counts_inv (snd (handle_user_wrq _ _ _ _)) =>
        now apply handle_user_wrq_counts_inv
    | |- counts_inv (snd (handle_delete_user _ _ _ _)) =>
        now apply handle_delete_user_counts_inv
    | |- counts_inv (snd (handle_delete_usertemp _ _ _ _)) =>
        now apply handle_delete_usertemp_counts_inv
    | |- counts_inv (snd (handle_start_enroll _ _ _ _)) =>
        now apply handle_start_enroll_counts_inv
    | |- counts_inv (snd (handle_cancel_capture _ _ _)) =>
        now apply handle_cancel_capture_counts_inv
    | |- counts_inv (snd (handle_prepare_data _ _ _ _)) =>
        now apply handle_prepare_data_counts_inv
    | |- counts_inv (snd (handle_data_packet _ _ _ _)) =>
        now apply handle_data_packet_counts_inv
    | |- counts_inv (snd (handle_save_usertemps _ _ _ _)) =>
        now apply handle_save_usertemps_counts_inv
    end.
Qed.

Lemma handle_packet_counts_inv (st : State) (now : datetime) (packet : bytes) :
  counts_inv st -> counts_inv (snd (handle_packet st now packet)).
Proof.
  intros Hinv. unfold handle_packet.
  destruct (parse_packet (use_tcp st) packet) as [[[[c s] r] d]|];
    [|exact Hinv].
  pose proof (dispatch_counts_inv st now c s r d Hinv) as H.
  destruct (dispatch st now c s r d) as [[response st'] start].
  cbn [fst snd] in H.
  destruct response as [response|e]; [|exact H].
  destruct (truthy response && use_tcp st'); [|exact H].
  destruct (create_tcp_top response); exact H.
Qed.

Lemma enrollment_finish_counts_inv (st : State) (acked : bool) :
  counts_inv st -> counts_inv (enrollment_finish st acked).
Proof.
  intros (Hu & Hf & Hr & Ha). unfold enrollment_finish, counts_inv.
  destruct acked; cbn; auto.
Qed.

(** In every reachable state the users count is the length of the user
    list; the fingers count is the length of the template list unless no
    template was ever written, when it is the 5 of [__init__] over an
    empty list; the records count stays at the 150 of [__init__] over an
    attendance list that stays empty. *)
Lemma reachable_counts (st : State) : reachable st -> counts_inv st.
Proof.
  induction 1 as [ip0 port0 password0 tcp0 | st st' _ IH Hstep].
  - unfold counts_inv. cbn. auto.
  - destruct Hstep.
    + now apply handle_packet_counts_inv.
    + now apply enrollment_finish_counts_inv.
Qed.

(** C2 at a failing input. The initial state is reachable; there the
    users count is the length of the user list, but the fingers count is
    5 over an empty template list and the records count is 150 over an
    empty attendance list, and GET FREE SIZES reports these counters in
    fields 4, 6 and 8. *)
Theorem initial_counts_disagree :
  reachable init_default /\
  users_count init_default = len (users init_default) /\
  fingers_count init_default = 5 /\ len (templates init_default) = 0 /\
  records_count init_default = 150 /\
  len (attendance_records init_default) = 0 /\
  exists frame payload,
    handle_get_free_sizes init_default 1000 1 = Ok frame /\
    parse_packet false frame = Some (CMD_ACK_OK, 1000, 1, payload) /\
    size_field 4 payload = 3 /\
    size_field 6 payload = 5 /\
    size_field 8 payload = 150.
Proof.
  split; [apply reach_init|].
  repeat (split; [reflexivity|]).
  eexists. eexists.
  split; [vm_compute; reflexivity|].
  split; [vm_compute; reflexivity|].
  repeat split; vm_compute; reflexivity.
Qed.

(** ** The loops of the bulk upload have fuel to spare *)

Lemma parse_users_fuel (fuel1 : nat) :
  forall (fuel2 : nat) (packet_size : Z) (us : list User) (user_data : bytes),
    28 <= packet_size ->
    (length user_data <= fuel1)%nat -> (length user_data <= fuel2)%nat ->
    parse_users fuel1 packet_size us user_data
    = parse_users fuel2 packet_size us user_data.
Proof.
  induction fuel1 as [|f1 IH]; intros fuel2 ps us d Hps H1 H2.
  - destruct d; [|cbn [length] in H1; lia].
    destruct fuel2; cbn [parse_users]; [reflexivity|].
    unfold blen. cbn [length]. destruct (ps <=? Z.of_nat 0) eqn:E; [apply Z.leb_le in E; lia|reflexivity].
  - destruct fuel2 as [|f2].
    + destruct d; [|cbn [length] in H2; lia].
      cbn [parse_users]. unfold blen. cbn [length].
      destruct (ps <=? Z.of_nat 0) eqn:E; [apply Z.leb_le in E; lia|reflexivity].
    + cbn [parse_users].
      destruct (ps <=? blen d) eqn:E; [|reflexivity].
      assert (Hd : (28 <= length d)%nat)
        by (unfold blen in E; apply Z.leb_le in E; lia).
      destruct (ps =? 72); apply IH; try assumption;
        rewrite length_skipn; lia.
Qed.

Lemma parse_table_fuel (fuel1 : nat) :
  forall (fuel2 : nat) (table_data fpack_data : bytes) (acc : list Template),
    (length table_data <= fuel1)%nat -> (length table_data <= fuel2)%nat ->
    parse_table fuel1 table_data fpack_data acc
    = parse_table fuel2 table_data fpack_data acc.
Proof.
  induction fuel1 as [|f1 IH]; intros fuel2 td fd acc H1 H2.
  - destruct td; [|cbn [length] in H1; lia].
    destruct fuel2; reflexivity.
  - destruct fuel2 as [|f2].
    + destruct td; [|cbn [length] in H2; lia]. reflexivity.
    + cbn [parse_table].
      destruct (8 <=? blen td) eqn:E; [|reflexivity].
      assert (Hd : (8 <= length td)%nat)
        by (unfold blen in E; apply Z.leb_le in E; lia).
      cbv zeta. apply IH; rewrite length_skipn; lia.
Qed.


(** * Further properties *)

(** ** The user list *)

Lemma upsert_user_fold (uid : Z) (new : User) (us acc : list User) (b : bool) :
  fold_left
    (fun '(new_users, user_found) u =>
       if u_uid u =? uid then (new_users ++ [new], true)
       else (new_users ++ [u], user_found))
    us (acc, b)
  = (acc ++ map (fun u => if u_uid u =? uid then new else u) us,
     b || existsb (fun u => u_uid u =? uid) us).
Proof.
  revert acc b. induction us as [|u us IH]; intros acc b; cbn [fold_left map existsb].
  - now rewrite app_nil_r, orb_false_r.
  - destruct (u_uid u =? uid); rewrite IH, <- app_assoc; cbn [app orb].
    + now rewrite orb_true_r.
    + reflexivity.
Qed.

Lemma upsert_user_eq (us : list User) (uid : Z) (new : User) :
  upsert_user us uid new
  = map (fun u => if u_uid u =? uid then new else u) us
    ++ (if existsb (fun u => u_uid u =? uid) us then [] else [new]).
Proof.
  unfold upsert_user. rewrite upsert_user_fold. cbn [app orb negb].
  destruct (existsb _ us); cbn [negb]; [now rewrite app_nil_r | reflexivity].
Qed.

Lemma map_replace_absent (uid : Z) (new : User) (us : list User) :
  (forall u, In u us -> u_uid u <> uid) ->
  map (fun u => if u_uid u =? uid then new else u) us = us
  /\ existsb (fun u => u_uid u =? uid) us = false.
Proof.
  induction us as [|u us IH]; intros H; cbn [map existsb]; [auto|].
  destruct (IH (fun v Hv => H v (or_intror Hv))) as [-> ->].
  pose proof (H u (or_introl eq_refl)) as Hu. apply Z.eqb_neq in Hu.
  rewrite Hu. auto.
Qed.

(** X1. The update-or-add loop: a record for a uid no user has is
    appended at the end; a record for the uid of a user replaces that
    user where it stands, and the users before and after it stay. *)
Theorem upsert_user_position (uid : Z) (new : User) :
  (forall us,
     (forall u, In u us -> u_uid u <> uid) ->
     upsert_user us uid new = us ++ [new]) /\
  (forall pre old post,
     u_uid old = uid ->
     (forall u, In u pre -> u_uid u <> uid) ->
     (forall u, In u post -> u_uid u <> uid) ->
     upsert_user (pre ++ old :: post) uid new = pre ++ new :: post).
Proof.
  split.
  - intros us H. rewrite upsert_user_eq.
    now destruct (map_replace_absent uid new us H) as [-> ->].
  - intros pre old post Ho Hpre Hpost. rewrite upsert_user_eq.
    rewrite map_app, existsb_app. cbn [map existsb].
    destruct (map_replace_absent uid new pre Hpre) as [-> ->].
    destruct (map_replace_absent uid new post Hpost) as [-> ->].
    apply Z.eqb_eq in Ho. rewrite Ho. cbn [orb]. now rewrite app_nil_r.
Qed.

Lemma upsert_user_position_witness :
  upsert_user (users init_default) 9 (unpack_user28 bulk72)
  = users init_default ++ [unpack_user28 bulk72]
  /\
  upsert_user (users init_default) 2 (mk_user 2 14 [] (b_lit "Root") 0 0 2)
  = [mk_user 1 0 [] (b_lit "Admin") 0 0 1;
     mk_user 2 14 [] (b_lit "Root") 0 0 2;
     mk_user 3 0 [] (b_lit "User002") 234567 0 3].
Proof.
  split.
  - apply (proj1 (upsert_user_position 9 (unpack_user28 bulk72))).
    intros u [<-|[<-|[<-|[]]]]; discriminate.
  - apply (proj2 (upsert_user_position 2 (mk_user 2 14 [] (b_lit "Root") 0 0 2))
             [mk_user 1 0 [] (b_lit "Admin") 0 0 1]
             (mk_user 2 0 (b_lit "12345") (b_lit "User001") 123456 0 2)
             [mk_user 3 0 [] (b_lit "User002") 234567 0 3]).
    + reflexivity.
    + intros u [<-|[]]; discriminate.
    + intros u [<-|[]]; discriminate.
Defined.

Lemma upsert_user_uids (us : list User) (new : User) :
  map u_uid (map (fun u => if u_uid u =? u_uid new then new else u) us)
  = map u_uid us.
Proof.
  rewrite map_map. apply map_ext. intros u.
  destruct (u_uid u =? u_uid new) eqn:E; [|reflexivity].
  apply Z.eqb_eq in E. now rewrite E.
Qed.

Lemma NoDup_snoc {A : Type} (l : list A) (x : A) :
  NoDup l -> ~ In x l -> NoDup (l ++ [x]).
Proof.
  intros Hl Hx. induction Hl as [|y l Hy Hl IH]; cbn [app].
  - constructor; [intros []|constructor].
  - constructor.
    + rewrite in_app_iff. intros [H|[H|[]]]; [auto|].
      subst. apply Hx. now left.
    + apply IH. intros H. apply Hx. now right.
Qed.

Lemma upsert_user_nodup (us : list User) (new : User) :
  NoDup (map u_uid us) ->
  NoDup (map u_uid (upsert_user us (u_uid new) new)).
Proof.
  intros H. rewrite upsert_user_eq, map_app, upsert_user_uids.
  destruct (existsb _ us) eqn:E; cbn [map].
  - now rewrite app_nil_r.
  - apply NoDup_snoc; [exact H|].
    intros Hin. apply in_map_iff in Hin as (u & Hu & Hin).
    assert (Ht : existsb (fun u => u_uid u =? u_uid new) us = true).
    { apply existsb_exists. exists u. split; [exact Hin|]. now apply Z.eqb_eq. }
    congruence.
Qed.

Lemma filter_keeps_distinct_keys {V K : Type} (key : V -> K)
  (keep : V -> bool) (xs : list V) (Hxs : NoDup (map key xs)) :
  NoDup (map key (filter keep xs)).
Proof.
  induction xs as [|x xs IH]; cbn [map filter] in *; [constructor|].
  apply NoDup_cons_iff in Hxs as [Hx Hrest].
  destruct (keep x); cbn [map]; [|exact (IH Hrest)].
  apply NoDup_cons_iff. split; [|exact (IH Hrest)].
  intros Hin. apply Hx. apply in_map_iff in Hin as (y & Hy & Hin).
  apply filter_In in Hin as [Hin _]. apply in_map_iff. now exists y.
Qed.

Lemma parse_users_nodup (fuel : nat) :
  forall (packet_size : Z) (us : list User) (user_data : bytes),
    NoDup (map u_uid us) ->
    NoDup (map u_uid (parse_users fuel packet_size us user_data)).
Proof.
  induction fuel as [|f IH]; intros ps us d H; cbn [parse_users]; [exact H|].
  destruct (ps <=? blen d); [|exact H].
  destruct (ps =? 72); apply IH; now apply upsert_user_nodup.
Qed.

(** ** The template list *)

Lemma remove_template_key (ts : list Template) (uid fid : Z) (t : Template) :
  In t (remove_template ts uid fid) <->
  In t ts /\ template_key t <> (uid, fid).
Proof.
  unfold remove_template, template_key. rewrite filter_In.
  split; intros [Hin H]; split; try exact Hin.
  - intros E. injection E as E1 E2.
    apply Z.eqb_eq in E1, E2. rewrite E1, E2 in H. discriminate H.
  - destruct (t_uid t =? uid) eqn:E1; [|reflexivity].
    destruct (t_fid t =? fid) eqn:E2; [|reflexivity].
    apply Z.eqb_eq in E1, E2. exfalso. apply H. now rewrite E1, E2.
Qed.

Lemma replace_template_nodup (ts : list Template) (t : Template) :
  NoDup (map template_key ts) ->
  NoDup (map template_key
           (remove_template ts (t_uid t) (t_fid t) ++ [t])).
Proof.
  intros H. rewrite map_app. cbn [map]. apply NoDup_snoc.
  - now apply filter_keeps_distinct_keys.
  - intros Hin. apply in_map_iff in Hin as (x & Hx & Hin).
    apply remove_template_key in Hin as [_ Hk]. apply Hk. exact Hx.
Qed.

Lemma add_templates_nodup (l : list Template) (st : State) :
  NoDup (map template_key (templates st)) ->
  NoDup (map template_key
           (templates
              (fold_left
                 (fun st tmpl =>
                    let st :=
                      set_templates
                        (remove_template (templates st) (t_uid tmpl)
                           (t_fid tmpl)) st in
                    set_templates (templates st ++ [tmpl]) st) l st))).
Proof.
  revert st. induction l as [|t l IH]; intros st H; cbn [fold_left]; [exact H|].
  apply IH. cbv zeta. cbn [templates set_templates].
  now apply replace_template_nodup.
Qed.

(** ** How a packet changes the state *)

Ltac state_simpl :=
  cbn [fst snd ip port password use_tcp session_id is_authenticated
       firmware_version serial_number platform device_name mac_address
       users templates attendance_records registered_events
       enrollment_mode enrollment_uid enrollment_fid data_buffer
       users_count users_capacity fingers_count fingers_capacity
       records_count records_capacity self_session_id
       set_session_id set_is_authenticated set_users set_templates
       set_registered_events set_enrollment_mode set_enrollment_uid
       set_enrollment_fid set_data_buffer set_users_count
       set_fingers_count].

Ltac dispatch_split :=
  unfold dispatch; cbv zeta beta;
  repeat match goal with
         | |- context [if ?c then _ else _] =>
             lazymatch c with
             | (_ =? _) => destruct c
             | (_ || _) => destruct c
             end
         end;
  cbn [fst snd].

(** The template loop of [handle_save_usertemps] writes to
    [self.templates] only. *)
Lemma add_templates_only (l : list Template) (st : State) :
  exists ts,
    fold_left
      (fun st tmpl =>
         let st :=
           set_templates
             (remove_template (templates st) (t_uid tmpl) (t_fid tmpl)) st in
         set_templates (templates st ++ [tmpl]) st) l st
    = set_templates ts st.
Proof.
  revert st. induction l as [|t l IH]; intros st; cbn [fold_left].
  - exists (templates st). now destruct st.
  - match goal with
    | |- context [fold_left ?f l ?s] => destruct (IH s) as [ts E]
    end.
    exists ts. etransitivity; [exact E | reflexivity].
Qed.

Ltac fold_templates_only :=
  match goal with
  | |- context [fold_left ?f ?l ?s] =>
      let H := fresh in
      pose proof (add_templates_only l s) as H; cbv zeta in H;
      destruct H as [? ->]
  end.

(** The state after [handle_save_usertemps], written out. *)
Lemma handle_save_usertemps_state (st : State) (session_id reply_id : Z)
  (data : bytes) :
  let st' := snd (handle_save_usertemps st session_id reply_id data) in
  exists us ts uc fc,
    st' = set_data_buffer []
            (set_fingers_count fc
               (set_templates ts (set_users_count uc (set_users us st)))).
Proof.
  cbv zeta. unfold handle_save_usertemps. cbv zeta.
  destruct (12 <=? blen (data_buffer st)).
  - destruct (unpack_uint (slice 0 4 (data_buffer st)) >? 0); cbv iota beta;
      fold_templates_only; state_simpl; do 4 eexists; reflexivity.
  - cbn [snd]. exists (users st), (templates st), (users_count st),
      (fingers_count st). now destruct st.
Qed.

(** Only four handlers write to the user and template lists; no handler
    changes the transport mode. *)
Lemma dispatch_model_cases (st : State) (now : datetime)
  (command session_id reply_id : Z) (data : bytes) :
  let st' := snd (fst (dispatch st now command session_id reply_id data)) in
  use_tcp st' = use_tcp st /\
  ((users st' = users st /\ templates st' = templates st) \/
   st' = snd (handle_user_wrq st session_id reply_id data) \/
   st' = snd (handle_delete_user st session_id reply_id data) \/
   st' = snd (handle_delete_usertemp st session_id reply_id data) \/
   st' = snd (handle_save_usertemps st session_id reply_id data)).
Proof.
  cbv zeta. dispatch_split;
    lazymatch goal with
    | |- use_tcp (snd (handle_save_usertemps _ _ _ _)) = _ /\ _ =>
        split; [|auto 6];
        destruct (handle_save_usertemps_state st session_id reply_id data)
          as (us & ts & uc & fc & ->); reflexivity
    | |- use_tcp (snd (handle_user_wrq _ _ _ _)) = _ /\ _ =>
        split; [|auto 6]; unfold handle_user_wrq; cbv zeta;
        split_ifs; reflexivity
    | |- use_tcp (snd (handle_delete_user _ _ _ _)) = _ /\ _ =>
        split; [|auto 6]; unfold handle_delete_user; cbv zeta;
        split_ifs; reflexivity
    | |- use_tcp (snd (handle_delete_usertemp _ _ _ _)) = _ /\ _ =>
        split; [|auto 6]; unfold handle_delete_usertemp; cbv zeta;
        split_ifs; reflexivity
    | |- _ =>
        unfold handle_connect, handle_auth, handle_exit, handle_reg_event,
          handle_start_enroll, handle_cancel_capture, handle_prepare_data,
          handle_data_packet;
        cbv zeta;
        repeat match goal with
               | |- context [if ?c then _ else _] => destruct c
               | |- context [match ?x with Ok _ => _ | Raise _ => _ end] =>
                   destruct x
               end;
        state_simpl; auto
    end.
Qed.

Lemma handle_packet_state_cases (st : State) (now : datetime) (packet : bytes) :
  snd (handle_packet st now packet) = st \/
  exists command session_id reply_id data,
    parse_packet (use_tcp st) packet
    = Some (command, session_id, reply_id, data) /\
    snd (handle_packet st now packet)
    = snd (fst (dispatch st now command session_id reply_id data)).
Proof.
  unfold handle_packet.
  destruct (parse_packet (use_tcp st) packet) as [[[[c s] r] d]|];
    [right|now left].
  exists c, s, r, d. split; [reflexivity|].
  destruct (dispatch st now c s r d) as [[response st'] start].
  cbn [fst snd].
  destruct response as [response|e]; [|reflexivity].
  destruct (truthy response && use_tcp st'); [|reflexivity].
  destruct (create_tcp_top response); reflexivity.
Qed.

(** ** Unique keys *)

Lemma handle_user_wrq_keys_inv (st : State) (session_id reply_id : Z)
  (data : bytes) :
  keys_inv st -> keys_inv (snd (handle_user_wrq st session_id reply_id data)).
Proof.
  intros [Hu Ht]. unfold handle_user_wrq. cbv zeta.
  destruct (28 <=? blen data); [|destruct (72 <=? blen data)];
    split; state_simpl; try assumption; now apply upsert_user_nodup.
Qed.

Lemma handle_delete_user_keys_inv (st : State) (session_id reply_id : Z)
  (data : bytes) :
  keys_inv st -> keys_inv (snd (handle_delete_user st session_id reply_id data)).
Proof.
  intros [Hu Ht]. unfold handle_delete_user. cbv zeta.
  destruct (2 <=? blen data); split; state_simpl; try assumption;
    now apply filter_keeps_distinct_keys.
Qed.

Lemma handle_delete_usertemp_keys_inv (st : State) (session_id reply_id : Z)
  (data : bytes) :
  keys_inv st ->
  keys_inv (snd (handle_delete_usertemp st session_id reply_id data)).
Proof.
  intros [Hu Ht]. unfold handle_delete_usertemp. cbv zeta.
  destruct (3 <=? blen data); split; state_simpl; try assumption.
  unfold remove_template. now apply filter_keeps_distinct_keys.
Qed.

Lemma handle_save_usertemps_keys_inv (st : State) (session_id reply_id : Z)
  (data : bytes) :
  keys_inv st ->
  keys_inv (snd (handle_save_usertemps st session_id reply_id data)).
Proof.
  intros [Hu Ht]. unfold handle_save_usertemps. cbv zeta.
  destruct (12 <=? blen (data_buffer st)); [|split; assumption].
  destruct (unpack_uint (slice 0 4 (data_buffer st)) >? 0); cbv iota beta;
    (split;
     [ fold_templates_only; state_simpl;
       first [exact Hu | now apply parse_users_nodup]
     | cbn [snd templates set_data_buffer set_fingers_count];
       apply add_templates_nodup; exact Ht ]).
Qed.

Lemma reachable_keys_inv (st : State) : reachable st -> keys_inv st.
Proof.
  induction 1 as [ip0 port0 password0 tcp0 | st st' _ IH Hstep].
  - split; cbn; repeat constructor; cbn; intuition discriminate.
  - destruct Hstep as [st now packet | st acked].
    + destruct (handle_packet_state_cases st now packet)
        as [-> | (c & s & r & d & _ & ->)]; [exact IH|].
      destruct (dispatch_model_cases st now c s r d)
        as [_ [[Hu Ht] | [-> | [-> | [-> | ->]]]]].
      * destruct IH as [IHu IHt]. split; [now rewrite Hu | now rewrite Ht].
      * now apply handle_user_wrq_keys_inv.
      * now apply handle_delete_user_keys_inv.
      * now apply handle_delete_usertemp_keys_inv.
      * now apply handle_save_usertemps_keys_inv.
    + destruct IH as [IHu IHt]. unfold enrollment_finish.
      destruct acked; split; state_simpl; try assumption.
      apply (replace_template_nodup (templates st)
               (mk_template (enrollment_uid st) (enrollment_fid st) 1
                  (repeat x00 512)) IHt).
Qed.

(** X2. In every state the simulator reaches, no two users have the
    same uid. *)
Theorem reachable_unique_uids (st : State) :
  reachable st -> NoDup (map u_uid (users st)).
Proof. intros H. exact (proj1 (reachable_keys_inv st H)). Qed.

(** X3. In every state the simulator reaches, no two templates have the
    same (uid, finger) key. *)
Theorem reachable_unique_template_keys (st : State) :
  reachable st -> NoDup (map template_key (templates st)).
Proof. intros H. exact (proj2 (reachable_keys_inv st H)). Qed.

(** ** Deleting and looking up *)

(** X4. DELETE USER with a payload of two bytes or more answers OK,
    keeps exactly the users and the templates whose uid is not the one in
    the payload, and sets both counters to the new lengths; with a
    shorter payload it answers OK and changes nothing. *)
Theorem delete_user_effect (st : State) (session_id reply_id : Z)
  (data : bytes) :
  let uid := unpack_uint (firstn 2 data) in
  let st' := snd (handle_delete_user st session_id reply_id data) in
  fst (handle_delete_user st session_id reply_id data)
  = create_header CMD_ACK_OK session_id reply_id [] /\
  (2 <= blen data ->
   (forall u, In u (users st') <-> In u (users st) /\ u_uid u <> uid) /\
   (forall t, In t (templates st') <-> In t (templates st) /\ t_uid t <> uid) /\
   users_count st' = len (users st') /\
   fingers_count st' = len (templates st')) /\
  (blen data < 2 -> st' = st).
Proof.
  cbv zeta. unfold handle_delete_user. cbv zeta.
  destruct (2 <=? blen data) eqn:E; state_simpl.
  - split; [reflexivity|]. split; [|intros H; apply Z.leb_le in E; lia].
    intros _. split; [|split; [|split; reflexivity]].
    + intros u. rewrite filter_In, negb_true_iff, Z.eqb_neq. reflexivity.
    + intros t. rewrite filter_In, negb_true_iff, Z.eqb_neq. reflexivity.
  - split; [reflexivity|]. split; [|reflexivity].
    intros H. apply Z.leb_gt in E. lia.
Qed.

Lemma delete_user_effect_witness :
  let st' := snd (handle_delete_user one_template 1000 2 [x01; x00]) in
  users st' = [mk_user 2 0 (b_lit "12345") (b_lit "User001") 123456 0 2;
               mk_user 3 0 [] (b_lit "User002") 234567 0 3] /\
  templates st' = [] /\
  (forall t, In t (templates st') <->
             In t (templates one_template) /\ t_uid t <> 1) /\
  snd (handle_delete_user one_template 1000 2 [x01]) = one_template.
Proof.
  cbv zeta. split; [reflexivity|]. split; [reflexivity|]. split.
  - apply (proj1 (proj2 (delete_user_effect one_template 1000 2 [x01; x00]))).
    unfold blen. simpl. lia.
  - apply (proj2 (proj2 (delete_user_effect one_template 1000 2 [x01]))).
    unfold blen. simpl. lia.
Defined.

(** X5. DELETE USER followed by a USER WRQ of 28 bytes or more for the
    same uid leaves the other users in their order and the re-added user
    at the end of the list, with the users count equal to the new
    length. *)
Theorem delete_then_add_appends (st : State) (s1 r1 s2 r2 : Z)
  (del rec : bytes) :
  2 <= blen del ->
  28 <= blen rec ->
  u_uid (unpack_user28 rec) = unpack_uint (firstn 2 del) ->
  let st1 := snd (handle_delete_user st s1 r1 del) in
  let st2 := snd (handle_user_wrq st1 s2 r2 rec) in
  users st2
  = filter (fun u => negb (u_uid u =? unpack_uint (firstn 2 del))) (users st)
    ++ [unpack_user28 rec] /\
  users_count st2 = len (users st2).
Proof.
  intros Hd Hr Huid. cbv zeta.
  unfold handle_user_wrq, handle_delete_user. cbv zeta.
  apply Z.leb_le in Hd, Hr. rewrite Hd, Hr. state_simpl.
  split; [|reflexivity].
  rewrite Huid, upsert_user_eq.
  match goal with
  | |- context [map ?f ?l] =>
      destruct (map_replace_absent (unpack_uint (firstn 2 del))
                  (unpack_user28 rec) l) as [-> ->]; [|reflexivity]
  end.
  intros u Hin Eq. apply filter_In in Hin as [_ Hb].
  rewrite Eq, Z.eqb_refl in Hb. discriminate Hb.
Qed.

(** A 28-byte USER WRQ record for uid 2, named ["User001"]. *)
Lemma delete_then_add_appends_witness :
  let rec := [x02; x00; x00] ++ repeat x00 5 ++ b_lit "User001" ++
             repeat x00 13 in
  let st1 := snd (handle_delete_user init_default 1000 1 [x02; x00]) in
  let st2 := snd (handle_user_wrq st1 1000 2 rec) in
  users st2
  = filter (fun u => negb (u_uid u =? unpack_uint (firstn 2 [x02; x00])))
      (users init_default)
    ++ [unpack_user28 rec] /\
  users_count st2 = len (users st2).
Proof.
  cbv zeta.
  apply (delete_then_add_appends init_default 1000 1 1000 2 [x02; x00]
           ([x02; x00; x00] ++ repeat x00 5 ++ b_lit "User001" ++
            repeat x00 13)).
  - unfold blen. simpl. lia.
  - unfold blen. simpl. lia.
  - reflexivity.
Defined.

Lemma find_template_none (ts : list Template) (uid fid : Z) :
  (forall t, In t ts -> template_key t <> (uid, fid)) ->
  find (fun t => (t_uid t =? uid) && (t_fid t =? fid)) ts = None.
Proof.
  induction ts as [|t ts IH]; intros H; cbn [find]; [reflexivity|].
  destruct ((t_uid t =? uid) && (t_fid t =? fid)) eqn:E.
  - apply andb_true_iff in E as [E1 E2]. apply Z.eqb_eq in E1, E2.
    exfalso. apply (H t (or_introl eq_refl)). unfold template_key.
    now rewrite E1, E2.
  - apply IH. intros t' Ht'. apply H. now right.
Qed.

(** X6. After DELETE USERTEMP with a payload of three bytes or more, GET
    USERTEMP with the same payload answers ERROR; so does GET USERTEMP for
    any finger of a user after DELETE USER of that user's uid. *)
Theorem get_usertemp_after_delete (st : State) (s1 r1 s2 r2 : Z) :
  (forall data,
     3 <= blen data ->
     handle_get_usertemp (snd (handle_delete_usertemp st s1 r1 data)) s2 r2 data
     = create_header CMD_ACK_ERROR s2 r2 []) /\
  (forall del get,
     2 <= blen del ->
     firstn 2 get = firstn 2 del ->
     handle_get_usertemp (snd (handle_delete_user st s1 r1 del)) s2 r2 get
     = create_header CMD_ACK_ERROR s2 r2 []).
Proof.
  split.
  - intros data H. apply Z.leb_le in H.
    unfold handle_get_usertemp, handle_delete_usertemp. cbv zeta.
    rewrite H. state_simpl. rewrite find_template_none; [reflexivity|].
    intros t Ht. now apply remove_template_key in Ht as [_ Hk].
  - intros del get Hd Hf. apply Z.leb_le in Hd.
    unfold handle_get_usertemp, handle_delete_user. cbv zeta.
    rewrite Hd. state_simpl.
    destruct (3 <=? blen get); [|reflexivity].
    rewrite find_template_none; [reflexivity|].
    intros t Ht Hk. apply filter_In in Ht as [_ Hb].
    unfold template_key in Hk. injection Hk as Hu _.
    assert (Hs : slice 0 2 (firstn 3 get) = firstn 2 del).
    { rewrite <- Hf.
      change (slice 0 2 (firstn 3 get)) with (firstn 2 (firstn 3 get)).
      rewrite firstn_firstn. reflexivity. }
    assert (Hu' : t_uid t = unpack_uint (slice 0 2 (firstn 3 get)))
      by exact Hu.
    rewrite Hs in Hu'. rewrite Hu', Z.eqb_refl in Hb. discriminate Hb.
Qed.

Lemma get_usertemp_after_delete_witness :
  handle_get_usertemp
    (snd (handle_delete_usertemp one_template 1000 1 [x01; x00; x00]))
    1000 2 [x01; x00; x00]
  = create_header CMD_ACK_ERROR 1000 2 []
  /\
  handle_get_usertemp
    (snd (handle_delete_user one_template 1000 1 [x01; x00]))
    1000 2 [x01; x00; x00]
  = create_header CMD_ACK_ERROR 1000 2 [].
Proof.
  split.
  - apply (proj1 (get_usertemp_after_delete one_template 1000 1 1000 2)).
    unfold blen. simpl. lia.
  - apply (proj2 (get_usertemp_after_delete one_template 1000 1 1000 2)).
    + unfold blen. simpl. lia.
    + reflexivity.
Defined.

Lemma unpack_sint_byte (v : Z) :
  in_signed 1 v = true -> unpack_sint [byte_of (v mod 256)] = v.
Proof.
  unfold in_signed. change (2 ^ (8 * Z.of_nat 1 - 1)) with 128.
  intros H. apply andb_true_iff in H as [H0 H1].
  unfold unpack_sint. cbn [int_from_le length].
  change (8 * Z.of_nat 1) with 8. change (2 ^ (8 - 1)) with 128.
  change (2 ^ 8) with 256.
  rewrite byte_val_of, Z.mod_mod by lia.
  destruct (Z.lt_ge_cases v 0) as [Hn|Hn].
  - assert (Hm : v mod 256 = v + 256)
      by (symmetry; apply (Z.mod_unique v 256 (-1)); lia).
    rewrite Hm. destruct (v + 256 + 256 * 0 <? 128) eqn:E; lia.
  - rewrite Z.mod_small by lia.
    destruct (v + 256 * 0 <? 128) eqn:E; lia.
Qed.

Lemma find_template_last (ts : list Template) (t : Template) :
  (forall x, In x ts -> template_key x <> template_key t) ->
  find (fun x => (t_uid x =? t_uid t) && (t_fid x =? t_fid t)) (ts ++ [t])
  = Some t.
Proof.
  induction ts as [|x ts IH]; intros H; cbn [app find].
  - now rewrite !Z.eqb_refl.
  - destruct ((t_uid x =? t_uid t) && (t_fid x =? t_fid t)) eqn:E.
    + apply andb_true_iff in E as [E1 E2]. apply Z.eqb_eq in E1, E2.
      exfalso. apply (H x (or_introl eq_refl)). unfold template_key.
      now rewrite E1, E2.
    + apply IH. intros y Hy. apply H. now right.
Qed.

(** X7. When an enrollment ends acknowledged for a uid in 0..65535 and a
    finger in -128..127, GET USERTEMP for that uid and finger answers with
    the DATA packet of 518 zero bytes: the 512-byte template and the six
    bytes the handler adds. *)
Theorem get_usertemp_after_enrollment (st : State) (session_id reply_id : Z) :
  in_unsigned 2 (enrollment_uid st) = true ->
  in_signed 1 (enrollment_fid st) = true ->
  handle_get_usertemp (enrollment_finish st true) session_id reply_id
    (int_to_le 2 (enrollment_uid st) ++ [byte_of (enrollment_fid st mod 256)])
  = create_header CMD_DATA session_id reply_id (repeat x00 518).
Proof.
  intros Hu Hf. unfold handle_get_usertemp, enrollment_finish. cbv zeta.
  state_simpl. cbn [int_to_le app].
  change (3 <=? blen _) with true. cbv iota.
  assert (Hs1 : slice 0 2
            (firstn 3 [byte_of (enrollment_uid st);
                       byte_of (enrollment_uid st / 256);
                       byte_of (enrollment_fid st mod 256)])
          = [byte_of (enrollment_uid st); byte_of (enrollment_uid st / 256)])
    by reflexivity.
  assert (Hs2 : slice 2 3
            (firstn 3 [byte_of (enrollment_uid st);
                       byte_of (enrollment_uid st / 256);
                       byte_of (enrollment_fid st mod 256)])
          = [byte_of (enrollment_fid st mod 256)])
    by reflexivity.
  rewrite Hs1, Hs2, (unpack_uint_2 _ Hu), (unpack_sint_byte _ Hf).
  assert (Hfind := find_template_last
             (remove_template (templates st) (enrollment_uid st)
                (enrollment_fid st))
             (mk_template (enrollment_uid st) (enrollment_fid st) 1
                (repeat x00 512))).
  cbn [t_uid t_fid] in Hfind. rewrite Hfind; [reflexivity|].
  intros x Hx. now apply remove_template_key in Hx as [_ Hk].
Qed.

Lemma get_usertemp_after_enrollment_witness :
  handle_get_usertemp
    (enrollment_finish
       (set_enrollment_fid (-3) (set_enrollment_uid 7 init_default)) true)
    1000 9 [x07; x00; xfd]
  = create_header CMD_DATA 1000 9 (repeat x00 518).
Proof.
  exact (get_usertemp_after_enrollment
           (set_enrollment_fid (-3) (set_enrollment_uid 7 init_default))
           1000 9 eq_refl eq_refl).
Defined.

(** ** Packets in, packets out *)

Lemma in_unsigned_of_le (b : bytes) :
  (length b <= 2)%nat -> in_unsigned 2 (unpack_uint b) = true.
Proof.
  intros H. apply in_unsigned_2. unfold unpack_uint.
  pose proof (int_from_le_range b) as Hr.
  assert (2 ^ (8 * Z.of_nat (length b)) <= 2 ^ 16)
    by (apply Z.pow_le_mono_r; lia).
  change (2 ^ 16) with 65536 in *. lia.
Qed.

Lemma slice_length_le (i j : Z) (b : bytes) :
  (length (slice i j b) <= Z.to_nat j - Z.to_nat i)%nat.
Proof. unfold slice. rewrite length_firstn. lia. Qed.

(** The identifiers [handle_packet] reads from a packet are 16-bit
    values. *)
Lemma parse_packet_range (tcp : bool) (packet : bytes)
  (command session_id reply_id : Z) (data : bytes) :
  parse_packet tcp packet = Some (command, session_id, reply_id, data) ->
  in_unsigned 2 command = true /\
  in_unsigned 2 session_id = true /\
  in_unsigned 2 reply_id = true.
Proof.
  unfold parse_packet. cbv zeta. intros H.
  repeat match type of H with
         | context [if ?c then _ else _] => destruct c
         | (match ?x with Some _ => _ | None => _ end) = _ => destruct x
         end; try discriminate H;
    injection H as <- <- <- <-;
    repeat split; apply in_unsigned_of_le;
    match goal with
    | |- (length (slice ?i ?j ?b) <= 2)%nat =>
        pose proof (slice_length_le i j b) as Hl;
        change (Z.to_nat j - Z.to_nat i)%nat with 2%nat in Hl; exact Hl
    end.
Qed.

(** A packet [create_header] returned parses back to its fields. *)
Lemma create_header_inv (command session_id reply_id : Z) (data frame : bytes) :
  in_unsigned 2 session_id = true ->
  in_unsigned 2 reply_id = true ->
  create_header command session_id reply_id data = Ok frame ->
  parse_packet false frame = Some (command, session_id, reply_id, data) /\
  truthy frame = true.
Proof.
  intros Hs Hr H.
  destruct (in_unsigned 2 command) eqn:Hc.
  - rewrite (create_header_ok command session_id reply_id data Hc Hs Hr) in H.
    match type of H with
    | Ok ?f = Ok _ => assert (Hf : frame = f) by congruence
    end.
    subst frame. split; [|reflexivity].
    rewrite parse_packet_inner. now rewrite !unpack_uint_2 by assumption.
  - unfold create_header, pack_4H, pack_uint in H. rewrite Hc in H.
    discriminate H.
Qed.

(** A frame [create_tcp_top] returned parses, in TCP mode, as the packet
    it wraps parses in UDP mode. *)
Lemma create_tcp_top_inv (inner frame : bytes) :
  create_tcp_top inner = Ok frame ->
  parse_packet true frame = parse_packet false inner.
Proof.
  unfold create_tcp_top, pack_uint. cbv zeta.
  change (in_unsigned 2 MACHINE_PREPARE_DATA_1) with true.
  change (in_unsigned 2 MACHINE_PREPARE_DATA_2) with true.
  cbn [bind]. destruct (in_unsigned 4 (blen inner)); [|discriminate].
  cbn [bind]. intros H.
  match type of H with
  | Ok ?f = Ok _ => assert (Hf : frame = f) by congruence
  end.
  subst frame. cbn [int_to_le]. apply parse_packet_tcp.
Qed.

Lemma frame_of_create_header (cmds : list Z) (command session_id reply_id : Z)
  (payload : bytes) :
  In command cmds ->
  frame_of cmds session_id reply_id
    (create_header command session_id reply_id payload).
Proof. intros Hin frame H. now exists command, payload. Qed.

Lemma frame_of_bind {A : Type} (cmds : list Z) (session_id reply_id : Z)
  (c : result A) (k : A -> result bytes) :
  (forall x, frame_of cmds session_id reply_id (k x)) ->
  frame_of cmds session_id reply_id (bind c k).
Proof.
  intros H. destruct c as [a|e]; cbn [bind]; [apply H|].
  intros frame Hf. discriminate Hf.
Qed.

Ltac frame_solve :=
  cbv zeta;
  repeat first
    [ apply frame_of_create_header; unfold reply_commands; cbn [In]; tauto
    | apply frame_of_bind; intro
    | match goal with
      | |- frame_of _ _ _ (fst (if ?c then _ else _)) => destruct c
      | |- frame_of _ _ _ (if ?c then _ else _) => destruct c
      | |- frame_of _ _ _ (match ?x with Some _ => _ | None => _ end) =>
          destruct x
      | |- frame_of _ _ _ (fst (_, _)) => cbn [fst]
      end ].

Lemma handle_exit_response (st : State) (session_id reply_id : Z) :
  fst (handle_exit st session_id reply_id)
  = create_header CMD_ACK_OK session_id reply_id [].
Proof.
  unfold handle_exit. cbv zeta.
  destruct (create_header CMD_ACK_OK session_id reply_id []); reflexivity.
Qed.

Lemma handle_connect_response (st : State) (session_id reply_id : Z) :
  fst (handle_connect st session_id reply_id)
  = create_header (if password st =? 0 then CMD_ACK_OK else CMD_ACK_UNAUTH)
      (if session_id =? 0 then 1000 else session_id) reply_id [].
Proof.
  unfold handle_connect. cbv zeta. state_simpl.
  destruct (password st =? 0); destruct (session_id =? 0); reflexivity.
Qed.

(** Every packet a handler returns is a [create_header] packet with a
    reply command code, the reply identifier of the request and its
    session identifier (1000 for a CONNECT with session 0). *)
Lemma dispatch_frame (st : State) (now : datetime)
  (command session_id reply_id : Z) (data : bytes) :
  frame_of reply_commands (response_session command session_id) reply_id
    (fst (fst (dispatch st now command session_id reply_id data))).
Proof.
  unfold response_session, dispatch. cbv zeta beta.
  destruct (command =? CMD_CONNECT).
  - cbn [fst andb]. rewrite handle_connect_response.
    destruct (password st =? 0); frame_solve.
  - cbn [andb].
    repeat match goal with
           | |- context [if ?c then _ else _] =>
               lazymatch c with
               | (_ =? _) => destruct c
               | (_ || _) => destruct c
               end
           end;
      cbn [fst];
      try rewrite handle_exit_response;
      unfold handle_auth, handle_enable_device, handle_disable_device,
        handle_get_version, handle_get_time, handle_set_time,
        handle_options_rrq, handle_options_wrq, handle_get_free_sizes,
        handle_usertemp_rrq, handle_free_data, handle_prepare_buffer,
        handle_reg_event, handle_start_verify, handle_get_pin_width,
        handle_unlock, handle_test_voice, handle_user_wrq,
        handle_delete_user, handle_refresh_data, handle_delete_usertemp,
        handle_get_usertemp, handle_db_rrq, handle_attlog_rrq,
        handle_start_enroll, handle_cancel_capture, handle_prepare_data,
        handle_data_packet, handle_save_usertemps, handle_read_buffer;
      state_simpl; frame_solve.
Qed.

(** X8. CONNECT stores the session identifier of the request, or 1000
    when that is 0, so the stored identifier is never 0; it marks the
    session authenticated when no password is configured; and it answers
    with OK in that case and UNAUTH otherwise, under the stored session
    identifier and the reply identifier of the request. *)
Theorem connect_assigns_session (st : State) (session_id reply_id : Z) :
  in_unsigned 2 session_id = true ->
  in_unsigned 2 reply_id = true ->
  let st' := snd (handle_connect st session_id reply_id) in
  self_session_id st' = (if session_id =? 0 then 1000 else session_id) /\
  self_session_id st' <> 0 /\
  is_authenticated st' = (password st =? 0) || is_authenticated st /\
  exists frame,
    fst (handle_connect st session_id reply_id) = Ok frame /\
    parse_packet false frame
    = Some (if password st =? 0 then CMD_ACK_OK else CMD_ACK_UNAUTH,
            self_session_id st', reply_id, []).
Proof.
  intros Hs Hr. cbv zeta.
  assert (Hsid : self_session_id (snd (handle_connect st session_id reply_id))
                 = if session_id =? 0 then 1000 else session_id).
  { unfold handle_connect. cbv zeta. state_simpl.
    destruct (password st =? 0); state_simpl;
      destruct (session_id =? 0); reflexivity. }
  rewrite Hsid. split; [reflexivity|]. split.
  - destruct (session_id =? 0) eqn:E; [discriminate|].
    now apply Z.eqb_neq in E.
  - split.
    + unfold handle_connect. cbv zeta. state_simpl.
      destruct (password st =? 0); reflexivity.
    + rewrite handle_connect_response.
      assert (Hs' : in_unsigned 2 (if session_id =? 0 then 1000 else session_id)
                    = true)
        by (destruct (session_id =? 0); [reflexivity|exact Hs]).
      assert (Hc : in_unsigned 2
                     (if password st =? 0 then CMD_ACK_OK else CMD_ACK_UNAUTH)
                   = true)
        by (destruct (password st =? 0); reflexivity).
      pose proof (create_header_ok _ _ _ [] Hc Hs' Hr) as Hok. cbv zeta in Hok.
      eexists. split; [exact Hok|].
      exact (proj1 (create_header_inv _ _ _ _ _ Hs' Hr Hok)).
Qed.

Lemma connect_assigns_session_witness :
  let st' := snd (handle_connect init_default 0 5) in
  self_session_id st' = 1000 /\
  self_session_id st' <> 0 /\
  is_authenticated st' = true /\
  exists frame,
    fst (handle_connect init_default 0 5) = Ok frame /\
    parse_packet false frame = Some (CMD_ACK_OK, self_session_id st', 5, []).
Proof.
  exact (connect_assigns_session init_default 0 5 eq_refl eq_refl).
Defined.

Lemma dispatch_use_tcp (st : State) (now : datetime)
  (command session_id reply_id : Z) (data : bytes) :
  use_tcp (snd (fst (dispatch st now command session_id reply_id data)))
  = use_tcp st.
Proof. exact (proj1 (dispatch_model_cases st now command session_id reply_id data)). Qed.

(** X9. Whenever [handle_packet] returns a response, the request had a
    well-formed header and the response parses, in the transport mode of
    the simulator, to a packet whose command is OK, ERROR, UNAUTH or DATA,
    whose reply identifier is the one of the request and whose session
    identifier is the one of the request (1000 for a CONNECT that came
    with session 0). *)
Theorem handle_packet_response_echo (st : State) (now : datetime)
  (packet response : bytes) (start_enrollment : bool) :
  fst (handle_packet st now packet) = Ok (Some response, start_enrollment) ->
  exists command session_id reply_id data command' payload,
    parse_packet (use_tcp st) packet
    = Some (command, session_id, reply_id, data) /\
    parse_packet (use_tcp st) response
    = Some (command', response_session command session_id, reply_id, payload)
    /\ In command' reply_commands.
Proof.
  unfold handle_packet.
  destruct (parse_packet (use_tcp st) packet) as [[[[c s] r] d]|] eqn:Hp;
    [|intros H; discriminate H].
  destruct (parse_packet_range _ _ _ _ _ _ Hp) as (Hc & Hs & Hr).
  pose proof (dispatch_frame st now c s r d) as Hfr.
  pose proof (dispatch_use_tcp st now c s r d) as Htcp.
  destruct (dispatch st now c s r d) as [[res st'] start].
  cbn [fst snd] in Hfr, Htcp.
  destruct res as [inner|e]; [|intros H; discriminate H].
  destruct (Hfr inner eq_refl) as (c' & payload & Hin & Hh).
  assert (Hs' : in_unsigned 2 (response_session c s) = true).
  { unfold response_session.
    destruct ((c =? CMD_CONNECT) && (s =? 0)); [reflexivity|exact Hs]. }
  destruct (create_header_inv _ _ _ _ _ Hs' Hr Hh) as [Hparse Htruthy].
  rewrite Htruthy, Htcp. cbn [andb].
  destruct (use_tcp st).
  - destruct (create_tcp_top inner) as [frame|e] eqn:Et;
      [|intros H; discriminate H].
    cbn [fst]. intros H. injection H as <- _.
    exists c, s, r, d, c', payload.
    split; [reflexivity|]. split; [|exact Hin].
    rewrite (create_tcp_top_inv _ _ Et). exact Hparse.
  - cbn [fst]. intros H. injection H as <- _.
    exists c, s, r, d, c', payload. auto.
Qed.

(** X10. A packet that the head of [handle_packet] rejects gets no
    response and leaves the state as it was: in TCP mode a packet shorter
    than 16 bytes or one that does not start with 50 50 82 7D, in UDP mode
    a packet shorter than 8 bytes. *)
Theorem handle_packet_drops_malformed (st : State) (now : datetime)
  (packet : bytes) :
  (use_tcp st = true /\
   (blen packet < 16 \/ firstn 4 packet <> [x50; x50; x82; x7d]))
  \/ (use_tcp st = false /\ blen packet < 8) ->
  handle_packet st now packet = (Ok (None, false), st).
Proof.
  intros H.
  assert (Hp : parse_packet (use_tcp st) packet = None);
    [|unfold handle_packet; now rewrite Hp].
  destruct H as [[-> H] | [-> H]].
  - unfold parse_packet. cbv zeta.
    destruct (blen packet <? 8) eqn:E8; [reflexivity|].
    apply Z.ltb_ge in E8.
    destruct packet as [|a0 [|a1 [|a2 [|a3 [|a4 [|a5 [|a6 [|a7 rest]]]]]]]];
      try (unfold blen in E8; cbn [length] in E8; lia).
    change (unpack_uint (slice 0 2 (firstn 8 (a0 :: a1 :: a2 :: a3 :: a4 :: a5 :: a6 :: a7 :: rest))))
      with (unpack_uint [a0; a1]).
    change (unpack_uint (slice 2 4 (firstn 8 (a0 :: a1 :: a2 :: a3 :: a4 :: a5 :: a6 :: a7 :: rest))))
      with (unpack_uint [a2; a3]).
    change (skipn 8 (a0 :: a1 :: a2 :: a3 :: a4 :: a5 :: a6 :: a7 :: rest))
      with rest.
    destruct (negb (unpack_uint [a0; a1] =? MACHINE_PREPARE_DATA_1)
              || negb (unpack_uint [a2; a3] =? MACHINE_PREPARE_DATA_2)) eqn:Em;
      [reflexivity|].
    destruct H as [H|H].
    + rewrite !blen_cons in H.
      destruct (blen rest <? 8) eqn:E; [reflexivity|].
      apply Z.ltb_ge in E. lia.
    + exfalso. apply H. cbn [firstn].
      apply orb_false_iff in Em as [E1 E2].
      apply negb_false_iff, Z.eqb_eq in E1, E2.
      unfold unpack_uint, MACHINE_PREPARE_DATA_1, MACHINE_PREPARE_DATA_2 in E1, E2.
      cbn [int_from_le] in E1, E2.
      pose proof (byte_val_range a0). pose proof (byte_val_range a1).
      pose proof (byte_val_range a2). pose proof (byte_val_range a3).
      assert (byte_val a0 = 80) by lia. assert (byte_val a1 = 80) by lia.
      assert (byte_val a2 = 130) by lia. assert (byte_val a3 = 125) by lia.
      rewrite <- (byte_of_val a0), <- (byte_of_val a1),
        <- (byte_of_val a2), <- (byte_of_val a3).
      repeat match goal with E : byte_val _ = _ |- _ => rewrite E; clear E end.
      reflexivity.
  - unfold parse_packet. cbv zeta.
    apply Z.ltb_lt in H. now rewrite H.
Qed.


Lemma dispatch_unknown (st : State) (now : datetime)
  (command session_id reply_id : Z) (data : bytes) :
  ~ In command handled_commands ->
  dispatch st now command session_id reply_id data
  = ((create_header CMD_ACK_ERROR session_id reply_id [], st), false).
Proof.
  intros H. unfold dispatch. cbv zeta beta.
  assert (Hne : forall k, In k handled_commands -> (command =? k) = false).
  { intros k Hk. apply Z.eqb_neq. intros ->. exact (H Hk). }
  unfold handled_commands in Hne.
  rewrite !Hne by (cbn [In]; tauto).
  reflexivity.
Qed.

(** X11. A packet with a well-formed header whose command code has no
    branch in [handle_packet] is answered with an ERROR packet carrying
    the session and reply identifiers of the request, does not start an
    enrollment and leaves the state as it was. *)
Theorem unknown_command_error (st : State) (now : datetime) (packet : bytes)
  (command session_id reply_id : Z) (data : bytes) :
  parse_packet (use_tcp st) packet
  = Some (command, session_id, reply_id, data) ->
  ~ In command handled_commands ->
  exists response,
    handle_packet st now packet = (Ok (Some response, false), st) /\
    parse_packet (use_tcp st) response
    = Some (CMD_ACK_ERROR, session_id, reply_id, []).
Proof.
  intros Hp Hc.
  destruct (parse_packet_range _ _ _ _ _ _ Hp) as (_ & Hs & Hr).
  unfold handle_packet. rewrite Hp, (dispatch_unknown st now _ _ _ _ Hc).
  pose proof (create_header_ok CMD_ACK_ERROR session_id reply_id []
                eq_refl Hs Hr) as Hok.
  cbv zeta in Hok. rewrite Hok.
  destruct (create_header_inv _ _ _ _ _ Hs Hr Hok) as [Hparse Htruthy].
  rewrite Htruthy. cbn [andb].
  destruct (use_tcp st) eqn:Et.
  - match goal with
    | |- context [create_tcp_top ?inner] =>
        destruct (create_tcp_top inner) as [frame|e] eqn:Etop
    end.
    + exists frame. split; [reflexivity|].
      rewrite (create_tcp_top_inv _ _ Etop). exact Hparse.
    + exfalso. unfold create_tcp_top, pack_uint in Etop.
      cbv zeta in Etop. discriminate Etop.
  - eexists. split; [reflexivity|exact Hparse].
Qed.

(** X12. [create_checksum] never raises: on every byte sequence it
    returns two bytes, the little-endian form of the specification's
    checksum, which is at most 0xFFFE. *)
Theorem create_checksum_total (packet : bytes) :
  exists b0 b1,
    create_checksum packet = Ok [b0; b1] /\
    unpack_uint [b0; b1] = ones_complement_checksum packet /\
    0 <= unpack_uint [b0; b1] <= 65534.
Proof.
  pose proof (checksum_value_range packet) as Hr.
  assert (Hk : in_unsigned 2 (checksum_value packet) = true)
    by (apply in_unsigned_2; lia).
  exists (byte_of (checksum_value packet)),
    (byte_of (checksum_value packet / 256)).
  unfold create_checksum. rewrite (pack_uint_ok _ _ Hk).
  rewrite (unpack_uint_2 _ Hk), <- checksum_value_spec.
  repeat split; lia.
Qed.

(** ** Timestamps, the other way round *)

Lemma decode_time_fields (t : Z) (dt : datetime) :
  decode_time t = Ok dt ->
  dt = mk_datetime (t / 60 / 60 / 24 / 31 / 12 + 2000)
         ((t / 60 / 60 / 24 / 31) mod 12 + 1)
         ((t / 60 / 60 / 24) mod 31 + 1)
         ((t / 60 / 60) mod 24) ((t / 60) mod 60) (t mod 60).
Proof.
  unfold decode_time, datetime_new. cbv zeta.
  destruct (valid_datetime _); [|discriminate]. congruence.
Qed.

(** X13. When [decode_time] returns a datetime for a non-negative [t]
    and its year is before 2100, encoding that datetime gives [t] back:
    [encode_time] packs [t] itself. *)
Theorem encode_decode_time (t : Z) (dt : datetime) :
  0 <= t < 2 ^ 32 ->
  decode_time t = Ok dt ->
  year dt < 2100 ->
  encode_time dt = Ok (int_to_le 4 t) /\
  unpack_uint (int_to_le 4 t) = t.
Proof.
  intros Ht Hd Hy. apply decode_time_fields in Hd. subst dt.
  cbn [year] in Hy.
  assert (Hin : in_unsigned 4 t = true)
    by (apply in_unsigned_4; change (2 ^ 32) with 4294967296 in Ht; lia).
  assert (Hv : encode_time_value
                 (mk_datetime (t / 60 / 60 / 24 / 31 / 12 + 2000)
                    ((t / 60 / 60 / 24 / 31) mod 12 + 1)
                    ((t / 60 / 60 / 24) mod 31 + 1)
                    ((t / 60 / 60) mod 24) ((t / 60) mod 60) (t mod 60)) = t).
  { unfold encode_time_value.
    cbn [year month day hour minute second].
    set (q := t / 60 / 60 / 24 / 31 / 12) in *.
    assert (0 <= q).
    { subst q. repeat apply Z.div_pos; lia. }
    assert (Hq : (q + 2000) mod 100 = q).
    { symmetry. apply (Z.mod_unique (q + 2000) 100 20); lia. }
    rewrite Hq.
    pose proof (Z.div_mod t 60 ltac:(lia)).
    pose proof (Z.div_mod (t / 60) 60 ltac:(lia)).
    pose proof (Z.div_mod (t / 60 / 60) 24 ltac:(lia)).
    pose proof (Z.div_mod (t / 60 / 60 / 24) 31 ltac:(lia)).
    pose proof (Z.div_mod (t / 60 / 60 / 24 / 31) 12 ltac:(lia)).
    fold q in H4. lia. }
  unfold encode_time. rewrite Hv, (pack_uint_ok _ _ Hin).
  split; [reflexivity | now apply int_from_to_le_small].
Qed.

Lemma encode_decode_time_witness :
  encode_time (mk_datetime 2024 2 29 23 59 59) = Ok (int_to_le 4 776563199) /\
  unpack_uint (int_to_le 4 776563199) = 776563199.
Proof.
  assert (Ht : 0 <= 776563199 < 2 ^ 32) by (split; [discriminate|reflexivity]).
  assert (Hy : year (mk_datetime 2024 2 29 23 59 59) < 2100) by reflexivity.
  exact (encode_decode_time 776563199 (mk_datetime 2024 2 29 23 59 59)
           Ht eq_refl Hy).
Defined.

(** X14. On a 32-bit value [decode_time] returns a datetime exactly when
    the day it reads (base 31, plus 1) exists in the month and year it
    reads; otherwise it raises ValueError. The other fields are always
    in range. *)
Theorem decode_time_defined (t : Z) :
  0 <= t < 2 ^ 32 ->
  let d := (t / 60 / 60 / 24) mod 31 + 1 in
  let m := (t / 60 / 60 / 24 / 31) mod 12 + 1 in
  let y := t / 60 / 60 / 24 / 31 / 12 + 2000 in
  (d <= days_in_month y m -> exists dt, decode_time t = Ok dt) /\
  (days_in_month y m < d -> decode_time t = Raise ValueError).
Proof.
  intros Ht. cbv zeta. change (2 ^ 32) with 4294967296 in Ht.
  unfold decode_time, datetime_new. cbv zeta.
  set (d := (t / 60 / 60 / 24) mod 31 + 1).
  set (m := (t / 60 / 60 / 24 / 31) mod 12 + 1).
  set (q := t / 60 / 60 / 24 / 31 / 12).
  assert (Hq : 0 <= q <= 133).
  { subst q. rewrite !Z.div_div by lia.
    split; [apply Z.div_pos; lia|].
    apply Z.lt_succ_r. apply Z.div_lt_upper_bound; lia. }
  pose proof (Z.mod_pos_bound (t / 60 / 60 / 24) 31 ltac:(lia)).
  pose proof (Z.mod_pos_bound (t / 60 / 60 / 24 / 31) 12 ltac:(lia)).
  pose proof (Z.mod_pos_bound (t / 60 / 60) 24 ltac:(lia)).
  pose proof (Z.mod_pos_bound (t / 60) 60 ltac:(lia)).
  pose proof (Z.mod_pos_bound t 60 ltac:(lia)).
  assert (Hv : valid_datetime
                 (mk_datetime (q + 2000) m d ((t / 60 / 60) mod 24)
                    ((t / 60) mod 60) (t mod 60))
               = (d <=? days_in_month (q + 2000) m)).
  { unfold valid_datetime. cbn [year month day hour minute second].
    assert (E1 : (1 <=? q + 2000) = true) by (apply Z.leb_le; lia).
    assert (E2 : (q + 2000 <=? 9999) = true) by (apply Z.leb_le; lia).
    assert (E3 : (1 <=? m) = true) by (apply Z.leb_le; subst m; lia).
    assert (E4 : (m <=? 12) = true) by (apply Z.leb_le; subst m; lia).
    assert (E5 : (1 <=? d) = true) by (apply Z.leb_le; subst d; lia).
    assert (E6 : (0 <=? (t / 60 / 60) mod 24) = true) by (apply Z.leb_le; lia).
    assert (E7 : ((t / 60 / 60) mod 24 <=? 23) = true) by (apply Z.leb_le; lia).
    assert (E8 : (0 <=? (t / 60) mod 60) = true) by (apply Z.leb_le; lia).
    assert (E9 : ((t / 60) mod 60 <=? 59) = true) by (apply Z.leb_le; lia).
    assert (E10 : (0 <=? t mod 60) = true) by (apply Z.leb_le; lia).
    assert (E11 : (t mod 60 <=? 59) = true) by (apply Z.leb_le; lia).
    rewrite E1, E2, E3, E4, E5, E6, E7, E8, E9, E10, E11.
    cbn [andb]. now rewrite !andb_true_r. }
  rewrite Hv. split; intros Hday.
  - apply Z.leb_le in Hday. rewrite Hday. eauto.
  - apply Z.leb_gt in Hday. now rewrite Hday.
Qed.

Lemma decode_time_defined_witness :
  (exists dt, decode_time 776563199 = Ok dt) /\
  decode_time 5184000 = Raise ValueError.
Proof.
  assert (Ht1 : 0 <= 776563199 < 2 ^ 32) by (split; [discriminate|reflexivity]).
  assert (Ht2 : 0 <= 5184000 < 2 ^ 32) by (split; [discriminate|reflexivity]).
  pose proof (decode_time_defined 776563199 Ht1) as H1.
  pose proof (decode_time_defined 5184000 Ht2) as H2.
  cbv zeta in H1, H2. split.
  - apply (proj1 H1). vm_compute. discriminate.
  - apply (proj2 H2). vm_compute. reflexivity.
Defined.

(** ** Bulk upload *)

Lemma data_packets_buffer (s r : Z) (chunks : list bytes) (st : State) :
  data_buffer
    (fold_left (fun st d => snd (handle_data_packet st s r d)) chunks st)
  = data_buffer st ++ concat chunks.
Proof.
  revert st. induction chunks as [|d chunks IH]; intros st; cbn [fold_left concat].
  - now rewrite app_nil_r.
  - rewrite IH. unfold handle_data_packet. state_simpl.
    now rewrite app_assoc.
Qed.

(** X15. PREPARE DATA with a payload of four bytes or more answers OK
    and empties the upload buffer; the DATA packets that follow leave in
    the buffer their payloads, concatenated in the order received. With a
    shorter payload PREPARE DATA answers ERROR and the state, old buffer
    included, stays as it was. *)
Theorem upload_chunks_concat (st : State) (s r : Z) (size : bytes)
  (chunks : list bytes) :
  (4 <= blen size ->
   fst (handle_prepare_data st s r size) = create_header CMD_ACK_OK s r [] /\
   data_buffer
     (fold_left (fun st d => snd (handle_data_packet st s r d)) chunks
        (snd (handle_prepare_data st s r size)))
   = concat chunks) /\
  (blen size < 4 ->
   handle_prepare_data st s r size = (create_header CMD_ACK_ERROR s r [], st)).
Proof.
  unfold handle_prepare_data. cbv zeta. split; intros H.
  - apply Z.leb_le in H. rewrite H. split; [reflexivity|].
    now rewrite data_packets_buffer.
  - apply Z.leb_gt in H. now rewrite H.
Qed.

Lemma upload_chunks_concat_witness :
  data_buffer
    (fold_left (fun st d => snd (handle_data_packet st 1000 2 d))
       [[x01; x02]; [x03]]
       (snd (handle_prepare_data init_default 1000 1 [x03; x00; x00; x00])))
  = [x01; x02; x03]
  /\
  handle_prepare_data init_default 1000 1 [x03]
  = (create_header CMD_ACK_ERROR 1000 1 [], init_default).
Proof.
  split.
  - assert (H : 4 <= blen [x03; x00; x00; x00]) by (unfold blen; simpl; lia).
    exact (proj2 (proj1 (upload_chunks_concat init_default 1000 2
                           [x03; x00; x00; x00] [[x01; x02]; [x03]]) H)).
  - apply (proj2 (upload_chunks_concat init_default 1000 1 [x03] [])).
    unfold blen. simpl. lia.
Defined.

Lemma firstn_app_exact {A : Type} (n : nat) (a b : list A) :
  length a = n -> firstn n (a ++ b) = a.
Proof.
  intros <-. rewrite firstn_app, Nat.sub_diag, firstn_all. cbn [firstn].
  apply app_nil_r.
Qed.

Lemma skipn_app_exact {A : Type} (n : nat) (a b : list A) :
  length a = n -> skipn n (a ++ b) = b.
Proof.
  intros <-. rewrite skipn_app, Nat.sub_diag, skipn_all. reflexivity.
Qed.

Lemma unpack_user72_app (rec rest : bytes) :
  length rec = 72%nat -> unpack_user72 (rec ++ rest) = unpack_user72 rec.
Proof.
  intros H. unfold unpack_user72. cbv zeta.
  rewrite (firstn_app_exact 72 rec rest H), (firstn_length_all 72 rec H).
  reflexivity.
Qed.

Lemma unpack_user28_app (rec rest : bytes) :
  length rec = 28%nat -> unpack_user28 (rec ++ rest) = unpack_user28 rec.
Proof.
  intros H. unfold unpack_user28. cbv zeta.
  rewrite (firstn_app_exact 28 rec rest H), (firstn_length_all 28 rec H).
  reflexivity.
Qed.

Lemma parse_users_short (fuel : nat) (packet_size : Z) (us : list User)
  (tail : bytes) :
  blen tail < packet_size -> parse_users fuel packet_size us tail = us.
Proof.
  intros H. destruct fuel; cbn [parse_users]; [reflexivity|].
  apply Z.leb_gt in H. now rewrite H.
Qed.

Lemma parse_users_72_records (recs : list bytes) :
  forall (us : list User) (tail : bytes),
    (forall rec, In rec recs -> length rec = 72%nat) ->
    blen tail < 72 ->
    parse_users (length (concat recs ++ tail)) 72 us (concat recs ++ tail)
    = fold_left
        (fun us rec => upsert_user us (u_uid (unpack_user72 rec))
                         (unpack_user72 rec)) recs us.
Proof.
  induction recs as [|rec recs IH]; intros us tail Hl Ht.
  - cbn [concat app fold_left]. now apply parse_users_short.
  - pose proof (Hl rec (or_introl eq_refl)) as Hrec.
    cbn [concat fold_left]. rewrite <- app_assoc.
    set (rest := concat recs ++ tail).
    assert (Hlen : length (rec ++ rest) = (length rest + 72)%nat)
      by (rewrite length_app, Hrec; lia).
    assert (Hb : (72 <=? blen (rec ++ rest)) = true)
      by (apply Z.leb_le; unfold blen; lia).
    destruct (length (rec ++ rest)) as [|fuel] eqn:Efuel; [lia|].
    cbn [parse_users].
    rewrite Hb. change (72 =? 72) with true. cbv iota.
    rewrite (unpack_user72_app rec rest Hrec), (skipn_app_exact 72 rec rest Hrec).
    rewrite (parse_users_fuel fuel (length rest) 72 _ rest) by lia.
    subst rest. apply IH; [|exact Ht].
    intros r Hr. apply Hl. now right.
Qed.

Lemma parse_users_28_records (recs : list bytes) :
  forall (us : list User) (tail : bytes),
    (forall rec, In rec recs -> length rec = 28%nat) ->
    blen tail < 28 ->
    parse_users (length (concat recs ++ tail)) 28 us (concat recs ++ tail)
    = fold_left
        (fun us rec => upsert_user us (u_uid (unpack_user28 rec))
                         (unpack_user28 rec)) recs us.
Proof.
  induction recs as [|rec recs IH]; intros us tail Hl Ht.
  - cbn [concat app fold_left]. now apply parse_users_short.
  - pose proof (Hl rec (or_introl eq_refl)) as Hrec.
    cbn [concat fold_left]. rewrite <- app_assoc.
    set (rest := concat recs ++ tail).
    assert (Hlen : length (rec ++ rest) = (length rest + 28)%nat)
      by (rewrite length_app, Hrec; lia).
    assert (Hb : (28 <=? blen (rec ++ rest)) = true)
      by (apply Z.leb_le; unfold blen; lia).
    destruct (length (rec ++ rest)) as [|fuel] eqn:Efuel; [lia|].
    cbn [parse_users].
    rewrite Hb. change (28 =? 72) with false. cbv iota.
    rewrite (unpack_user28_app rec rest Hrec), (skipn_app_exact 28 rec rest Hrec).
    rewrite (parse_users_fuel fuel (length rest) 28 _ rest) by lia.
    subst rest. apply IH; [|exact Ht].
    intros r Hr. apply Hl. now right.
Qed.

(** X16. The user loop of the bulk upload, on a block made of whole
    records followed by fewer bytes than one record, applies the
    update-or-add of each record in order, with the 72-byte layout for
    packet size 72 and the 28-byte layout for packet size 28, and ignores
    the trailing bytes. *)
Theorem parse_users_records (recs : list bytes) (us : list User)
  (tail : bytes) :
  ((forall rec, In rec recs -> length rec = 72%nat) ->
   blen tail < 72 ->
   parse_users (length (concat recs ++ tail)) 72 us (concat recs ++ tail)
   = fold_left
       (fun us rec => upsert_user us (u_uid (unpack_user72 rec))
                        (unpack_user72 rec)) recs us) /\
  ((forall rec, In rec recs -> length rec = 28%nat) ->
   blen tail < 28 ->
   parse_users (length (concat recs ++ tail)) 28 us (concat recs ++ tail)
   = fold_left
       (fun us rec => upsert_user us (u_uid (unpack_user28 rec))
                        (unpack_user28 rec)) recs us).
Proof.
  split.
  - apply parse_users_72_records.
  - apply parse_users_28_records.
Qed.

Lemma parse_users_records_witness :
  parse_users (length (concat [bulk72] ++ [x00])) 72 (users init_default)
    (concat [bulk72] ++ [x00])
  = users init_default ++ [mk_user 9 0 [] (b_lit "Bulk") 0 0 9]
  /\
  parse_users (length (concat [firstn 28 bulk72] ++ [])) 28
    (users init_default) (concat [firstn 28 bulk72] ++ [])
  = users init_default ++ [unpack_user28 bulk72].
Proof.
  split.
  - apply (proj1 (parse_users_records [bulk72] (users init_default) [x00])).
    + intros rec [<-|[]]. reflexivity.
    + unfold blen. simpl. lia.
  - apply (proj2 (parse_users_records [firstn 28 bulk72] (users init_default) [])).
    + intros rec [<-|[]]. reflexivity.
    + unfold blen. simpl. lia.
Defined.

Lemma slice_nat (i j : Z) (b : bytes) :
  slice i j b = firstn (Z.to_nat j - Z.to_nat i) (skipn (Z.to_nat i) b).
Proof. reflexivity. Qed.




(** ** Layout of the list and capacity responses *)

Lemma in_signed_4 (v : Z) :
  in_signed 4 v = true <-> - 2147483648 <= v < 2147483648.
Proof.
  unfold in_signed. change (2 ^ (8 * Z.of_nat 4 - 1)) with 2147483648.
  rewrite andb_true_iff. lia.
Qed.

Lemma unpack_sint_4 (v : Z) :
  in_signed 4 v = true ->
  unpack_sint (int_to_le 4 (v mod 2 ^ (8 * Z.of_nat 4))) = v.
Proof.
  intros H. apply in_signed_4 in H.
  unfold unpack_sint. rewrite int_to_le_length, int_from_to_le.
  change (2 ^ (8 * Z.of_nat 4)) with 4294967296.
  change (2 ^ (8 * Z.of_nat 4 - 1)) with 2147483648.
  rewrite Z.mod_mod by lia.
  destruct (Z.lt_ge_cases v 0) as [Hn|Hn].
  - assert (Hm : v mod 4294967296 = v + 4294967296)
      by (symmetry; apply (Z.mod_unique v 4294967296 (-1)); lia).
    rewrite Hm. destruct (v + 4294967296 <? 2147483648) eqn:E; lia.
  - rewrite Z.mod_small by lia.
    destruct (v <? 2147483648) eqn:E; lia.
Qed.

Lemma pack_ints_app (l : list Z) :
  forall acc,
    Forall (fun v => in_signed 4 v = true) l ->
    for_each l acc (fun acc v => b <- pack_sint 4 v ;; Ok (acc ++ b))
    = Ok (acc ++ concat (map (fun v => int_to_le 4 (v mod 2 ^ (8 * Z.of_nat 4))) l)).
Proof.
  induction l as [|v l IH]; intros acc H; cbn [for_each map concat].
  - now rewrite app_nil_r.
  - inversion H as [|? ? Hv Hl]; subst.
    unfold pack_sint at 1. rewrite Hv. cbn [bind].
    rewrite (IH _ Hl), <- app_assoc. reflexivity.
Qed.

(** X18. GET FREE SIZES, when the six counters and the three
    differences fit a signed 32-bit integer: the response is an OK packet
    with the identifiers of the request and a payload of 92 bytes whose
    32-bit fields 4, 6, 8 hold the users, fingers and records counts,
    fields 14, 15, 16 the fingers, users and records capacities, and
    fields 17, 18, 19 capacity minus count for fingers, users and
    records. *)
Theorem get_free_sizes_layout (st : State) (session_id reply_id : Z) :
  in_unsigned 2 session_id = true ->
  in_unsigned 2 reply_id = true ->
  Forall (fun v => in_signed 4 v = true)
    [users_count st; fingers_count st; records_count st;
     fingers_capacity st; users_capacity st; records_capacity st;
     fingers_capacity st - fingers_count st;
     users_capacity st - users_count st;
     records_capacity st - records_count st] ->
  exists frame payload,
    handle_get_free_sizes st session_id reply_id = Ok frame /\
    parse_packet false frame
    = Some (CMD_ACK_OK, session_id, reply_id, payload) /\
    blen payload = 92 /\
    size_field 4 payload = users_count st /\
    size_field 6 payload = fingers_count st /\
    size_field 8 payload = records_count st /\
    size_field 14 payload = fingers_capacity st /\
    size_field 15 payload = users_capacity st /\
    size_field 16 payload = records_capacity st /\
    size_field 17 payload = fingers_capacity st - fingers_count st /\
    size_field 18 payload = users_capacity st - users_count st /\
    size_field 19 payload = records_capacity st - records_count st.
Proof.
  intros Hs Hr Hall.
  repeat match goal with
         | H : Forall _ (_ :: _) |- _ =>
             let Hv := fresh "Hv" in
             inversion H as [|? ? Hv ?]; subst; clear H
         end.
  unfold handle_get_free_sizes, pack_ints.
  rewrite pack_ints_app by (repeat constructor; assumption).
  cbn [bind]. rewrite pack_ints_app by (repeat constructor).
  cbn [bind app map concat].
  match goal with
  | |- context [create_header _ _ _ ?p] => set (payload := p)
  end.
  pose proof (create_header_ok CMD_ACK_OK session_id reply_id payload
                eq_refl Hs Hr) as Hok.
  cbv zeta in Hok.
  exists ([byte_of CMD_ACK_OK; byte_of (CMD_ACK_OK / 256);
           byte_of (checksum_value
                      ([byte_of CMD_ACK_OK; byte_of (CMD_ACK_OK / 256); x00; x00;
                        byte_of session_id; byte_of (session_id / 256);
                        byte_of reply_id; byte_of (reply_id / 256)] ++ payload));
           byte_of (checksum_value
                      ([byte_of CMD_ACK_OK; byte_of (CMD_ACK_OK / 256); x00; x00;
                        byte_of session_id; byte_of (session_id / 256);
                        byte_of reply_id; byte_of (reply_id / 256)] ++ payload)
                    / 256);
           byte_of session_id; byte_of (session_id / 256);
           byte_of reply_id; byte_of (reply_id / 256)] ++ payload), payload.
  split; [exact Hok|].
  split; [exact (proj1 (create_header_inv _ _ _ _ _ Hs Hr Hok))|].
  split; [reflexivity|].
  repeat split;
    match goal with
    | |- size_field _ _ = ?v =>
        transitivity (unpack_sint (int_to_le 4 (v mod 2 ^ (8 * Z.of_nat 4))));
        [reflexivity | now apply unpack_sint_4]
    end.
Qed.

Lemma get_free_sizes_layout_witness :
  exists frame payload,
    handle_get_free_sizes one_template 1000 1 = Ok frame /\
    parse_packet false frame = Some (CMD_ACK_OK, 1000, 1, payload) /\
    blen payload = 92 /\
    size_field 4 payload = 3 /\
    size_field 6 payload = 1 /\
    size_field 8 payload = 150 /\
    size_field 14 payload = 10000 /\
    size_field 15 payload = 3000 /\
    size_field 16 payload = 100000 /\
    size_field 17 payload = 10000 - 1 /\
    size_field 18 payload = 3000 - 3 /\
    size_field 19 payload = 100000 - 150.
Proof.
  apply (get_free_sizes_layout one_template 1000 1 eq_refl eq_refl).
  repeat constructor.
Defined.

Lemma pack_uint_length (n : nat) (v : Z) (b : bytes) :
  pack_uint n v = Ok b -> length b = n.
Proof.
  unfold pack_uint. destruct (in_unsigned n v); [|discriminate].
  intros H. injection H as <-. apply int_to_le_length.
Qed.

Lemma pack_s_length (n : nat) (s : bytes) : length (pack_s n s) = n.
Proof. unfold pack_s. rewrite length_app, length_firstn, repeat_length. lia. Qed.

Lemma pack_user_entry_length (uid privilege : Z) (password name : bytes)
  (card : Z) (group_id user_id entry : bytes) :
  pack_HB8s24sIx7sx24s uid privilege password name card group_id user_id
  = Ok entry ->
  length entry = 72%nat.
Proof.
  unfold pack_HB8s24sIx7sx24s.
  destruct (pack_uint 2 uid) as [a|] eqn:Ea; [|discriminate].
  destruct (pack_uint 1 privilege) as [b|] eqn:Eb; [|discriminate].
  destruct (pack_uint 4 card) as [c|] eqn:Ec; [|discriminate].
  cbn [bind]. intros H. injection H as <-.
  apply pack_uint_length in Ea, Eb, Ec.
  repeat (rewrite ?length_app, ?pack_s_length; cbn [length]).
  rewrite Ea, Eb, Ec. reflexivity.
Qed.

Lemma for_each_length {A : Type} (k : nat) (body : bytes -> A -> result bytes) :
  (forall acc x out, body acc x = Ok out ->
                     length out = (length acc + k)%nat) ->
  forall (l : list A) (acc out : bytes),
    for_each l acc body = Ok out ->
    length out = (length acc + k * length l)%nat.
Proof.
  intros Hb. induction l as [|x l IH]; intros acc out H; cbn [for_each] in H.
  - injection H as <-. cbn [length]. lia.
  - destruct (body acc x) as [acc'|] eqn:E; [|discriminate H].
    cbn [bind] in H. apply IH in H. apply Hb in E. cbn [length]. lia.
Qed.

(** X19. When USERTEMP RRQ returns a packet, it is a DATA packet with
    the identifiers of the request whose payload is 4 + 72 n bytes long
    for the n users of the list, and the first four bytes of the payload
    are 72 n, little-endian. *)
Theorem usertemp_rrq_size (st : State) (session_id reply_id : Z)
  (frame : bytes) :
  in_unsigned 2 session_id = true ->
  in_unsigned 2 reply_id = true ->
  handle_usertemp_rrq st session_id reply_id = Ok frame ->
  exists payload,
    parse_packet false frame = Some (CMD_DATA, session_id, reply_id, payload) /\
    blen payload = 4 + 72 * len (users st) /\
    unpack_uint (firstn 4 payload) = 72 * len (users st).
Proof.
  intros Hs Hr. unfold handle_usertemp_rrq.
  match goal with
  | |- context [for_each (users st) [] ?body] =>
      destruct (for_each (users st) [] body) as [user_data|] eqn:Eu;
      [pose proof (for_each_length 72 body) as Hlen|discriminate]
  end.
  cbn [bind]. cbv zeta.
  destruct (pack_uint 4 (blen user_data)) as [size|] eqn:Ep; [|discriminate].
  cbn [bind]. intros H.
  assert (Hu : length user_data = (72 * length (users st))%nat).
  { match type of Hlen with
    | (?P -> _) => assert (Hbody : P)
    end.
    { intros acc u out Hb. cbv beta zeta in Hb.
      match type of Hb with
      | (bind ?p _) = _ => destruct p as [e|] eqn:Ee; [|discriminate Hb]
      end.
      cbn [bind] in Hb. injection Hb as <-.
      apply pack_user_entry_length in Ee.
      rewrite length_app, Ee. reflexivity. }
    exact (Hlen Hbody _ _ _ Eu). }
  exists (size ++ user_data).
  split; [exact (proj1 (create_header_inv _ _ _ _ _ Hs Hr H))|].
  pose proof (pack_uint_length _ _ _ Ep) as Hsz.
  split.
  - rewrite blen_app. unfold blen, len. rewrite Hsz, Hu. lia.
  - rewrite (firstn_app_exact 4 size user_data Hsz).
    unfold pack_uint in Ep.
    destruct (in_unsigned 4 (blen user_data)) eqn:Ein; [|discriminate Ep].
    assert (Esz : size = int_to_le 4 (blen user_data)) by congruence.
    rewrite Esz. unfold unpack_uint.
    rewrite (int_from_to_le_small 4 _ Ein). unfold blen, len. rewrite Hu. lia.
Qed.

Lemma usertemp_rrq_size_witness :
  exists payload,
    parse_packet false
      match handle_usertemp_rrq init_default 1000 1 with
      | Ok f => f
      | Raise _ => []
      end
    = Some (CMD_DATA, 1000, 1, payload) /\
    blen payload = 4 + 72 * len (users init_default) /\
    unpack_uint (firstn 4 payload) = 72 * len (users init_default).
Proof.
  apply (usertemp_rrq_size init_default 1000 1 _ eq_refl eq_refl).
  vm_compute. reflexivity.
Defined.





(** X21. In every state the simulator reaches the attendance list is
    empty, so ATTLOG RRQ returns the DATA packet whose payload is the four
    zero bytes of an empty list, while GET FREE SIZES keeps reporting 150
    records. *)
Theorem attlog_always_empty (st : State) (session_id reply_id : Z) :
  reachable st ->
  handle_attlog_rrq st session_id reply_id
  = create_header CMD_DATA session_id reply_id [x00; x00; x00; x00]
  /\ records_count st = 150.
Proof.
  intros H. destruct (reachable_counts st H) as (_ & _ & Hrec & Hatt).
  split; [|exact Hrec].
  unfold handle_attlog_rrq. rewrite Hatt. reflexivity.
Qed.

(** ** The enrollment thread *)

Lemma enrollment_event_ok (st : State) (session_id : Z) (event_data : bytes) :
  in_unsigned 2 session_id = true ->
  blen event_data + 8 < 2 ^ 32 ->
  exists frame,
    enrollment_event st session_id event_data = Ok frame /\
    parse_packet (use_tcp st) frame
    = Some (CMD_REG_EVENT, session_id, 0, event_data).
Proof.
  intros Hs Hlen. unfold enrollment_event.
  pose proof (create_header_ok CMD_REG_EVENT session_id 0 event_data
                eq_refl Hs eq_refl) as Hok.
  cbv zeta in Hok. rewrite Hok. cbn [bind].
  destruct (create_header_inv CMD_REG_EVENT session_id 0 event_data _
              Hs eq_refl Hok) as [Hparse _].
  match type of Hok with _ = Ok ?f => set (inner := f) in * end.
  destruct (use_tcp st); [|now exists inner].
  assert (Hi : blen inner = 8 + blen event_data).
  { subst inner. rewrite blen_app. reflexivity. }
  assert (Hin : in_unsigned 4 (blen inner) = true).
  { apply in_unsigned_4. pose proof (blen_nonneg event_data).
    change (2 ^ 32) with 4294967296 in Hlen. lia. }
  assert (Etop : create_tcp_top inner
                 = Ok ([x50; x50; x82; x7d] ++ int_to_le 4 (blen inner) ++ inner)).
  { unfold create_tcp_top. cbv zeta. rewrite (pack_uint_ok 4 _ Hin).
    reflexivity. }
  rewrite Etop. eexists. split; [reflexivity|].
  rewrite (create_tcp_top_inv _ _ Etop). exact Hparse.
Qed.

(** X22. A run of the enrollment thread in which all fourteen socket
    calls succeed, for a 16-bit session identifier and a finger index in
    0..65535: it sends seven REG_EVENT frames with reply identifier 0 --
    three times the payloads 1 and 100 as 16-bit values, then (0, 512,
    finger) -- and ends in the state [enrollment_finish] gives for an
    acknowledged enrollment, with no exception. *)
Theorem enrollment_run_success (st : State) (session_id : Z)
  (conn : nat -> bool) :
  in_unsigned 2 session_id = true ->
  in_unsigned 2 (enrollment_fid st) = true ->
  (forall k, (k < 14)%nat -> conn k = true) ->
  exists e1 e2 ef,
    simulate_enrollment_events st session_id conn
    = ([e1; e2; e1; e2; e1; e2; ef], enrollment_finish st true, None) /\
    parse_packet (use_tcp st) e1
    = Some (CMD_REG_EVENT, session_id, 0, [x01; x00]) /\
    parse_packet (use_tcp st) e2
    = Some (CMD_REG_EVENT, session_id, 0, [x64; x00]) /\
    parse_packet (use_tcp st) ef
    = Some (CMD_REG_EVENT, session_id, 0,
            [x00; x00; x00; x02] ++ int_to_le 2 (enrollment_fid st)).
Proof.
  intros Hs Hf Hconn.
  destruct (enrollment_event_ok st session_id [x01; x00] Hs eq_refl)
    as (e1 & E1 & P1).
  destruct (enrollment_event_ok st session_id [x64; x00] Hs eq_refl)
    as (e2 & E2 & P2).
  destruct (enrollment_event_ok st session_id
              ([x00; x00; x00; x02] ++ int_to_le 2 (enrollment_fid st))
              Hs eq_refl) as (ef & Ef & Pf).
  exists e1, e2, ef. split; [|auto].
  assert (Efinal : enrollment_final_event st session_id = Ok ef).
  { unfold enrollment_final_event. cbv zeta.
    rewrite (pack_uint_ok 2 _ Hf). exact Ef. }
  unfold simulate_enrollment_events. cbn [scan_attempts].
  change (pack_uint 2 1) with (Ok [x01; x00]).
  change (pack_uint 2 100) with (Ok [x64; x00]).
  cbn [bind]. rewrite E1, E2, Efinal.
  cbn [Nat.mul Nat.add].
  rewrite !Hconn by lia. reflexivity.
Qed.

Lemma enrollment_run_success_witness :
  exists e1 e2 ef,
    simulate_enrollment_events
      (set_enrollment_fid 3 init_default) 1000 (fun _ => true)
    = ([e1; e2; e1; e2; e1; e2; ef],
       enrollment_finish (set_enrollment_fid 3 init_default) true, None) /\
    parse_packet true e1 = Some (CMD_REG_EVENT, 1000, 0, [x01; x00]) /\
    parse_packet true e2 = Some (CMD_REG_EVENT, 1000, 0, [x64; x00]) /\
    parse_packet true ef
    = Some (CMD_REG_EVENT, 1000, 0,
            [x00; x00; x00; x02] ++ int_to_le 2 3).
Proof.
  apply (enrollment_run_success (set_enrollment_fid 3 init_default) 1000
           (fun _ => true) eq_refl eq_refl).
  reflexivity.
Defined.

Lemma scan_attempts_cases (st : State) (session_id : Z) (conn : nat -> bool)
  (attempts : list nat) :
  forall (sent : list bytes)
         (rest : list bytes -> list bytes * State * option exn),
    (exists sent' e,
       scan_attempts st session_id conn attempts sent rest = (sent', st, e))
    \/
    ((forall a, In a attempts ->
                conn (4 * a)%nat = true /\ conn (4 * a + 1)%nat = true /\
                conn (4 * a + 2)%nat = true /\ conn (4 * a + 3)%nat = true) /\
     exists sent',
       scan_attempts st session_id conn attempts sent rest = rest sent').
Proof.
  induction attempts as [|a attempts IH]; intros sent rest; cbn [scan_attempts].
  - right. split; [intros a []|]. now exists sent.
  - destruct (event_data <- pack_uint 2 1 ;;
              enrollment_event st session_id event_data) as [p1|e1];
      [|left; eauto].
    destruct (conn (4 * a)%nat) eqn:C0; cbn [negb]; [|left; eauto].
    destruct (conn (4 * a + 1)%nat) eqn:C1; cbn [negb]; [|left; eauto].
    destruct (event_data <- pack_uint 2 100 ;;
              enrollment_event st session_id event_data) as [p2|e2];
      [|left; eauto].
    destruct (conn (4 * a + 2)%nat) eqn:C2; cbn [negb]; [|left; eauto].
    destruct (conn (4 * a + 3)%nat) eqn:C3; cbn [negb]; [|left; eauto].
    destruct (IH ((sent ++ [p1]) ++ [p2]) rest) as [Hl | [Hall Hr]];
      [left; exact Hl | right].
    split; [|exact Hr].
    intros a' [<-|Hin]; [auto|now apply Hall].
Qed.

(** X23. A run of the enrollment thread in which a socket call fails:
    the template list and the fingers count are left as they were; and
    when the failing call is one of the first twelve (the three scans),
    the whole state is, enrollment mode included. *)
Theorem enrollment_run_io_failure (st : State) (session_id : Z)
  (conn : nat -> bool) :
  let st' := snd (fst (simulate_enrollment_events st session_id conn)) in
  ((exists k, (k < 14)%nat /\ conn k = false) ->
   templates st' = templates st /\ fingers_count st' = fingers_count st) /\
  ((exists k, (k < 12)%nat /\ conn k = false) -> st' = st).
Proof.
  cbv zeta. unfold simulate_enrollment_events.
  match goal with
  | |- context [scan_attempts st session_id conn ?l ?s ?r] =>
      destruct (scan_attempts_cases st session_id conn l s r)
        as [(sent' & e & ->) | [Hall (sent' & ->)]]
  end.
  - cbn [fst snd]. auto.
  - assert (H12 : forall k, (k < 12)%nat -> conn k = true).
    { intros k Hk.
      destruct (Hall 0%nat ltac:(cbn [In]; auto)) as (? & ? & ? & ?).
      destruct (Hall 1%nat ltac:(cbn [In]; auto)) as (? & ? & ? & ?).
      destruct (Hall 2%nat ltac:(cbn [In]; auto)) as (? & ? & ? & ?).
      do 12 (destruct k as [|k]; [assumption|]). lia. }
    split.
    + intros (k & Hk & Hc).
      destruct (enrollment_final_event st session_id); [|cbn [fst snd]; auto].
      destruct (conn 12%nat) eqn:C12; [|cbn [fst snd]; auto].
      destruct (conn 13%nat) eqn:C13; [|cbn [fst snd]; auto].
      exfalso.
      destruct (Nat.lt_ge_cases k 12) as [Hlt|Hge];
        [rewrite (H12 k Hlt) in Hc; discriminate Hc|].
      assert (Hk' : k = 12%nat \/ k = 13%nat) by lia.
      destruct Hk' as [-> | ->]; congruence.
    + intros (k & Hk & Hc). rewrite (H12 k Hk) in Hc. discriminate Hc.
Qed.

Lemma enrollment_run_io_failure_witness :
  let st := set_enrollment_mode true init_default in
  let st' := snd (fst (simulate_enrollment_events st 1000
                         (fun k => negb (Nat.eqb k 5)))) in
  (templates st' = templates st /\ fingers_count st' = fingers_count st) /\
  st' = st.
Proof.
  cbv zeta.
  pose proof (enrollment_run_io_failure (set_enrollment_mode true init_default)
                1000 (fun k => negb (Nat.eqb k 5))) as H.
  cbv zeta in H. destruct H as [H1 H2]. split.
  - apply H1. exists 5%nat. split; [lia|reflexivity].
  - apply H2. exists 5%nat. split; [lia|reflexivity].
Defined.

(** X24. STARTENROLL with a 26-byte (or longer) payload whose finger
    byte is 0x80 or more stores a negative finger index, since the byte is
    read as signed. A run of the enrollment thread from that state, with a
    16-bit session identifier and the twelve socket calls of the scans
    succeeding, sends the six scan events and then dies of struct.error
    when it packs the final event; the state is left as it was, with
    enrollment mode still on and no template stored. *)
Theorem enroll_negative_finger (st : State) (s r : Z) (uid24 : bytes)
  (b flag : byte) (rest : bytes) (session_id : Z) (conn : nat -> bool) :
  length uid24 = 24%nat ->
  128 <= byte_val b ->
  in_unsigned 2 session_id = true ->
  (forall k, (k < 12)%nat -> conn k = true) ->
  let st1 := snd (handle_start_enroll st s r (uid24 ++ b :: flag :: rest)) in
  enrollment_mode st1 = true /\
  enrollment_fid st1 = byte_val b - 256 /\
  exists sent,
    simulate_enrollment_events st1 session_id conn
    = (sent, st1, Some StructError) /\
    length sent = 6%nat.
Proof.
  intros Hl Hb Hs Hconn. cbv zeta.
  assert (Hlen : (26 <=? blen (uid24 ++ b :: flag :: rest)) = true).
  { apply Z.leb_le. rewrite blen_app, !blen_cons. unfold blen at 1.
    rewrite Hl. pose proof (blen_nonneg rest). lia. }
  assert (Hslice : slice 24 25 (firstn 26 (uid24 ++ b :: flag :: rest)) = [b]).
  { rewrite slice_nat.
    change (Z.to_nat 25 - Z.to_nat 24)%nat with 1%nat.
    change (Z.to_nat 24) with 24%nat.
    rewrite firstn_app, Hl. change (26 - 24)%nat with 2%nat.
    rewrite (firstn_all2 (n := 26) uid24) by lia.
    cbn [firstn]. now rewrite (skipn_app_exact 24 uid24 _ Hl). }
  assert (Hfid : unpack_sint [b] = byte_val b - 256).
  { unfold unpack_sint. cbn [int_from_le length].
    change (8 * Z.of_nat 1) with 8. change (2 ^ (8 - 1)) with 128.
    change (2 ^ 8) with 256.
    destruct (byte_val b + 256 * 0 <? 128) eqn:E; lia. }
  set (st1 := snd (handle_start_enroll st s r (uid24 ++ b :: flag :: rest))).
  assert (Hmode : enrollment_mode st1 = true /\
                  enrollment_fid st1 = byte_val b - 256).
  { subst st1. unfold handle_start_enroll. cbv zeta. rewrite Hlen.
    state_simpl. rewrite Hslice, Hfid. auto. }
  destruct Hmode as [Hmode Hneg]. split; [exact Hmode|]. split; [exact Hneg|].
  destruct (enrollment_event_ok st1 session_id [x01; x00] Hs eq_refl)
    as (e1 & E1 & _).
  destruct (enrollment_event_ok st1 session_id [x64; x00] Hs eq_refl)
    as (e2 & E2 & _).
  assert (Efinal : enrollment_final_event st1 session_id = Raise StructError).
  { unfold enrollment_final_event, pack_uint. cbv zeta.
    change (in_unsigned 2 0) with true.
    change (in_unsigned 2 (blen (repeat x00 512))) with true.
    cbn [bind].
    assert (Hout : in_unsigned 2 (enrollment_fid st1) = false).
    { rewrite Hneg. unfold in_unsigned. pose proof (byte_val_range b).
      apply andb_false_iff. left. apply Z.leb_gt. lia. }
    now rewrite Hout. }
  exists [e1; e2; e1; e2; e1; e2]. split; [|reflexivity].
  unfold simulate_enrollment_events. cbn [scan_attempts].
  change (pack_uint 2 1) with (Ok [x01; x00]).
  change (pack_uint 2 100) with (Ok [x64; x00]).
  cbn [bind]. rewrite E1, E2, Efinal.
  cbn [Nat.mul Nat.add].
  rewrite !Hconn by lia. reflexivity.
Qed.

(** ** The session identifier *)

Lemma dispatch_session (st : State) (now : datetime)
  (command session_id reply_id : Z) (data : bytes) :
  let st' := snd (fst (dispatch st now command session_id reply_id data)) in
  self_session_id st' = self_session_id st \/
  self_session_id st' = session_id \/
  self_session_id st' = 1000.
Proof.
  cbv zeta. dispatch_split;
    lazymatch goal with
    | |- self_session_id (snd (handle_save_usertemps _ _ _ _)) = _ \/ _ =>
        destruct (handle_save_usertemps_state st session_id reply_id data)
          as (us & ts & uc & fc & ->); left; reflexivity
    | |- _ =>
        unfold handle_connect, handle_auth, handle_exit, handle_reg_event,
          handle_start_enroll, handle_cancel_capture, handle_prepare_data,
          handle_data_packet, handle_user_wrq, handle_delete_user,
          handle_delete_usertemp;
        cbv zeta;
        repeat match goal with
               | |- context [if ?c then _ else _] => destruct c
               | |- context [match ?x with Ok _ => _ | Raise _ => _ end] =>
                   destruct x
               end;
        state_simpl; auto
    end.
Qed.

(** X25. In every state the simulator reaches the stored session
    identifier is a 16-bit value, so an unsolicited event frame for it
    can always be built, and it parses to a REG_EVENT packet with that
    session identifier and reply identifier 0. *)
Theorem reachable_session_range (st : State) :
  reachable st ->
  in_unsigned 2 (self_session_id st) = true /\
  exists frame,
    enrollment_event st (self_session_id st) [x01; x00] = Ok frame /\
    parse_packet (use_tcp st) frame
    = Some (CMD_REG_EVENT, self_session_id st, 0, [x01; x00]).
Proof.
  intros H.
  assert (Hr : in_unsigned 2 (self_session_id st) = true).
  { induction H as [ip0 port0 password0 tcp0 | st st' _ IH Hstep];
      [reflexivity|].
    destruct Hstep as [st now packet | st acked].
    - destruct (handle_packet_state_cases st now packet)
        as [-> | (c & s & r & d & Hp & ->)]; [exact IH|].
      destruct (parse_packet_range _ _ _ _ _ _ Hp) as (_ & Hs & _).
      destruct (dispatch_session st now c s r d) as [-> | [-> | ->]];
        [exact IH | exact Hs | reflexivity].
    - unfold enrollment_finish. destruct acked; exact IH. }
  split; [exact Hr|].
  exact (enrollment_event_ok st (self_session_id st) [x01; x00] Hr eq_refl).
Qed.

(** ** The counters *)

(** X27. In every state the simulator reaches, the users count is the
    length of the user list, and the fingers count is the length of the
    template list or, as long as no handler has written the template list,
    the 5 of [__init__] over an empty list. *)
Theorem reachable_users_count (st : State) :
  reachable st ->
  users_count st = len (users st) /\
  (fingers_count st = len (templates st) \/
   (templates st = [] /\ fingers_count st = 5)).
Proof.
  intros H. destruct (reachable_counts st H) as (Hu & Hf & _). auto.
Qed.

(** ** The 72-byte user record *)

Lemma lstrip0_zeros (k : nat) (l : bytes) :
  lstrip0 (repeat x00 k ++ l) = lstrip0 l.
Proof. induction k as [|k IH]; [reflexivity|exact IH]. Qed.

Lemma rev_zeros (k : nat) : rev (repeat x00 k) = repeat x00 k.
Proof.
  induction k as [|k IH]; [reflexivity|].
  cbn [repeat rev]. rewrite IH. symmetry. apply repeat_cons.
Qed.

Lemma rstrip0_pad (b : bytes) (k : nat) :
  rstrip0 (b ++ repeat x00 k) = rstrip0 b.
Proof.
  unfold rstrip0. now rewrite rev_app_distr, rev_zeros, lstrip0_zeros.
Qed.

Lemma pack_s_short (n : nat) (s : bytes) :
  (length s <= n)%nat -> pack_s n s = s ++ repeat x00 (n - length s).
Proof. intros H. unfold pack_s. now rewrite firstn_all2 by exact H. Qed.

Lemma pack_uint_inv (n : nat) (v : Z) (b : bytes) :
  pack_uint n v = Ok b -> in_unsigned n v = true /\ b = int_to_le n v.
Proof.
  unfold pack_uint. destruct (in_unsigned n v); [|discriminate].
  intros H. split; [reflexivity|congruence].
Qed.

Lemma slice_app_mid (pre x post : bytes) (i j : Z) :
  Z.to_nat i = length pre ->
  (Z.to_nat j - Z.to_nat i)%nat = length x ->
  slice i j (pre ++ x ++ post) = x.
Proof.
  intros Hi Hj. rewrite slice_nat, Hj, Hi.
  rewrite (skipn_app_exact (length pre) pre _ eq_refl).
  apply firstn_app_exact. reflexivity.
Qed.

(** X26. A user packed as USERTEMP RRQ packs it, whose password has at
    most 8 bytes and whose name has at most 24, neither ending in a NUL
    byte, is read back by the 72-byte layout with the same uid, privilege,
    password, name and card number; the group the layout reads is 0. *)
Theorem user_entry_roundtrip (u : User) (entry : bytes) :
  (length (u_password u) <= 8)%nat ->
  rstrip0 (u_password u) = u_password u ->
  (length (u_name u) <= 24)%nat ->
  rstrip0 (u_name u) = u_name u ->
  pack_HB8s24sIx7sx24s (u_uid u) (u_privilege u)
    (firstn 8 (ljust 8 (u_password u)))
    (ljust 24 (firstn 24 (u_name u)))
    (u_card u)
    (ljust 7 (firstn 7 (str_int (u_group_id u))))
    (ljust 24 (firstn 24 (str_int (u_user_id u))))
  = Ok entry ->
  let v := unpack_user72 entry in
  u_uid v = u_uid u /\ u_privilege v = u_privilege u /\
  u_password v = u_password u /\ u_name v = u_name u /\
  u_card v = u_card u /\ u_group_id v = 0.
Proof.
  intros Hpl Hps Hnl Hns Hpack. cbv zeta.
  unfold pack_HB8s24sIx7sx24s in Hpack.
  destruct (pack_uint 2 (u_uid u)) as [a|] eqn:Ea; [|discriminate Hpack].
  destruct (pack_uint 1 (u_privilege u)) as [b|] eqn:Eb; [|discriminate Hpack].
  destruct (pack_uint 4 (u_card u)) as [c|] eqn:Ec; [|discriminate Hpack].
  cbn [bind] in Hpack.
  apply pack_uint_inv in Ea as [Hu ->], Eb as [Hp ->], Ec as [Hc ->].
  set (P := pack_s 8 (firstn 8 (ljust 8 (u_password u)))) in *.
  set (N := pack_s 24 (ljust 24 (firstn 24 (u_name u)))) in *.
  set (G := pack_s 7 (ljust 7 (firstn 7 (str_int (u_group_id u))))) in *.
  set (U := pack_s 24 (ljust 24 (firstn 24 (str_int (u_user_id u))))) in *.
  assert (HP : length P = 8%nat) by apply pack_s_length.
  assert (HN : length N = 24%nat) by apply pack_s_length.
  assert (HG : length G = 7%nat) by apply pack_s_length.
  assert (HU : length U = 24%nat) by apply pack_s_length.
  assert (He : entry = int_to_le 2 (u_uid u) ++ int_to_le 1 (u_privilege u) ++
                       P ++ N ++ int_to_le 4 (u_card u) ++ [x00] ++ G ++
                       [x00] ++ U) by congruence.
  clear Hpack.
  assert (Hlen : length entry = 72%nat).
  { rewrite He. repeat (rewrite ?length_app, ?int_to_le_length; cbn [length]).
    rewrite HP, HN, HG, HU. reflexivity. }
  assert (HPv : P = u_password u ++ repeat x00 (8 - length (u_password u))).
  { subst P. unfold ljust.
    rewrite (firstn_length_all 8) by (rewrite length_app, repeat_length; lia).
    rewrite pack_s_short by (rewrite length_app, repeat_length; lia).
    rewrite length_app, repeat_length.
    replace (8 - (length (u_password u) + (8 - length (u_password u))))%nat
      with 0%nat by lia.
    cbn [repeat]. now rewrite app_nil_r. }
  assert (HNv : N = u_name u ++ repeat x00 (24 - length (u_name u))).
  { subst N. unfold ljust.
    rewrite (firstn_all2 (n := 24) (u_name u)) by exact Hnl.
    rewrite pack_s_short by (rewrite length_app, repeat_length; lia).
    rewrite length_app, repeat_length.
    replace (24 - (length (u_name u) + (24 - length (u_name u))))%nat
      with 0%nat by lia.
    cbn [repeat]. now rewrite app_nil_r. }
  unfold unpack_user72. cbv zeta.
  rewrite (firstn_length_all 72 entry Hlen).
  cbn [u_uid u_privilege u_password u_name u_card u_group_id].
  assert (S1 : slice 0 2 entry = int_to_le 2 (u_uid u)).
  { rewrite He. apply (slice_app_mid [] _ _ 0 2); reflexivity. }
  assert (S2 : slice 2 3 entry = int_to_le 1 (u_privilege u)).
  { rewrite He. apply (slice_app_mid (int_to_le 2 (u_uid u)) _ _ 2 3);
      reflexivity. }
  assert (S3 : slice 3 11 entry = P).
  { rewrite He.
    replace (int_to_le 2 (u_uid u) ++ int_to_le 1 (u_privilege u) ++ P ++ N ++
             int_to_le 4 (u_card u) ++ [x00] ++ G ++ [x00] ++ U)
      with ((int_to_le 2 (u_uid u) ++ int_to_le 1 (u_privilege u)) ++ P ++
            (N ++ int_to_le 4 (u_card u) ++ [x00] ++ G ++ [x00] ++ U))
      by (now rewrite <- !app_assoc).
    apply slice_app_mid; [reflexivity|now rewrite HP]. }
  assert (S4 : slice 11 35 entry = N).
  { rewrite He.
    replace (int_to_le 2 (u_uid u) ++ int_to_le 1 (u_privilege u) ++ P ++ N ++
             int_to_le 4 (u_card u) ++ [x00] ++ G ++ [x00] ++ U)
      with ((int_to_le 2 (u_uid u) ++ int_to_le 1 (u_privilege u) ++ P) ++ N ++
            (int_to_le 4 (u_card u) ++ [x00] ++ G ++ [x00] ++ U))
      by (now rewrite <- !app_assoc).
    apply slice_app_mid; [|now rewrite HN].
    repeat (rewrite ?length_app, ?int_to_le_length). now rewrite HP. }
  assert (S5 : slice 35 39 entry = int_to_le 4 (u_card u)).
  { rewrite He.
    replace (int_to_le 2 (u_uid u) ++ int_to_le 1 (u_privilege u) ++ P ++ N ++
             int_to_le 4 (u_card u) ++ [x00] ++ G ++ [x00] ++ U)
      with ((int_to_le 2 (u_uid u) ++ int_to_le 1 (u_privilege u) ++ P ++ N) ++
            int_to_le 4 (u_card u) ++ ([x00] ++ G ++ [x00] ++ U))
      by (now rewrite <- !app_assoc).
    apply slice_app_mid; [|reflexivity].
    repeat (rewrite ?length_app, ?int_to_le_length). now rewrite HP, HN. }
  rewrite S1, S2, S3, S4, S5, HPv, HNv, !rstrip0_pad, Hps, Hns.
  unfold unpack_uint.
  rewrite !int_from_to_le_small by assumption.
  repeat split; reflexivity.
Qed.

Lemma user_entry_roundtrip_witness :
  let u := mk_user 2 0 (b_lit "12345") (b_lit "User001") 123456 0 2 in
  let v := unpack_user72
             match pack_HB8s24sIx7sx24s (u_uid u) (u_privilege u)
                     (firstn 8 (ljust 8 (u_password u)))
                     (ljust 24 (firstn 24 (u_name u)))
                     (u_card u)
                     (ljust 7 (firstn 7 (str_int (u_group_id u))))
                     (ljust 24 (firstn 24 (str_int (u_user_id u)))) with
             | Ok e => e
             | Raise _ => []
             end in
  u_uid v = u_uid u /\ u_privilege v = u_privilege u /\
  u_password v = u_password u /\ u_name v = u_name u /\
  u_card v = u_card u /\ u_group_id v = 0.
Proof.
  cbv zeta.
  apply (user_entry_roundtrip
           (mk_user 2 0 (b_lit "12345") (b_lit "User001") 123456 0 2)).
  - simpl. lia.
  - reflexivity.
  - simpl. lia.
  - reflexivity.
  - vm_compute. reflexivity.
Defined.

(** ** Clock and template upload *)

(** X28. GET TIME, for a clock value with valid fields and a year in
    2000..2099 and 16-bit identifiers: the response is an OK packet with
    the identifiers of the request whose 4-byte payload [decode_time]
    reads back as the clock value. *)
Theorem get_time_decodes (now : datetime) (session_id reply_id : Z) :
  valid_datetime now = true ->
  2000 <= year now <= 2099 ->
  in_unsigned 2 session_id = true ->
  in_unsigned 2 reply_id = true ->
  exists frame payload,
    handle_get_time now session_id reply_id = Ok frame /\
    parse_packet false frame = Some (CMD_ACK_OK, session_id, reply_id, payload) /\
    length payload = 4%nat /\
    decode_time (unpack_uint payload) = Ok now.
Proof.
  intros Hv Hy Hs Hr.
  pose proof (encode_time_value_range now Hv) as Hrange.
  assert (Hin : in_unsigned 4 (encode_time_value now) = true)
    by (apply in_unsigned_4; lia).
  unfold handle_get_time, encode_time. rewrite (pack_uint_ok 4 _ Hin).
  cbn [bind].
  pose proof (create_header_ok CMD_ACK_OK session_id reply_id
                (int_to_le 4 (encode_time_value now)) eq_refl Hs Hr) as Hok.
  cbv zeta in Hok.
  eexists. exists (int_to_le 4 (encode_time_value now)).
  split; [exact Hok|].
  split; [exact (proj1 (create_header_inv _ _ _ _ _ Hs Hr Hok))|].
  split; [apply int_to_le_length|].
  unfold unpack_uint. rewrite (int_from_to_le_small 4 _ Hin).
  now apply decode_encode_value.
Qed.

Lemma get_time_decodes_witness :
  exists frame payload,
    handle_get_time (mk_datetime 2024 2 29 23 59 59) 1000 4 = Ok frame /\
    parse_packet false frame = Some (CMD_ACK_OK, 1000, 4, payload) /\
    length payload = 4%nat /\
    decode_time (unpack_uint payload) = Ok (mk_datetime 2024 2 29 23 59 59).
Proof.
  assert (Hy : 2000 <= year (mk_datetime 2024 2 29 23 59 59) <= 2099)
    by (simpl; lia).
  exact (get_time_decodes (mk_datetime 2024 2 29 23 59 59) 1000 4
           eq_refl Hy eq_refl eq_refl).
Defined.




End Simulator.

Lemma handle_packet_ignores_length_witness :
  handle_packet decode_ascii_ignore int_of_ascii init_default
    (mk_datetime 2024 1 1 0 0 0) connect_frame
  = handle_packet decode_ascii_ignore int_of_ascii init_default
      (mk_datetime 2024 1 1 0 0 0) connect_frame_wrong_length.
Proof.
  apply (handle_packet_ignores_length decode_ascii_ignore int_of_ascii
           init_default (mk_datetime 2024 1 1 0 0 0)
           connect_frame connect_frame_wrong_length);
    reflexivity.
Defined.

Lemma handle_packet_drops_malformed_witness :
  handle_packet decode_ascii_ignore int_of_ascii init_default
    (mk_datetime 2024 1 1 0 0 0)
    [x82; x7d; x50; x50; x08; x00; x00; x00;
     xe8; x03; x00; x00; x00; x00; x00; x00]
  = (Ok (None, false), init_default).
Proof.
  apply handle_packet_drops_malformed. left. split; [reflexivity|].
  right. discriminate.
Defined.

Lemma handle_packet_response_echo_witness :
  exists command session_id reply_id data command' payload,
    parse_packet (use_tcp init_default) connect_frame
    = Some (command, session_id, reply_id, data) /\
    parse_packet (use_tcp init_default) connect_response
    = Some (command', response_session command session_id, reply_id, payload)
    /\ In command' reply_commands.
Proof.
  apply (handle_packet_response_echo decode_ascii_ignore int_of_ascii
           init_default (mk_datetime 2024 1 1 0 0 0)
           connect_frame connect_response false).
  vm_compute. reflexivity.
Defined.

Lemma unknown_command_error_witness :
  exists response,
    handle_packet decode_ascii_ignore int_of_ascii init_default
      (mk_datetime 2024 1 1 0 0 0) unknown_frame
    = (Ok (Some response, false), init_default) /\
    parse_packet (use_tcp init_default) response
    = Some (CMD_ACK_ERROR, 1000, 7, []).
Proof.
  apply (unknown_command_error decode_ascii_ignore int_of_ascii init_default
           (mk_datetime 2024 1 1 0 0 0) unknown_frame 9999 1000 7 []).
  - reflexivity.
  - unfold handled_commands. cbn [In]. intros H.
    repeat (destruct H as [H|H]; [discriminate H|]). exact H.
Defined.

Lemma attlog_always_empty_witness :
  handle_attlog_rrq init_default 1000 1
  = create_header CMD_DATA 1000 1 [x00; x00; x00; x00]
  /\ records_count init_default = 150.
Proof.
  apply (attlog_always_empty decode_ascii_ignore int_of_ascii init_default
           1000 1).
  apply reach_init.
Defined.

Lemma reachable_unique_uids_witness :
  NoDup (map u_uid (users init_default)).
Proof.
  apply (reachable_unique_uids decode_ascii_ignore int_of_ascii init_default).
  apply reach_init.
Defined.

Lemma reachable_unique_template_keys_witness :
  NoDup (map template_key
           (templates (enrollment_finish init_default true))).
Proof.
  apply (reachable_unique_template_keys decode_ascii_ignore int_of_ascii).
  apply (reach_step decode_ascii_ignore int_of_ascii init_default).
  - apply reach_init.
  - apply step_enrollment.
Defined.

Lemma enroll_negative_finger_witness :
  let st1 := snd (handle_start_enroll decode_ascii_ignore int_of_ascii
                    init_default 1000 1
                    (repeat x00 24 ++ xff :: x01 :: [])) in
  enrollment_mode st1 = true /\
  enrollment_fid st1 = byte_val xff - 256 /\
  exists sent,
    simulate_enrollment_events st1 1000 (fun _ => true)
    = (sent, st1, Some StructError) /\
    length sent = 6%nat.
Proof.
  apply (enroll_negative_finger decode_ascii_ignore int_of_ascii init_default
           1000 1 (repeat x00 24) xff x01 [] 1000 (fun _ => true)).
  - reflexivity.
  - vm_compute. discriminate.
  - reflexivity.
  - reflexivity.
Defined.

Lemma reachable_session_range_witness :
  in_unsigned 2 (self_session_id init_default) = true /\
  exists frame,
    enrollment_event init_default (self_session_id init_default) [x01; x00]
    = Ok frame /\
    parse_packet (use_tcp init_default) frame
    = Some (CMD_REG_EVENT, self_session_id init_default, 0, [x01; x00]).
Proof.
  apply (reachable_session_range decode_ascii_ignore int_of_ascii init_default).
  apply reach_init.
Defined.

Lemma reachable_users_count_witness :
  let st := snd (handle_packet decode_ascii_ignore int_of_ascii init_default
                   (mk_datetime 2024 1 1 0 0 0) connect_frame) in
  users_count st = len (users st) /\
  (fingers_count st = len (templates st) \/
   (templates st = [] /\ fingers_count st = 5)).
Proof.
  cbv zeta.
  apply (reachable_users_count decode_ascii_ignore int_of_ascii).
  apply (reach_step decode_ascii_ignore int_of_ascii init_default).
  - apply reach_init.
  - apply step_packet.
Defined.
